(** * publish.py: a shallow embedding and its verified properties

    The blog publisher [publish.py] of sotoalt.dev turns markdown posts into
    HTML pages, keeps an index of posts and emits an RSS feed.  This file
    embeds its pure core in Rocq:

    - the text primitives of Python that the program calls ([str.strip],
      [str.split], [str.replace], [html.escape], the handful of regular
      expressions given to [re.match], [re.search] and [re.sub]);
    - [parse_frontmatter], [process_inline], [markdown_to_html],
      [estimate_reading_time], [get_slug_from_filename],
      [extract_metadata_from_html], [publish_post] (the record it builds) and
      [get_all_posts];
    - [format_date_display] and [format_date_rss] with the part of
      [strptime] and [strftime] they use, the page [publish_post] writes, the
      loop of [rebuild_all], [generate_rss], and [update_index] with the
      replacement template of [re.sub];

    and proves properties of them: one section for each claim C1 to C10 of
    the specification, then further properties X1 to X30 read off the code.

    Modelling conventions.  A Python [str] is a [string]; a character is an
    [ascii], read as a code point in 0..255.  A [dict] with string keys is a
    [gmap string string].  The file system is an input: a directory is the
    list of its (name, content) entries in the order [glob] yields them, or
    [None] when it does not exist.  The clock ([datetime.now]) is an input
    too. *)

From Stdlib Require Import Ascii String ZArith Lia.
From stdpp Require Import gmap strings list sorting.

Local Open Scope stdpp_scope.

(** ** Characters *)

Definition chr (n : nat) : ascii := ascii_of_nat n.

(** The characters the program names. *)
Definition c_nl : ascii := chr 10.
Definition c_dquote : ascii := chr 34.
Definition c_squote : ascii := chr 39.
Definition c_amp : ascii := "&"%char.
Definition c_lt : ascii := "<"%char.
Definition c_gt : ascii := ">"%char.
Definition c_star : ascii := "*"%char.
Definition c_under : ascii := "_"%char.
Definition c_tick : ascii := "`"%char.
Definition c_dash : ascii := "-"%char.
Definition c_lbrack : ascii := "["%char.
Definition c_rbrack : ascii := "]"%char.
Definition c_lparen : ascii := "("%char.
Definition c_rparen : ascii := ")"%char.
Definition c_colon : ascii := ":"%char.
Definition c_dot : ascii := "."%char.

Definition ch_eqb (a b : ascii) : bool := Ascii.eqb a b.
Definition ch_neqb (a b : ascii) : bool := negb (ch_eqb a b).

Global Arguments ch_eqb : simpl never.

(** [str.isspace] on code points below 256: TAB..CR, FS..US, space, NEL and
    the no-break space. *)
Definition py_isspace (c : ascii) : bool :=
  let n := nat_of_ascii c in
  ((9 <=? n) && (n <=? 13)) || ((28 <=? n) && (n <=? 32))
  || (n =? 133) || (n =? 160).

(** The class [\d] on code points below 256. *)
Definition is_digit (c : ascii) : bool :=
  let n := nat_of_ascii c in (48 <=? n) && (n <=? 57).

(** The class [.] (anything but a newline). *)
Definition not_newline (c : ascii) : bool := ch_neqb c c_nl.

(** ** Strings *)

Definition str1 (c : ascii) : string := String c EmptyString.

Definition dq : string := str1 c_dquote.
Definition sq : string := str1 c_squote.
Definition nl : string := str1 c_nl.

Definition is_empty (s : string) : bool :=
  match s with EmptyString => true | String _ _ => false end.

(** [s.startswith(p)] *)
Fixpoint startswith (p s : string) : bool :=
  match p, s with
  | EmptyString, _ => true
  | String a p', String b s' => ch_eqb a b && startswith p' s'
  | String _ _, EmptyString => false
  end.

(** [s[len(p):]] when [s.startswith(p)] *)
Fixpoint strip_prefix (p s : string) : option string :=
  match p, s with
  | EmptyString, _ => Some s
  | String a p', String b s' => if ch_eqb a b then strip_prefix p' s' else None
  | String _ _, EmptyString => None
  end.

(** [s[n:]] *)
Fixpoint str_drop (n : nat) (s : string) : string :=
  match n, s with
  | 0, _ => s
  | S n', String _ s' => str_drop n' s'
  | S _, EmptyString => EmptyString
  end.

(** [s.endswith(p)] *)
Definition endswith (p s : string) : bool :=
  (String.length p <=? String.length s)
  && String.eqb (str_drop (String.length s - String.length p) s) p.

(** [s.lstrip()] / [s.rstrip()] / [s.strip()] over a class of characters. *)
Fixpoint lstrip_by (p : ascii → bool) (s : string) : string :=
  match s with
  | EmptyString => EmptyString
  | String c s' => if p c then lstrip_by p s' else s
  end.

Fixpoint rstrip_by (p : ascii → bool) (s : string) : string :=
  match s with
  | EmptyString => EmptyString
  | String c s' =>
      let r := rstrip_by p s' in
      if is_empty r && p c then EmptyString else String c r
  end.

Definition strip_by (p : ascii → bool) (s : string) : string :=
  rstrip_by p (lstrip_by p s).

(** [s.strip()] *)
Definition py_strip (s : string) : string := strip_by py_isspace s.

(** [s.strip(c)] for a one-character argument. *)
Definition strip_char (c : ascii) (s : string) : string := strip_by (ch_eqb c) s.

(** [sep.join(l)] *)
Fixpoint join (sep : string) (l : list string) : string :=
  match l with
  | [] => EmptyString
  | [x] => x
  | x :: l' => x +:+ sep +:+ join sep l'
  end.

(** [s.split(c)] for a one-character separator: never the empty list. *)
Fixpoint split_char (c : ascii) (s : string) : list string :=
  match s with
  | EmptyString => [EmptyString]
  | String x s' =>
      let r := split_char c s' in
      if ch_eqb x c then EmptyString :: r
      else match r with
           | h :: t => String x h :: t
           | [] => [str1 x]
           end
  end.

(** The leftmost occurrence of [sep]: the text before it and the text after
    it ([s.partition(sep)] without the separator). *)
Fixpoint find_sub (sep s : string) : option (string * string) :=
  match strip_prefix sep s with
  | Some rest => Some (EmptyString, rest)
  | None =>
      match s with
      | EmptyString => None
      | String c s' =>
          match find_sub sep s' with
          | Some (a, b) => Some (String c a, b)
          | None => None
          end
      end
  end.

(** [s.split(sep, maxsplit)] *)
Fixpoint split_max (sep : string) (maxsplit : nat) (s : string) : list string :=
  match maxsplit with
  | 0 => [s]
  | S k =>
      match find_sub sep s with
      | Some (a, b) => a :: split_max sep k b
      | None => [s]
      end
  end.

(** [s.count(sep)]: non-overlapping occurrences, leftmost first.  The
    counter [skip] is the number of characters of the current occurrence
    still to step over. *)
Fixpoint count_from (sep : string) (skip : nat) (s : string) : nat :=
  match s with
  | EmptyString => 0
  | String _ s' =>
      match skip with
      | S k => count_from sep k s'
      | 0 =>
          if startswith sep s
          then S (count_from sep (String.length sep - 1) s')
          else count_from sep 0 s'
      end
  end.

Definition str_count (sep s : string) : nat := count_from sep 0 s.

(** [s.replace(old, new)] for a non-empty [old], with the same counter. *)
Fixpoint replace_from (old new : string) (skip : nat) (s : string) : string :=
  match s with
  | EmptyString => EmptyString
  | String c s' =>
      match skip with
      | S k => replace_from old new k s'
      | 0 =>
          if startswith old s
          then new +:+ replace_from old new (String.length old - 1) s'
          else String c (replace_from old new 0 s')
      end
  end.

Definition str_replace (old new s : string) : string := replace_from old new 0 s.

(** [s.split()]: the maximal runs of non-space characters. *)
Fixpoint split_ws_go (cur : string) (s : string) : list string :=
  match s with
  | EmptyString => if is_empty cur then [] else [cur]
  | String c s' =>
      if py_isspace c
      then (if is_empty cur then split_ws_go EmptyString s'
            else cur :: split_ws_go EmptyString s')
      else split_ws_go (cur +:+ str1 c) s'
  end.

Definition split_ws (s : string) : list string := split_ws_go EmptyString s.

(** [html.escape(s)] (with [quote=True]), as the library writes it: five
    replacements, the ampersand first. *)
Definition html_escape (s : string) : string :=
  let s := str_replace "&" "&amp;" s in
  let s := str_replace "<" "&lt;" s in
  let s := str_replace ">" "&gt;" s in
  let s := str_replace dq "&quot;" s in
  let s := str_replace sq "&#x27;" s in
  s.

(** ** Regular expressions

    Every pattern of the program is a sequence of literals, single
    characters of a class, greedy repetitions of a class and capture groups
    that do not nest.  [match_items] is a backtracking matcher for such
    sequences, anchored at the start of the subject like [re.match]: a
    greedy repetition first takes the longest run and gives characters back
    one at a time while the rest of the pattern fails.  The matcher carries
    the text of the group that is open ([cur]) and the groups closed so far
    ([gs]); it returns the groups and the unconsumed rest of the subject. *)

Inductive re_item : Type :=
| Lit (s : string)            (* literal text *)
| One (p : ascii → bool)      (* one character of the class *)
| Star (p : ascii → bool)     (* class*, greedy *)
| Plus (p : ascii → bool)     (* class+, greedy *)
| GOpen                       (* ( *)
| GClose.                     (* ) *)

Definition regex : Type := list re_item.

Definition mresult : Type := list string * string.
Definition mcont : Type := option string → list string → string → option mresult.

Definition extend (cur : option string) (t : string) : option string :=
  (λ a, a +:+ t) <$> cur.

Fixpoint greedy (p : ascii → bool) (k : mcont)
    (cur : option string) (gs : list string) (s : string) : option mresult :=
  match s with
  | String c s' =>
      if p c then
        match greedy p k (extend cur (str1 c)) gs s' with
        | Some r => Some r
        | None => k cur gs s
        end
      else k cur gs s
  | EmptyString => k cur gs s
  end.

Fixpoint match_items (items : regex) : mcont :=
  match items with
  | [] => λ _ gs s, Some (gs, s)
  | Lit l :: its => λ cur gs s,
      match strip_prefix l s with
      | Some s' => match_items its (extend cur l) gs s'
      | None => None
      end
  | One p :: its => λ cur gs s,
      match s with
      | String c s' =>
          if p c then match_items its (extend cur (str1 c)) gs s' else None
      | EmptyString => None
      end
  | Star p :: its => greedy p (match_items its)
  | Plus p :: its => λ cur gs s,
      match s with
      | String c s' =>
          if p c then greedy p (match_items its) (extend cur (str1 c)) gs s'
          else None
      | EmptyString => None
      end
  | GOpen :: its => λ _ gs s, match_items its (Some EmptyString) gs s
  | GClose :: its => λ cur gs s,
      match_items its None (gs ++ [default EmptyString cur]) s
  end.

(** [re.match(re, s)]: the groups and the rest after the match. *)
Definition re_match (re : regex) (s : string) : option mresult :=
  match_items re None [] s.

(** [re.search(re, s)]: the leftmost match. *)
Fixpoint re_search (re : regex) (s : string) : option mresult :=
  match re_match re s with
  | Some r => Some r
  | None =>
      match s with
      | EmptyString => None
      | String _ s' => re_search re s'
      end
  end.

(** Group [n] of a match ([\n] in a replacement, [match.group(n)]). *)
Definition grp (n : nat) (gs : list string) : string :=
  default EmptyString (gs !! (n - 1)).

(** [re.sub(re, repl, s)] for a pattern that matches no empty text (all
    patterns substituted by the program need at least three characters):
    scan from the left; at a match emit the replacement and step over the
    matched text, elsewhere copy the character. *)
Fixpoint sub_from (re : regex) (repl : list string → string)
    (skip : nat) (s : string) : string :=
  match s with
  | EmptyString => EmptyString
  | String c s' =>
      match skip with
      | S k => sub_from re repl k s'
      | 0 =>
          match re_match re s with
          | Some (gs, rest) =>
              repl gs +:+
              sub_from re repl (String.length s' - String.length rest) s'
          | None => String c (sub_from re repl 0 s')
          end
      end
  end.

Definition re_sub (re : regex) (repl : list string → string) (s : string) : string :=
  sub_from re repl 0 s.

(** The class [[^c]]. *)
Definition not_char (x : ascii) (c : ascii) : bool := ch_neqb c x.

(** [\d{n}] *)
Definition digits (n : nat) : regex := replicate n (One is_digit).

(** ** process_inline *)

(** [r'`([^`]+)`'] *)
Definition re_code : regex :=
  [Lit "`"; GOpen; Plus (not_char c_tick); GClose; Lit "`"].
(** [r'\*\*([^*]+)\*\*'] *)
Definition re_bold_star : regex :=
  [Lit "**"; GOpen; Plus (not_char c_star); GClose; Lit "**"].
(** [r'__([^_]+)__'] *)
Definition re_bold_under : regex :=
  [Lit "__"; GOpen; Plus (not_char c_under); GClose; Lit "__"].
(** [r'\*([^*]+)\*'] *)
Definition re_em_star : regex :=
  [Lit "*"; GOpen; Plus (not_char c_star); GClose; Lit "*"].
(** [r'_([^_]+)_'] *)
Definition re_em_under : regex :=
  [Lit "_"; GOpen; Plus (not_char c_under); GClose; Lit "_"].
(** [r'\[([^\]]+)\]\(([^)]+)\)'] *)
Definition re_link : regex :=
  [Lit "["; GOpen; Plus (not_char c_rbrack); GClose; Lit "](";
   GOpen; Plus (not_char c_rparen); GClose; Lit ")"].

(** [r'<tag>\1</tag>'] *)
Definition wrap_tag (tag : string) (gs : list string) : string :=
  "<" +:+ tag +:+ ">" +:+ grp 1 gs +:+ "</" +:+ tag +:+ ">".

(** [r'<a href="\2">\1</a>'] *)
Definition link_repl (gs : list string) : string :=
  "<a href=" +:+ dq +:+ grp 2 gs +:+ dq +:+ ">" +:+ grp 1 gs +:+ "</a>".

Definition process_inline (text : string) : string :=
  (* Escape HTML first *)
  let text := html_escape text in
  (* Code (backticks) *)
  let text := re_sub re_code (wrap_tag "code") text in
  (* Bold *)
  let text := re_sub re_bold_star (wrap_tag "strong") text in
  let text := re_sub re_bold_under (wrap_tag "strong") text in
  (* Italic *)
  let text := re_sub re_em_star (wrap_tag "em") text in
  let text := re_sub re_em_under (wrap_tag "em") text in
  (* Links *)
  let text := re_sub re_link link_repl text in
  (* Em dash *)
  let text := str_replace "--" "&mdash;" text in
  text.

(** ** markdown_to_html *)

(** The variables of the loop: [html_lines], [in_list], [in_code] and
    [code_block]. *)
Record conv_state : Type := ConvState {
  html_lines : list string;
  in_list : bool;
  in_code : bool;
  code_block : list string
}.

Definition conv_init : conv_state :=
  {| html_lines := []; in_list := false; in_code := false; code_block := [] |}.

(** [html_lines.append(x)] *)
Definition emit (x : string) (st : conv_state) : conv_state :=
  {| html_lines := html_lines st ++ [x]; in_list := in_list st;
     in_code := in_code st; code_block := code_block st |}.

Definition set_in_list (b : bool) (st : conv_state) : conv_state :=
  {| html_lines := html_lines st; in_list := b;
     in_code := in_code st; code_block := code_block st |}.

(** The closing fence: emit the buffer, escaped, and leave code mode. *)
Definition close_code (st : conv_state) : conv_state :=
  {| html_lines := html_lines st ++
       ["<pre><code>" +:+ html_escape (join nl (code_block st)) +:+ "</code></pre>"];
     in_list := in_list st; in_code := false; code_block := [] |}.

(** The opening fence. *)
Definition open_code (st : conv_state) : conv_state :=
  {| html_lines := html_lines st; in_list := in_list st;
     in_code := true; code_block := code_block st |}.

(** [code_block.append(line)] *)
Definition buffer_code (line : string) (st : conv_state) : conv_state :=
  {| html_lines := html_lines st; in_list := in_list st;
     in_code := in_code st; code_block := code_block st ++ [line] |}.

Definition is_fence (line : string) : bool := startswith "```" line.

(** [line.strip().startswith("- ") or line.strip().startswith("* ")] *)
Definition is_bullet (line : string) : bool :=
  startswith "- " (py_strip line) || startswith "* " (py_strip line).

(** Close list if needed. *)
Definition close_list (line : string) (st : conv_state) : conv_state :=
  if in_list st && negb (is_bullet line)
  then set_in_list false (emit "</ul>" st)
  else st.

(** [line.strip() in ("---", "***", "___")] *)
Definition is_rule (line : string) : bool :=
  let t := py_strip line in
  String.eqb t "---" || String.eqb t "***" || String.eqb t "___".

(** [r'!\[.*\]\(.*\)'], and the same pattern with each [.*] in a capture
    group. *)
Definition re_image_test : regex :=
  [Lit "!["; Star not_newline; Lit "]("; Star not_newline; Lit ")"].
Definition re_image : regex :=
  [Lit "!["; GOpen; Star not_newline; GClose; Lit "](";
   GOpen; Star not_newline; GClose; Lit ")"].

Definition figure (alt src : string) : string :=
  "<figure><img src=" +:+ dq +:+ src +:+ dq +:+ " alt=" +:+ dq +:+ alt +:+ dq
  +:+ "><figcaption>" +:+ alt +:+ "</figcaption></figure>".

(** The list item: open the list when it is not open, then the item. *)
Definition emit_item (line : string) (st : conv_state) : conv_state :=
  let st := if in_list st then st else set_in_list true (emit "<ul>" st) in
  emit ("<li>" +:+ process_inline (str_drop 2 (py_strip line)) +:+ "</li>") st.

Definition emit_image (line : string) (st : conv_state) : conv_state :=
  match re_match re_image line with
  | Some (gs, _) => emit (figure (grp 1 gs) (grp 2 gs)) st
  | None => st
  end.

Definition emit_para (para_lines : list string) (st : conv_state) : conv_state :=
  emit ("<p>" +:+ process_inline (join " " para_lines) +:+ "</p>") st.

(** The condition of the inner loop, on [lines[i + 1]]. *)
Definition para_stops : list string :=
  ["#"; "-"; "*"; ">"; "```"; "!["; "---"; "***"; "___"].

Definition para_continues (l : string) : bool :=
  negb (is_empty (py_strip l))
  && negb (existsb (λ p, startswith p l) para_stops).

(** The [while i < len(lines)] loop, on the lines from [i] on.  The inner
    loop that gathers a paragraph is the inner [fix]. *)
Fixpoint convert_lines (lines : list string) (st : conv_state)
    {struct lines} : conv_state :=
  match lines with
  | [] => st
  | line :: rest =>
      (* Code blocks *)
      if is_fence line then
        if in_code st then convert_lines rest (close_code st)
        else convert_lines rest (open_code st)
      else if in_code st then convert_lines rest (buffer_code line st)
      else
        (* Close list if needed *)
        let st := close_list line st in
        (* Headers *)
        if startswith "# " line then convert_lines rest st
        else if startswith "## " line then
          convert_lines rest
            (emit ("<h2>" +:+ process_inline (str_drop 3 line) +:+ "</h2>") st)
        else if startswith "### " line then
          convert_lines rest
            (emit ("<h3>" +:+ process_inline (str_drop 4 line) +:+ "</h3>") st)
        (* Horizontal rule *)
        else if is_rule line then convert_lines rest (emit "<hr>" st)
        (* Lists *)
        else if is_bullet line then convert_lines rest (emit_item line st)
        (* Blockquotes *)
        else if startswith "> " line then
          convert_lines rest
            (emit ("<blockquote><p>" +:+ process_inline (str_drop 2 line)
                   +:+ "</p></blockquote>") st)
        (* Images *)
        else if bool_decide (is_Some (re_match re_image_test line)) then
          convert_lines rest (emit_image line st)
        (* Empty line *)
        else if is_empty (py_strip line) then
          convert_lines rest (emit EmptyString st)
        (* Paragraph *)
        else
          (fix collect (rs : list string) (para_lines : list string)
               {struct rs} : conv_state :=
             match rs with
             | l :: rs' =>
                 if para_continues l then collect rs' (para_lines ++ [l])
                 else convert_lines rs (emit_para para_lines st)
             | [] => emit_para para_lines st
             end) rest [line]
  end.

(** Close any open list. *)
Definition finish (st : conv_state) : list string :=
  if in_list st then html_lines st ++ ["</ul>"] else html_lines st.

Definition html_sep : string := nl +:+ "                ".

Definition markdown_to_html (md : string) : string :=
  join html_sep (finish (convert_lines (split_char c_nl md) conv_init)).

(** ** parse_frontmatter *)

(** One header line: [if ":" in line], then [line.split(":", 1)] and the
    assignment [frontmatter[key.strip()] = value.strip().strip(dq).strip(sq)]. *)
Definition strip_value (value : string) : string :=
  strip_char c_squote (strip_char c_dquote (py_strip value)).

Definition fm_line (frontmatter : gmap string string) (line : string)
    : gmap string string :=
  match find_sub ":" line with
  | Some (key, value) => <[py_strip key := strip_value value]> frontmatter
  | None => frontmatter
  end.

(** The [for] loop over the header lines. *)
Definition fm_lines (lines : list string) : gmap string string :=
  foldl fm_line ∅ lines.

Definition parse_frontmatter (content : string) : gmap string string * string :=
  if negb (startswith "---" content) then (∅, content)
  else
    let parts := split_max "---" 2 content in
    if length parts <? 3 then (∅, content)
    else
      (fm_lines (split_char c_nl (py_strip (default EmptyString (parts !! 1)))),
       py_strip (default EmptyString (parts !! 2))).

(** [d.get(key, dflt)] *)
Definition dict_get (d : gmap string string) (key dflt : string) : string :=
  default dflt (d !! key).

(** ** estimate_reading_time *)

(** [round(n / d)] for integers [0 <= n] and [0 < d]: the quotient is a
    float and [round] takes a float to the nearest integer, a tie to the
    even one.  The division is correctly rounded and monotone, so the float
    quotient is never on the other side of a half-integer than the exact
    quotient; and for [d = 200] and [n] below 2^50 it is a half-integer only
    when the exact quotient is one (floats of that size are less than 1/200
    apart).  [round_div] is therefore the exact quotient rounded half to
    even, which is what the program computes for every text that fits in a
    memory. *)
Definition round_div (n d : Z) : Z :=
  let q := (n / d)%Z in
  let r := (n mod d)%Z in
  if (2 * r <? d)%Z then q
  else if (d <? 2 * r)%Z then (q + 1)%Z
  else if Z.even q then q else (q + 1)%Z.

Definition estimate_reading_time (text : string) : Z :=
  let words := Z.of_nat (length (split_ws text)) in
  Z.max 1 (round_div words 200).

(** ** get_slug_from_filename *)

(** [s.rpartition(c)] without the separator: the text before the last [c]
    and the text after it. *)
Fixpoint rsplit_char (c : ascii) (s : string) : option (string * string) :=
  match s with
  | EmptyString => None
  | String x s' =>
      match rsplit_char c s' with
      | Some (a, b) => Some (String x a, b)
      | None => if ch_eqb x c then Some (EmptyString, s') else None
      end
  end.

(** [Path(name).stem] for a bare file name: the name without its last
    suffix; a leading or a trailing dot starts no suffix. *)
Definition path_stem (name : string) : string :=
  match rsplit_char c_dot name with
  | Some (a, b) => if is_empty a || is_empty b then name else a
  | None => name
  end.

(** [r'\d{4}-\d{2}-\d{2}-(.+)'] *)
Definition re_dated_name : regex :=
  digits 4 ++ [Lit "-"] ++ digits 2 ++ [Lit "-"] ++ digits 2
  ++ [Lit "-"; GOpen; Plus not_newline; GClose].

Definition get_slug_from_filename (filename : string) : string :=
  let name := path_stem filename in
  (* Remove date prefix if present *)
  match re_match re_dated_name name with
  | Some (gs, _) => grp 1 gs
  | None => name
  end.

(** ** Post records *)

Inductive source : Type := Markdown | Html.

Global Instance source_eq_dec : EqDecision source.
Proof. solve_decision. Defined.

(** The dictionaries built by [get_all_posts]; [body] is present in the
    records made from markdown only. *)
Record post : Type := Post {
  title : string;
  date : string;
  description : string;
  slug : string;
  file : string;
  body : option string;
  src : source
}.

(** A directory entry: name and content. *)
Definition entry : Type := string * string.

(** [dir.glob("*" + suffix)] *)
Definition glob (suffix : string) (dir : list entry) : list entry :=
  filter (λ e, endswith suffix (fst e) = true) dir.

(** ** extract_metadata_from_html *)

(** [r'<title>([^<]+) / sotoalt</title>'] *)
Definition re_title : regex :=
  [Lit "<title>"; GOpen; Plus (not_char c_lt); GClose; Lit " / sotoalt</title>"].

(** The pattern for the description: the opening of the meta tag up to the
    quote after [content=], a group of [[^q]*] for that quote [q], and the
    quote. *)
Definition re_description : regex :=
  [Lit ("<meta name=" +:+ dq +:+ "description" +:+ dq +:+ " content=" +:+ dq);
   GOpen; Star (not_char c_dquote); GClose; Lit dq].

(** The pattern for the date: [<p class=q meta q>] with the quote [q], then
    [(\d{4})\.(\d{2})]. *)
Definition re_meta_date : regex :=
  [Lit ("<p class=" +:+ dq +:+ "meta" +:+ dq +:+ ">"); GOpen] ++ digits 4
  ++ [GClose; Lit "."; GOpen] ++ digits 2 ++ [GClose].

Definition extract_metadata_from_html (html_file : entry) : post :=
  let content := snd html_file in
  let slug := path_stem (fst html_file) in
  (* Extract title from <title> tag *)
  let title :=
    match re_search re_title content with
    | Some (gs, _) => grp 1 gs
    | None => str_replace "-" " " slug
    end in
  (* Extract description from meta tag *)
  let description :=
    match re_search re_description content with
    | Some (gs, _) => grp 1 gs
    | None => EmptyString
    end in
  (* Extract date from meta (format: YYYY.MM) *)
  let date :=
    match re_search re_meta_date content with
    | Some (gs, _) => grp 1 gs +:+ "-" +:+ grp 2 gs +:+ "-01"
    | None => "1970-01-01"
    end in
  {| title := title; date := date; description := description; slug := slug;
     file := fst html_file; body := None; src := Html |}.

(** ** get_all_posts *)

(** [r'(\d{4}-\d{2}-\d{2})-'] *)
Definition re_date_prefix : regex :=
  [GOpen] ++ digits 4 ++ [Lit "-"] ++ digits 2 ++ [Lit "-"] ++ digits 2
  ++ [GClose; Lit "-"].

(** The date of a markdown post in the post list. *)
Definition md_date (frontmatter : gmap string string) (name : string) : string :=
  let date := dict_get frontmatter "date" EmptyString in
  (* Try to extract date from filename if not in frontmatter *)
  if is_empty date then
    match re_match re_date_prefix name with
    | Some (gs, _) => grp 1 gs
    | None => "1970-01-01"
    end
  else date.

(** The body of the first loop: the record of one markdown file. *)
Definition md_post (md_file : entry) : post :=
  let '(frontmatter, body) := parse_frontmatter (snd md_file) in
  let slug := get_slug_from_filename (fst md_file) in
  {| title := dict_get frontmatter "title" (str_replace "-" " " slug);
     date := md_date frontmatter (fst md_file);
     description := dict_get frontmatter "description" EmptyString;
     slug := slug;
     file := fst md_file;
     body := Some body;
     src := Markdown |}.

(** The loops thread [posts] and [seen_slugs]. *)
Definition scan_state : Type := list post * gset string.

(** First loop: every markdown file is appended and its slug recorded. *)
Definition scan_md (acc : scan_state) (md_file : entry) : scan_state :=
  let p := md_post md_file in
  (fst acc ++ [p], {[slug p]} ∪ snd acc).

(** Second loop: an HTML file is appended when its slug is not seen yet. *)
Definition scan_html (acc : scan_state) (html_file : entry) : scan_state :=
  let slug := path_stem (fst html_file) in
  if bool_decide (slug ∈ snd acc) then acc
  else (fst acc ++ [extract_metadata_from_html html_file], {[slug]} ∪ snd acc).

(** The files a directory offers to a loop: none when it does not exist. *)
Definition dir_files (suffix : string) (dir : option (list entry)) : list entry :=
  match dir with
  | Some d => glob suffix d
  | None => []
  end.

(** [posts.sort(key=lambda p: p["date"], reverse=True)]: a stable sort into
    descending key order.  [insert_desc p l] puts [p], which stood before
    all of [l], into the sorted [l]: after the records with a greater date
    and before those with the same or a smaller one. *)
Fixpoint insert_desc (p : post) (l : list post) : list post :=
  match l with
  | [] => [p]
  | q :: l' =>
      if String.ltb (date p) (date q) then q :: insert_desc p l'
      else p :: q :: l'
  end.

Definition sort_by_date_desc (l : list post) : list post :=
  foldr insert_desc [] l.

(** The list before the sort. *)
Definition scan_posts (posts_dir thoughts_dir : option (list entry)) : list post :=
  let acc := foldl scan_md ([], ∅) (dir_files ".md" posts_dir) in
  let acc := foldl scan_html acc (dir_files ".html" thoughts_dir) in
  fst acc.

Definition get_all_posts (posts_dir thoughts_dir : option (list entry)) : list post :=
  sort_by_date_desc (scan_posts posts_dir thoughts_dir).

(** ** publish_post *)

(** The dictionary [publish_post] returns, without the output path.  [today]
    is [datetime.now().strftime("%Y-%m-%d")].  Both the substack branch and
    the site branch return these four fields with these values. *)
Record post_info : Type := PostInfo {
  info_title : string;
  info_date : string;
  info_description : string;
  info_slug : string
}.

Definition publish_post (today : string) (md_file : entry) : post_info :=
  let '(frontmatter, body) := parse_frontmatter (snd md_file) in
  (* Extract metadata *)
  {| info_title :=
       dict_get frontmatter "title"
         (str_replace "-" " " (get_slug_from_filename (fst md_file)));
     info_date := dict_get frontmatter "date" today;
     info_description := dict_get frontmatter "description" EmptyString;
     info_slug := get_slug_from_filename (fst md_file) |}.

(** ** Vocabulary of the statements *)

(** [c in s] *)
Fixpoint has_char (c : ascii) (s : string) : bool :=
  match s with
  | EmptyString => false
  | String x s' => ch_eqb x c || has_char c s'
  end.

(** Every character of [s] is in the class [p]. *)
Fixpoint all_chars (p : ascii → bool) (s : string) : bool :=
  match s with
  | EmptyString => true
  | String x s' => p x && all_chars p s'
  end.

(** The first, the last character of [s] is in the class [p]. *)
Definition head_is (p : ascii → bool) (s : string) : bool :=
  match s with
  | EmptyString => false
  | String x _ => p x
  end.

Fixpoint last_is (p : ascii → bool) (s : string) : bool :=
  match s with
  | EmptyString => false
  | String x EmptyString => p x
  | String _ s' => last_is p s'
  end.

(** [r] is [s] without its leading and trailing characters of the class
    [p]: all of them, on both ends. *)
Definition is_strip_of (p : ascii → bool) (s r : string) : Prop :=
  ∃ a b, s = a +:+ r +:+ b
    ∧ all_chars p a = true ∧ all_chars p b = true
    ∧ head_is p r = false ∧ last_is p r = false.

(** [a] may stand before [b] in a list sorted by date, newest first. *)
Definition date_ge (a b : post) : Prop := String.le (date b) (date a).

(** The slugs of the markdown files of a directory. *)
Definition md_slugs (posts_dir : option (list entry)) : list string :=
  (λ e, get_slug_from_filename (fst e)) <$> dir_files ".md" posts_dir.

(** [seen_slugs] holds the slugs of [posts]. *)
Definition seen_ok (acc : scan_state) : Prop :=
  ∀ s, s ∈ snd acc ↔ s ∈ slug <$> fst acc.

(** [p] has the shape [YYYY-MM-DD]: digits and dashes at their places. *)
Definition date_shaped (p : string) : bool :=
  match p with
  | String y1 (String y2 (String y3 (String y4 (String h1
      (String m1 (String m2 (String h2 (String d1 (String d2 EmptyString))))))))) =>
      is_digit y1 && is_digit y2 && is_digit y3 && is_digit y4
      && ch_eqb h1 c_dash
      && is_digit m1 && is_digit m2
      && ch_eqb h2 c_dash
      && is_digit d1 && is_digit d2
  | _ => false
  end.

(** [needle in s] *)
Definition contains (needle s : string) : bool :=
  bool_decide (is_Some (find_sub needle s)).

(** The longest prefix of lines in the class [p], and what follows it. *)
Fixpoint take_run (p : string → bool) (l : list string) : list string :=
  match l with
  | x :: l' => if p x then x :: take_run p l' else []
  | [] => []
  end.

Fixpoint drop_run (p : string → bool) (l : list string) : list string :=
  match l with
  | x :: l' => if p x then drop_run p l' else l
  | [] => []
  end.

(** One turn of the outer loop of [markdown_to_html] seen from outside: the
    state after the block that starts at [line], and the lines left. *)
Definition block_step (line : string) (rest : list string) (st : conv_state)
    : conv_state * list string :=
  if is_fence line then
    (if in_code st then close_code st else open_code st, rest)
  else if in_code st then (buffer_code line st, rest)
  else
    let st := close_list line st in
    if startswith "# " line then (st, rest)
    else if startswith "## " line then
      (emit ("<h2>" +:+ process_inline (str_drop 3 line) +:+ "</h2>") st, rest)
    else if startswith "### " line then
      (emit ("<h3>" +:+ process_inline (str_drop 4 line) +:+ "</h3>") st, rest)
    else if is_rule line then (emit "<hr>" st, rest)
    else if is_bullet line then (emit_item line st, rest)
    else if startswith "> " line then
      (emit ("<blockquote><p>" +:+ process_inline (str_drop 2 line)
             +:+ "</p></blockquote>") st, rest)
    else if bool_decide (is_Some (re_match re_image_test line)) then
      (emit_image line st, rest)
    else if is_empty (py_strip line) then (emit EmptyString st, rest)
    else
      (emit_para (line :: take_run para_continues rest) st,
       drop_run para_continues rest).

(** The text of the preformatted block for the buffered lines. *)
Definition pre_block (code : list string) : string :=
  "<pre><code>" +:+ html_escape (join nl code) +:+ "</code></pre>".

(** Outside a code block the buffer is empty. *)
Definition buffer_ok (st : conv_state) : Prop :=
  in_code st = false → code_block st = [].

(** Sample bodies: a fenced block whose lines look like a heading, a list
    item, a rule, a quote and an image; and a fence that is never closed. *)
Definition fenced_md : string :=
  join nl ["intro"; "```"; "# not a heading"; "- *not* a list"; "---";
           "> q"; "![a](b)"; "```"; "after"].

Definition unclosed_md : string :=
  join nl ["- item"; "```"; "lost <b>"; "## also lost"].

(** The characters [html.escape] neither replaces nor writes. *)
Definition inert (c : ascii) : bool :=
  negb (has_char c ("&amp;&lt;&gt;&quot;&#x27;<>" +:+ dq +:+ sq)).

(** No two dashes in a row. *)
Fixpoint no_ddash (s : string) : bool :=
  match s with
  | EmptyString => true
  | String c s' =>
      negb (ch_eqb c_dash c && head_is (ch_eqb c_dash) s') && no_ddash s'
  end.

(** Text in which no later pass of [process_inline] finds a marker to start
    from: no backtick, no asterisk, no underscore, no double dash. *)
Definition no_markup (s : string) : bool :=
  negb (has_char c_tick s) && negb (has_char c_star s)
  && negb (has_char c_under s) && no_ddash s.

(** The hyperlink element for an address and a text. *)
Definition anchor (url text : string) : string :=
  "<a href=" +:+ dq +:+ url +:+ dq +:+ ">" +:+ text +:+ "</a>".

(** The entities [html.escape] writes. *)
Definition entities : list string :=
  ["&amp;"; "&lt;"; "&gt;"; "&quot;"; "&#x27;"].

Definition is_dash (c : ascii) : bool := ch_eqb c_dash c.

(** [c] is one of the characters of [cs]. *)
Definition in_chars (cs : string) (c : ascii) : bool := has_char c cs.

(** No [<sc] in [s]: no opening angle is followed by the first letters of
    a script tag. *)
Fixpoint no_script (s : string) : bool :=
  match s with
  | EmptyString => true
  | String c s' => negb (ch_eqb c_lt c && startswith "sc" s') && no_script s'
  end.

(** Every block written so far is free of [<sc]. *)
Definition lines_ok (st : conv_state) : Prop :=
  Forall (λ l, no_script l = true) (html_lines st).

(** A body with script tags in a paragraph, a heading, a list item, a quote
    and a code block. *)
Definition script_md : string :=
  join nl ["<script>alert(1)</script> & *more*"; "## <script>"; "- <script>";
           "> <script>"; "```"; "<script>"; "```"].

(** ** Words and blanks

    A text as [str.split()] sees it: blanks, then words, each followed by
    blanks; between two words the blanks are not empty. *)
Definition is_word (w : string) : bool :=
  negb (is_empty w) && all_chars (λ c, negb (py_isspace c)) w.

Definition is_blank (p : string) : bool := all_chars py_isspace p.

Fixpoint words_text (wps : list (string * string)) : string :=
  match wps with
  | [] => EmptyString
  | (w, p) :: rest => w +:+ p +:+ words_text rest
  end.

Fixpoint words_ok (wps : list (string * string)) : bool :=
  match wps with
  | [] => true
  | (w, p) :: rest =>
      is_word w && is_blank p
      && (match rest with [] => true | _ :: _ => negb (is_empty p) end)
      && words_ok rest
  end.

(** ** What a substitution pass of the inline formatter does to a text

    The passes for code, bold and italic replace markers (one or two
    characters [c]) by tags and copy everything else. *)

(** The text of a tag, as far as the link pattern is concerned: not empty,
    no bracket. *)
Definition tag_text (g : string) : bool :=
  negb (is_empty g) && negb (has_char c_lbrack g) && negb (has_char c_rbrack g).

Inductive marked (c : ascii) : string → string → Prop :=
  | marked_nil : marked c EmptyString EmptyString
  | marked_copy (x : ascii) (s s' : string) :
      marked c s s' → marked c (String x s) (String x s')
  | marked_tag1 (g s s' : string) :
      tag_text g = true → marked c s s' → marked c (String c s) (g +:+ s')
  | marked_tag2 (g s s' : string) :
      tag_text g = true → marked c s s' →
      marked c (String c (String c s)) (g +:+ s').


(** The literals that open the description and the date in a page. *)
Definition description_open : string :=
  "<meta name=" +:+ dq +:+ "description" +:+ dq +:+ " content=" +:+ dq.

Definition meta_open : string := "<p class=" +:+ dq +:+ "meta" +:+ dq +:+ ">".

(** Four digits; two digits. *)
Definition four_digits (s : string) : bool :=
  match s with
  | String a (String b (String c (String d EmptyString))) =>
      is_digit a && is_digit b && is_digit c && is_digit d
  | _ => false
  end.

Definition two_digits (s : string) : bool :=
  match s with
  | String a (String b EmptyString) => is_digit a && is_digit b
  | _ => false
  end.

(** ** format_date_display and format_date_rss

    [datetime.strptime(date_str, "%Y-%m-%d")] matches the text against the
    regular expression that the library builds for the format,

      (?P<Y>\d\d\d\d)-(?P<m>1[0-2]|0[1-9]|[1-9])-(?P<d>3[0-1]|[1-2]\d|0[1-9]|[1-9]| [1-9])

    refuses what the match leaves over, converts the groups with [int] and
    builds the date, which fails for a year 0 and for a day the month does
    not have.  Every failure is a [ValueError]. *)

Definition in_range (lo hi : ascii) (c : ascii) : bool :=
  (nat_of_ascii lo <=? nat_of_ascii c) && (nat_of_ascii c <=? nat_of_ascii hi).

(** The alternatives of the month and of the day, in their order. *)
Definition month_alts : list regex :=
  [ [One (ch_eqb "1"); One (in_range "0" "2")];
    [One (ch_eqb "0"); One (in_range "1" "9")];
    [One (in_range "1" "9")] ].

Definition day_alts : list regex :=
  [ [One (ch_eqb "3"); One (in_range "0" "1")];
    [One (in_range "1" "2"); One is_digit];
    [One (ch_eqb "0"); One (in_range "1" "9")];
    [One (in_range "1" "9")];
    [One (ch_eqb " "); One (in_range "1" "9")] ].

(** A group of alternatives: the first alternative after which the rest of
    the pattern, [k], matches. *)
Fixpoint match_alts {R : Type} (alts : list regex)
    (k : string → string → option R) (s : string) : option R :=
  match alts with
  | [] => None
  | a :: alts' =>
      match re_match ([GOpen] ++ a ++ [GClose]) s with
      | Some (gs, rest) =>
          match k (grp 1 gs) rest with
          | Some r => Some r
          | None => match_alts alts' k s
          end
      | None => match_alts alts' k s
      end
  end.

(** The match of the whole expression: the three groups and what is left. *)
Definition strptime_match (s : string) : option (string * string * string * string) :=
  match re_match ([GOpen] ++ digits 4 ++ [GClose; Lit "-"]) s with
  | Some (gs, r1) =>
      match_alts month_alts
        (λ m r2,
           match strip_prefix "-" r2 with
           | Some r3 => match_alts day_alts (λ d r4, Some (grp 1 gs, m, d, r4)) r3
           | None => None
           end) r1
  | None => None
  end.

Definition digit_val (c : ascii) : Z := Z.of_nat (nat_of_ascii c) - 48.

(** [int(s)] for digits, after spaces. *)
Fixpoint int_digits (acc : Z) (s : string) : Z :=
  match s with
  | EmptyString => acc
  | String c s' => int_digits (10 * acc + digit_val c) s'
  end.

Definition py_int (s : string) : Z := int_digits 0 (lstrip_by py_isspace s).

Definition is_leap (y : Z) : bool :=
  (y mod 4 =? 0)%Z && (negb (y mod 100 =? 0)%Z || (y mod 400 =? 0)%Z).

Definition days_in_month (y m : Z) : Z :=
  if (m =? 2)%Z then (if is_leap y then 29 else 28)%Z
  else if (m =? 4)%Z || (m =? 6)%Z || (m =? 9)%Z || (m =? 11)%Z then 30%Z
  else 31%Z.

(** [strptime]: the year, the month and the day, or [None] for the
    [ValueError]. *)
Definition strptime_ymd (s : string) : option (Z * Z * Z) :=
  match strptime_match s with
  | Some (yy, mm, dd, rest) =>
      if is_empty rest then
        let y := py_int yy in
        let m := py_int mm in
        let d := py_int dd in
        if (1 <=? y)%Z && (d <=? days_in_month y m)%Z then Some (y, m, d)
        else None
      else None
  | None => None
  end.

Definition digit_chr (v : Z) : ascii := ascii_of_nat (Z.to_nat (48 + v)).

(** [%m], [%d]: two digits. *)
Definition pad2 (n : Z) : string :=
  String (digit_chr (n / 10)) (String (digit_chr (n mod 10)) EmptyString).

(** [%Y] for a year from 1 to 9999, as the C library of Linux writes it:
    without leading zeros (other C libraries pad a year below 1000 to four
    digits; from 1000 on all agree). *)
Definition year_text (y : Z) : string :=
  let d1 := str1 (digit_chr (y / 1000)) in
  let d2 := str1 (digit_chr (y / 100 mod 10)) in
  let d3 := str1 (digit_chr (y / 10 mod 10)) in
  let d4 := str1 (digit_chr (y mod 10)) in
  if (y <? 10)%Z then d4
  else if (y <? 100)%Z then d3 +:+ d4
  else if (y <? 1000)%Z then d2 +:+ d3 +:+ d4
  else d1 +:+ d2 +:+ d3 +:+ d4.

Definition format_date_display (date_str : string) : string :=
  match strptime_ymd date_str with
  | Some (y, m, _) => year_text y +:+ "." +:+ pad2 m
  | None => date_str
  end.

(** The day of the week, Monday 0, from the ordinal of the date. *)
Definition days_before_year (y : Z) : Z :=
  ((y - 1) * 365 + (y - 1) / 4 - (y - 1) / 100 + (y - 1) / 400)%Z.

Fixpoint days_before_month_go (y : Z) (months : nat) : Z :=
  match months with
  | 0 => 0%Z
  | S k => (days_before_month_go y k + days_in_month y (Z.of_nat (S k)))%Z
  end.

Definition days_before_month (y m : Z) : Z :=
  days_before_month_go y (Z.to_nat (m - 1)).

Definition toordinal (y m d : Z) : Z :=
  (days_before_year y + days_before_month y m + d)%Z.

Definition weekday (y m d : Z) : Z := ((toordinal y m d + 6) mod 7)%Z.

(** [%a] and [%b] in the C locale. *)
Definition day_abbr (w : Z) : string :=
  default EmptyString
    (["Mon"; "Tue"; "Wed"; "Thu"; "Fri"; "Sat"; "Sun"] !! Z.to_nat w).

Definition month_abbr (m : Z) : string :=
  default EmptyString
    (["Jan"; "Feb"; "Mar"; "Apr"; "May"; "Jun"; "Jul"; "Aug"; "Sep"; "Oct";
      "Nov"; "Dec"] !! Z.to_nat (m - 1)).

Definition format_date_rss (date_str : string) : string :=
  match strptime_ymd date_str with
  | Some (y, m, d) =>
      day_abbr (weekday y m d) +:+ ", " +:+ pad2 d +:+ " " +:+ month_abbr m
      +:+ " " +:+ year_text y +:+ " 00:00:00 +0000"
  | None => date_str
  end.

(** A date of the calendar, from year 1 on. *)
Definition valid_ymd (y m d : Z) : bool :=
  (1 <=? y)%Z && (1 <=? m)%Z && (m <=? 12)%Z && (1 <=? d)%Z
  && (d <=? days_in_month y m)%Z.

(** The kinds of output line that matter for the nesting of lists. *)
Inductive line_kind : Type := ListOpen | ListClose | ListItem | CodeBlock | Block.

Definition kind_of (x : string) : line_kind :=
  if String.eqb x "<ul>" then ListOpen
  else if String.eqb x "</ul>" then ListClose
  else if startswith "<li>" x then ListItem
  else if startswith "<pre>" x then CodeBlock
  else Block.

(** Reading one output line with a list open or not: a list is opened only
    when none is open and closed only when one is, an item stands only in an
    open list, every other line but a code block only outside one. *)
Definition list_step (open : bool) (x : string) : option bool :=
  match kind_of x, open with
  | ListOpen, false => Some true
  | ListClose, true => Some false
  | ListItem, true => Some true
  | CodeBlock, o => Some o
  | Block, false => Some false
  | _, _ => None
  end.

Fixpoint list_scan (open : bool) (l : list string) : option bool :=
  match l with
  | [] => Some open
  | x :: l' =>
      match list_step open x with
      | Some o => list_scan o l'
      | None => None
      end
  end.

(** The list that is open is the list the output has not closed. *)
Definition lists_inv (st : conv_state) : Prop :=
  list_scan false (html_lines st) = Some (in_list st).

(** ** publish_post: the page *)

(** [str(n)] for an integer: the decimal digits, most significant first.
    [fuel] bounds the number of digits; a number has fewer digits than its
    value plus one. *)
Fixpoint digits_of (fuel : nat) (n : Z) (acc : string) : string :=
  match fuel with
  | 0 => acc
  | S fuel' =>
      let acc' := String (digit_chr (n mod 10)) acc in
      if (n <? 10)%Z then acc' else digits_of fuel' (n / 10) acc'
  end.

Definition py_str (n : Z) : string :=
  if (n <? 0)%Z then "-" +:+ digits_of (S (Z.to_nat (- n))) (- n) EmptyString
  else digits_of (S (Z.to_nat n)) n EmptyString.

(** Fill template: six replacements, one after the other, each over the
    result of the one before. *)
Definition fill_template
    (template title description slug date_display reading_time html_content
       : string) : string :=
  let html_output := str_replace "{{title}}" title template in
  let html_output := str_replace "{{description}}" description html_output in
  let html_output := str_replace "{{slug}}" slug html_output in
  let html_output := str_replace "{{date_display}}" date_display html_output in
  let html_output := str_replace "{{reading_time}}" reading_time html_output in
  let html_output := str_replace "{{content}}" html_content html_output in
  html_output.

(** The site branch of [publish_post]: the name of the file written in the
    thoughts directory and its text.  [template] is the text of
    [templates/post.html], [None] when the file does not exist: the program
    then exits and writes nothing. *)
Definition publish_output (template : option string) (today : string)
    (md_file : entry) : option entry :=
  let info := publish_post today md_file in
  let body := snd (parse_frontmatter (snd md_file)) in
  (* Convert markdown to HTML *)
  let html_content := markdown_to_html body in
  let reading_time := estimate_reading_time body in
  match template with
  | None => None
  | Some template =>
      Some (info_slug info +:+ ".html",
            fill_template template (info_title info) (info_description info)
              (info_slug info) (format_date_display (info_date info))
              (py_str reading_time) html_content)
  end.

(** A template seen as pieces: text and placeholders. *)
Inductive segment : Type := Text (s : string) | Hole (name : string).

Definition placeholders : list string :=
  ["title"; "description"; "slug"; "date_display"; "reading_time"; "content"].

Definition hole (name : string) : string := "{{" +:+ name +:+ "}}".

Definition seg_text (seg : segment) : string :=
  match seg with Text s => s | Hole n => hole n end.

Fixpoint template_of (segs : list segment) : string :=
  match segs with
  | [] => EmptyString
  | seg :: segs' => seg_text seg +:+ template_of segs'
  end.

(** The values of a page, by placeholder. *)
Definition page_value
    (title description slug date_display reading_time html_content : string)
    (name : string) : string :=
  if String.eqb name "title" then title
  else if String.eqb name "description" then description
  else if String.eqb name "slug" then slug
  else if String.eqb name "date_display" then date_display
  else if String.eqb name "reading_time" then reading_time
  else html_content.

Fixpoint fill_of (v : string → string) (segs : list segment) : string :=
  match segs with
  | [] => EmptyString
  | Text s :: segs' => s +:+ fill_of v segs'
  | Hole n :: segs' => v n +:+ fill_of v segs'
  end.

(** No two opening braces in a row. *)
Fixpoint no_dbrace (s : string) : bool :=
  match s with
  | EmptyString => true
  | String c s' =>
      negb (ch_eqb "{" c && head_is (ch_eqb "{") s') && no_dbrace s'
  end.

(** Text that cannot be taken for the start of a placeholder: no two
    opening braces in a row and none at the very start. *)
Definition text_ok (s : string) : bool :=
  no_dbrace s && negb (head_is (ch_eqb "{") s).

Definition seg_ok (seg : segment) : Prop :=
  match seg with
  | Text s => text_ok s = true
  | Hole n => n ∈ placeholders
  end.

(** One replacement, on the pieces. *)
Definition subst_seg (name new : string) (seg : segment) : segment :=
  match seg with
  | Text s => Text s
  | Hole n => if String.eqb n name then Text new else Hole n
  end.

(** ** generate_rss *)

Definition SITE_URL : string := "https://sotoalt.dev".
Definition SITE_TITLE : string := "sotoalt".
Definition SITE_DESCRIPTION : string := "thoughts, experiments, and rabbit holes".

(** One item of the feed. *)
Definition rss_item (p : post) : string :=
  "    <item>" +:+ nl
  +:+ "      <title>" +:+ html_escape (title p) +:+ "</title>" +:+ nl
  +:+ "      <link>" +:+ SITE_URL +:+ "/thoughts/" +:+ slug p +:+ ".html</link>" +:+ nl
  +:+ "      <guid>" +:+ SITE_URL +:+ "/thoughts/" +:+ slug p +:+ ".html</guid>" +:+ nl
  +:+ "      <pubDate>" +:+ format_date_rss (date p) +:+ "</pubDate>" +:+ nl
  +:+ "      <description>" +:+ html_escape (description p) +:+ "</description>" +:+ nl
  +:+ "    </item>".

(** The text written to the feed file.  [now] is the text of
    [datetime.now().strftime("%a, %d %b %Y %H:%M:%S +0000")]. *)
Definition generate_rss (now : string) (posts : list post) : string :=
  (* Limit to 20 most recent *)
  let items := map rss_item (take 20 posts) in
  "<?xml version=" +:+ dq +:+ "1.0" +:+ dq +:+ " encoding=" +:+ dq +:+ "UTF-8"
    +:+ dq +:+ "?>" +:+ nl
  +:+ "<rss version=" +:+ dq +:+ "2.0" +:+ dq +:+ " xmlns:atom=" +:+ dq
    +:+ "http://www.w3.org/2005/Atom" +:+ dq +:+ ">" +:+ nl
  +:+ "  <channel>" +:+ nl
  +:+ "    <title>" +:+ SITE_TITLE +:+ "</title>" +:+ nl
  +:+ "    <link>" +:+ SITE_URL +:+ "</link>" +:+ nl
  +:+ "    <description>" +:+ SITE_DESCRIPTION +:+ "</description>" +:+ nl
  +:+ "    <language>en-us</language>" +:+ nl
  +:+ "    <lastBuildDate>" +:+ now +:+ "</lastBuildDate>" +:+ nl
  +:+ "    <atom:link href=" +:+ dq +:+ SITE_URL +:+ "/feed.xml" +:+ dq
    +:+ " rel=" +:+ dq +:+ "self" +:+ dq +:+ " type=" +:+ dq
    +:+ "application/rss+xml" +:+ dq +:+ "/>" +:+ nl
  +:+ join nl items +:+ nl
  +:+ "  </channel>" +:+ nl
  +:+ "</rss>".

(** A record whose slug and feed date bring no opening angle. *)
Definition feed_safe (p : post) : Prop :=
  has_char c_lt (slug p) = false
  ∧ has_char c_lt (format_date_rss (date p)) = false.

(** ** rebuild_all: the pages *)

(** [path.read_text()] for a file of a directory. *)
Fixpoint read_text (dir : list entry) (name : string) : option string :=
  match dir with
  | [] => None
  | e :: dir' =>
      if String.eqb (fst e) name then Some (snd e) else read_text dir' name
  end.

(** [output_file.write_text(html_output)]: the page is written when the
    thoughts directory exists; the program never creates it, and without it
    the write raises [FileNotFoundError]. *)
Definition write_page (thoughts_dir : option (list entry)) (page : entry)
    : option entry :=
  match thoughts_dir with
  | Some _ => Some page
  | None => None
  end.

(** The loop of [rebuild_all]: the pages written to the thoughts directory,
    in the order of writing; [None] when the program stops before the end
    (no template, or no thoughts directory to write to).  [today] is the day
    of the run, the same for every page. *)
Definition rebuild_pages (template : option string) (today : string)
    (posts_dir thoughts_dir : option (list entry)) : option (list entry) :=
  let posts := get_all_posts posts_dir thoughts_dir in
  (* Only rebuild posts that have markdown sources *)
  let markdown_posts := filter (λ p, src p = Markdown) posts in
  mapM (λ p, content ← read_text (default [] posts_dir) (file p);
             page ← publish_output template today (file p, content);
             write_page thoughts_dir page)
       markdown_posts.

(** The page of a markdown file, for a template that exists. *)
Definition page_of (template today : string) (md_file : entry) : entry :=
  default (EmptyString, EmptyString)
    (publish_output (Some template) today md_file).

(** Text without any marker of the inline formatter: no backtick, asterisk,
    underscore, opening bracket or double dash. *)
Definition plain_text (s : string) : bool :=
  no_markup s && negb (has_char c_lbrack s).

(** ** update_index *)

(** One entry of the list of posts in the index page. *)
Definition index_item (p : post) : string :=
  "                <li>" +:+ nl
  +:+ "                    <span class=" +:+ dq +:+ "date" +:+ dq +:+ ">"
    +:+ format_date_display (date p) +:+ "</span>" +:+ nl
  +:+ "                    <a href=" +:+ dq +:+ "thoughts/" +:+ slug p +:+ ".html"
    +:+ dq +:+ ">" +:+ title p +:+ "</a>" +:+ nl
  +:+ "                </li>".

Definition new_posts_block (posts : list post) : string :=
  join nl (map index_item posts).

(** The three literals of the pattern. *)
Definition section_open : string :=
  "<section id=" +:+ dq +:+ "thoughts" +:+ dq +:+ ">".
Definition list_open : string := "<ul class=" +:+ dq +:+ "posts" +:+ dq +:+ ">".
Definition list_close : string := "</ul>".

(** The pattern at the start of [s], with the flag DOTALL: the opening of
    the section, as little as possible of any text up to the opening of the
    list (group 1 ends there), as little as possible of any text (group 2)
    up to the closing of the list (group 3).  A lazy repetition before a
    literal stops at the first place where the literal stands and the rest
    of the pattern matches; every later place leaves less text for the rest,
    so the first occurrence of each literal decides.  The result is the
    text matched and the three groups, and the text after the match. *)
Definition index_match (s : string) : option (list string * string) :=
  match strip_prefix section_open s with
  | Some r1 =>
      match find_sub list_open r1 with
      | Some (x, r2) =>
          match find_sub list_close r2 with
          | Some (y, r3) =>
              Some ([section_open +:+ x +:+ list_open +:+ y +:+ list_close;
                     section_open +:+ x +:+ list_open; y; list_close], r3)
          | None => None
          end
      | None => None
      end
  | None => None
  end.

(** *** The replacement template of re.sub *)

(** The pieces of a parsed template: text and group references. *)
Inductive tpart : Type := PLit (s : string) | PGroup (i : nat).

(** What stands after a backslash: an error, or a piece and the number of
    characters it takes after the backslash. *)
Inductive token : Type := TError | TPart (p : tpart) (len : nat).

Definition c_bs : ascii := "\"%char.

Definition is_octdigit (c : ascii) : bool := in_range "0" "7" c.

Definition is_ascii_letter (c : ascii) : bool :=
  in_range "a" "z" c || in_range "A" "Z" c.

(** The group reference [index], in a pattern with [groups] groups. *)
Definition addgroup (groups : nat) (index : Z) (len : nat) : token :=
  if (index <=? Z.of_nat groups)%Z then TPart (PGroup (Z.to_nat index)) len
  else TError.

(** The escapes of a template, as the parser of the library (version 3.12)
    reads them; [s] is the text after the backslash.
    - [g<name>]: a group by number; a name that is not made of decimal
      digits is an error here, as the pattern has no named group (before
      version 3.12 a number with a sign, blanks or underscores was still
      taken, with a warning);
    - [0], [0o], [0oo]: the character of that octal code;
    - a digit, two digits: a group; three octal digits: a character, an
      error above 377;
    - [a b f n r t v] and the backslash: the control character, the
      backslash; any other letter is an error; any other character stays
      with its backslash. *)
Definition escape_token (groups : nat) (s : string) : token :=
  match s with
  | EmptyString => TError
  | String c r =>
      if ch_eqb c "g" then
        match r with
        | String "<"%char r2 =>
            match find_sub ">" r2 with
            | Some (name, _) =>
                if negb (is_empty name) && all_chars is_digit name
                then addgroup groups (int_digits 0 name) (3 + String.length name)
                else TError
            | None => TError
            end
        | _ => TError
        end
      else if ch_eqb c "0" then
        match r with
        | String d1 r2 =>
            if is_octdigit d1 then
              match r2 with
              | String d2 _ =>
                  if is_octdigit d2
                  then TPart (PLit (str1 (ascii_of_nat (Z.to_nat
                                 ((8 * digit_val d1 + digit_val d2) mod 256))))) 3
                  else TPart (PLit (str1 (ascii_of_nat (Z.to_nat (digit_val d1))))) 2
              | EmptyString =>
                  TPart (PLit (str1 (ascii_of_nat (Z.to_nat (digit_val d1))))) 2
              end
            else TPart (PLit (str1 (ascii_of_nat 0))) 1
        | EmptyString => TPart (PLit (str1 (ascii_of_nat 0))) 1
        end
      else if is_digit c then
        match r with
        | String d r2 =>
            if is_digit d then
              if is_octdigit c && is_octdigit d && head_is is_octdigit r2 then
                match r2 with
                | String e _ =>
                    let v := (64 * digit_val c + 8 * digit_val d + digit_val e)%Z in
                    if (255 <? v)%Z then TError
                    else TPart (PLit (str1 (ascii_of_nat (Z.to_nat v)))) 3
                | EmptyString => TError
                end
              else addgroup groups (10 * digit_val c + digit_val d) 2
            else addgroup groups (digit_val c) 1
        | EmptyString => addgroup groups (digit_val c) 1
        end
      else if ch_eqb c "a" then TPart (PLit (str1 (ascii_of_nat 7))) 1
      else if ch_eqb c "b" then TPart (PLit (str1 (ascii_of_nat 8))) 1
      else if ch_eqb c "f" then TPart (PLit (str1 (ascii_of_nat 12))) 1
      else if ch_eqb c "n" then TPart (PLit (str1 (ascii_of_nat 10))) 1
      else if ch_eqb c "r" then TPart (PLit (str1 (ascii_of_nat 13))) 1
      else if ch_eqb c "t" then TPart (PLit (str1 (ascii_of_nat 9))) 1
      else if ch_eqb c "v" then TPart (PLit (str1 (ascii_of_nat 11))) 1
      else if ch_eqb c c_bs then TPart (PLit (str1 c_bs)) 1
      else if is_ascii_letter c then TError
      else TPart (PLit (String c_bs (str1 c))) 1
  end.

(** The template, piece by piece; [None] for the error the parser raises.
    [skip] counts the characters of the current escape still to step over. *)
Fixpoint parse_template (groups : nat) (skip : nat) (tpl : string)
    : option (list tpart) :=
  match tpl with
  | EmptyString => Some []
  | String c tpl' =>
      match skip with
      | S k => parse_template groups k tpl'
      | 0 =>
          if ch_eqb c c_bs then
            match escape_token groups tpl' with
            | TError => None
            | TPart p len =>
                match parse_template groups len tpl' with
                | Some ps => Some (p :: ps)
                | None => None
                end
            end
          else
            match parse_template groups 0 tpl' with
            | Some ps => Some (PLit (str1 c) :: ps)
            | None => None
            end
      end
  end.

(** The template filled in for one match; [gs] holds the text matched and
    the groups. *)
Fixpoint expand_template (parts : list tpart) (gs : list string) : string :=
  match parts with
  | [] => EmptyString
  | PLit s :: parts' => s +:+ expand_template parts' gs
  | PGroup i :: parts' => default EmptyString (gs !! i) +:+ expand_template parts' gs
  end.

(** [re.sub] with a pattern given by its match function (no empty match):
    at a match write the replacement and go on after the match, elsewhere
    copy the character. *)
Fixpoint sub_with (m : string → option (list string * string))
    (repl : list string → string) (skip : nat) (s : string) : string :=
  match s with
  | EmptyString => EmptyString
  | String c s' =>
      match skip with
      | S k => sub_with m repl k s'
      | 0 =>
          match m s with
          | Some (gs, rest) =>
              repl gs +:+ sub_with m repl (String.length s' - String.length rest) s'
          | None => String c (sub_with m repl 0 s')
          end
      end
  end.

(** What [update_index] does. *)
Inductive index_update : Type :=
  | IndexMissing              (* no index file: a warning, nothing written *)
  | IndexError                (* re.sub raises: the program stops *)
  | IndexKept                 (* the text is the same: nothing written *)
  | IndexWritten (new_index : string).

Definition update_index (index_file : option string) (posts : list post)
    : index_update :=
  match index_file with
  | None => IndexMissing
  | Some index_content =>
      (* Build new posts list HTML *)
      let block := new_posts_block posts in
      (* Replace the posts list in the thoughts section *)
      let replacement := "\1\n" +:+ block +:+ "\n            \3" in
      match parse_template 3 0 replacement with
      | None => IndexError
      | Some parts =>
          let new_index :=
            sub_with index_match (expand_template parts) 0 index_content in
          if String.eqb new_index index_content then IndexKept
          else IndexWritten new_index
      end
  end.

(** A letter after a backslash that the template parser refuses. *)
Definition bad_escape_letter (c : ascii) : bool :=
  is_ascii_letter c && negb (has_char c "abfnrtvg").

(** The characters of a text as pieces of a template. *)
Fixpoint lit_parts (s : string) : list tpart :=
  match s with
  | EmptyString => []
  | String c s' => PLit (str1 c) :: lit_parts s'
  end.

(** A line that the loop of [markdown_to_html] takes as the first line of a
    paragraph: none of the tests before the paragraph branch holds. *)
Definition starts_paragraph (line : string) : bool :=
  negb (is_fence line)
  && negb (startswith "# " line) && negb (startswith "## " line)
  && negb (startswith "### " line)
  && negb (is_rule line) && negb (is_bullet line)
  && negb (startswith "> " line)
  && negb (bool_decide (is_Some (re_match re_image_test line)))
  && negb (is_empty (py_strip line)).

(** A template that shows the title, the description and the date where
    [extract_metadata_from_html] looks for them; [h0], [h1] and [h2] are the
    text between them and [tail] is the rest of the template. *)
Definition page_template (h0 h1 h2 : string) (tail : list segment)
    : list segment :=
  [Text h0; Text "<title>"; Hole "title"; Text " / sotoalt</title>"; Text h1;
   Text description_open; Hole "description"; Text dq; Text h2;
   Text meta_open; Hole "date_display"] ++ tail.

(** * Properties *)

(** ** Strings: append, prefixes, occurrences *)

Lemma app_nil_l_s (s : string) : EmptyString +:+ s = s.
Proof. reflexivity. Qed.

Lemma app_cons_s (c : ascii) (a b : string) : String c a +:+ b = String c (a +:+ b).
Proof. reflexivity. Qed.

Lemma app_nil_r_s (s : string) : s +:+ EmptyString = s.
Proof. induction s as [|c s IH]; [done|]. by rewrite app_cons_s, IH. Qed.

Lemma app_assoc_s (a b c : string) : (a +:+ b) +:+ c = a +:+ (b +:+ c).
Proof. induction a as [|x a IH]; [done|]. by rewrite !app_cons_s, IH. Qed.

Lemma app_length_s (a b : string) :
  String.length (a +:+ b) = String.length a + String.length b.
Proof. induction a as [|x a IH]; [done|]. rewrite app_cons_s. simpl. by rewrite IH. Qed.

Lemma ch_eqb_eq (a b : ascii) : ch_eqb a b = true ↔ a = b.
Proof. apply Ascii.eqb_eq. Qed.

Lemma ch_eqb_refl (a : ascii) : ch_eqb a a = true.
Proof. by apply ch_eqb_eq. Qed.

Lemma strip_prefix_app (p s : string) : strip_prefix p (p +:+ s) = Some s.
Proof.
  induction p as [|c p IH]; [done|].
  rewrite app_cons_s. simpl. by rewrite ch_eqb_refl.
Qed.

Lemma strip_prefix_Some (p s r : string) : strip_prefix p s = Some r → s = p +:+ r.
Proof.
  revert s. induction p as [|c p IH]; intros s H; simpl in H.
  - by inversion H.
  - destruct s as [|d s]; [done|].
    destruct (ch_eqb c d) eqn:E; [|done].
    apply ch_eqb_eq in E as ->. rewrite app_cons_s. f_equal. by apply IH.
Qed.

Lemma strip_prefix_startswith (p s : string) :
  startswith p s = bool_decide (is_Some (strip_prefix p s)).
Proof.
  revert s. induction p as [|c p IH]; intros s; simpl.
  - done.
  - destruct s as [|d s]; [done|].
    destruct (ch_eqb c d); simpl; [apply IH|done].
Qed.

Lemma strip_prefix_None (p s : string) :
  strip_prefix p s = None ↔ startswith p s = false.
Proof.
  rewrite strip_prefix_startswith.
  destruct (strip_prefix p s) eqn:E.
  - split; [done|]. intros H. apply bool_decide_eq_false in H.
    exfalso. apply H. eauto.
  - split; [|done]. intros _. apply bool_decide_eq_false. by intros [? ?].
Qed.

(** Stepping over a whole occurrence brings the counter back to zero. *)
Lemma count_from_skip (sep m b : string) :
  count_from sep (String.length m) (m +:+ b) = count_from sep 0 b.
Proof.
  induction m as [|c m IH]; [done|].
  rewrite app_cons_s. exact IH.
Qed.

(** [s.count(sep)] and the first split agree. *)
Lemma find_sub_count (sep s a b : string) :
  sep ≠ EmptyString →
  find_sub sep s = Some (a, b) → str_count sep s = S (str_count sep b).
Proof.
  intros Hsep. unfold str_count. revert a.
  induction s as [|c s IH]; intros a H.
  - simpl in H. destruct (strip_prefix sep EmptyString) eqn:E; [|done].
    apply strip_prefix_Some in E. destruct sep; [done|]. by rewrite app_cons_s in E.
  - cbn [find_sub] in H.
    destruct (strip_prefix sep (String c s)) as [r|] eqn:E.
    + inversion H; subst. pose proof (strip_prefix_Some _ _ _ E) as Hs.
      cbn [count_from].
      rewrite strip_prefix_startswith, E.
      rewrite bool_decide_eq_true_2 by eauto.
      destruct sep as [|d sep]; [done|].
      rewrite app_cons_s in Hs. inversion Hs; subst.
      replace (String.length (String d sep) - 1) with (String.length sep)
        by (simpl; lia).
      by rewrite count_from_skip.
    + destruct (find_sub sep s) as [[a' b']|] eqn:F; [|done].
      inversion H; subst. cbn [count_from].
      apply strip_prefix_None in E. rewrite E. by eapply IH.
Qed.

Lemma split_max_2_length (sep s : string) :
  sep ≠ EmptyString →
  str_count sep s < 2 → length (split_max sep 2 s) < 3.
Proof.
  intros Hsep H. simpl.
  destruct (find_sub sep s) as [[a b]|] eqn:E; [|simpl; lia].
  destruct (find_sub sep b) as [[a' b']|] eqn:F; [|simpl; lia].
  apply find_sub_count in E; [|done]. apply find_sub_count in F; [|done]. lia.
Qed.

(** ** C5: texts without front matter *)

(** C5.  A text that does not start with the marker [---], and likewise a
    text in which the marker occurs fewer than two times (occurrences counted
    as [str.count] does, one after the other without overlap), is returned
    unchanged with an empty metadata mapping.  [parse_frontmatter] is a total
    function: no error arises. *)
Theorem parse_frontmatter_no_frontmatter (text : string) :
  startswith "---" text = false ∨ str_count "---" text < 2 →
  parse_frontmatter text = (∅, text).
Proof.
  intros [H|H]; unfold parse_frontmatter.
  - by rewrite H.
  - destruct (startswith "---" text); [|done]. cbn [negb].
    apply split_max_2_length in H; [|done].
    destruct (length (split_max "---" 2 text) <? 3) eqn:E; [done|].
    apply Nat.ltb_ge in E. lia.
Qed.

Lemma parse_frontmatter_no_frontmatter_witness :
  (startswith "---" "just text" = false ∨ str_count "---" "just text" < 2)
  ∧ parse_frontmatter "just text" = (∅, "just text")
  ∧ (startswith "---" "---only one" = false ∨ str_count "---" "---only one" < 2)
  ∧ parse_frontmatter "---only one" = (∅, "---only one").
Proof.
  split; [left; reflexivity|].
  split; [apply (parse_frontmatter_no_frontmatter "just text"); left; reflexivity|].
  split; [right; vm_compute; lia|].
  apply (parse_frontmatter_no_frontmatter "---only one"). right. vm_compute. lia.
Defined.

(** ** C9: reading time *)

Lemma round_div_nearest (n : Z) :
  (0 ≤ n)%Z → (Z.abs (200 * round_div n 200 - n) ≤ 100)%Z.
Proof.
  intros Hn. unfold round_div.
  pose proof (Z.div_mod n 200 ltac:(lia)) as Hdm.
  pose proof (Z.mod_pos_bound n 200 ltac:(lia)) as Hb.
  destruct (2 * (n mod 200) <? 200)%Z eqn:E1;
    [apply Z.ltb_lt in E1; lia|apply Z.ltb_ge in E1].
  destruct (200 <? 2 * (n mod 200))%Z eqn:E2;
    [apply Z.ltb_lt in E2; lia|apply Z.ltb_ge in E2].
  destruct (Z.even (n / 200)); lia.
Qed.

(** *** What [str.split()] counts *)

Lemma split_ws_go_blank (p s : string) :
  is_blank p = true →
  split_ws_go EmptyString (p +:+ s) = split_ws_go EmptyString s.
Proof.
  unfold is_blank. induction p as [|c p IH]; intros H; [by rewrite app_nil_l_s|].
  cbn [all_chars] in H. apply andb_true_iff in H as [Hc Hp].
  rewrite app_cons_s. cbn [split_ws_go]. rewrite Hc. cbn [is_empty].
  by apply IH.
Qed.

Lemma split_ws_go_run (cur w s : string) :
  all_chars (λ c, negb (py_isspace c)) w = true →
  split_ws_go cur (w +:+ s) = split_ws_go (cur +:+ w) s.
Proof.
  revert cur. induction w as [|c w IH]; intros cur H.
  - by rewrite app_nil_l_s, app_nil_r_s.
  - cbn [all_chars] in H. apply andb_true_iff in H as [Hc Hw].
    apply negb_true_iff in Hc.
    rewrite app_cons_s. cbn [split_ws_go]. rewrite Hc.
    rewrite IH by done. f_equal.
    rewrite app_assoc_s. unfold str1. by rewrite app_cons_s, app_nil_l_s.
Qed.

Lemma split_ws_go_end (cur p : string) :
  is_empty cur = false → is_blank p = true → split_ws_go cur p = [cur].
Proof.
  unfold is_blank. intros Hcur. destruct p as [|c p]; intros H.
  - cbn [split_ws_go]. by rewrite Hcur.
  - cbn [all_chars] in H. apply andb_true_iff in H as [Hc Hp].
    cbn [split_ws_go]. rewrite Hc, Hcur. f_equal.
    rewrite <- (app_nil_r_s p). rewrite split_ws_go_blank by done. done.
Qed.

Lemma split_ws_go_gap (cur p s : string) :
  is_empty cur = false → is_blank p = true → is_empty p = false →
  split_ws_go cur (p +:+ s) = cur :: split_ws_go EmptyString s.
Proof.
  unfold is_blank. intros Hcur H Hp. destruct p as [|c p]; [done|].
  cbn [all_chars] in H. apply andb_true_iff in H as [Hc Hb].
  rewrite app_cons_s. cbn [split_ws_go]. rewrite Hc, Hcur. f_equal.
  by apply split_ws_go_blank.
Qed.

Lemma split_ws_words_text (wps : list (string * string)) :
  words_ok wps = true →
  split_ws_go EmptyString (words_text wps) = fst <$> wps.
Proof.
  induction wps as [|[w p] rest IH]; [done|]. cbn [words_ok words_text].
  intros H. apply andb_true_iff in H as [H Hrest].
  apply andb_true_iff in H as [H Hgap].
  apply andb_true_iff in H as [Hw Hp].
  unfold is_word in Hw. apply andb_true_iff in Hw as [Hne Hw].
  apply negb_true_iff in Hne.
  rewrite split_ws_go_run by done. rewrite app_nil_l_s.
  rewrite fmap_cons. cbn [fst]. destruct rest as [|wp rest].
  - cbn [words_text]. rewrite app_nil_r_s. by rewrite split_ws_go_end.
  - apply negb_true_iff in Hgap.
    rewrite split_ws_go_gap by done. by rewrite IH.
Qed.

(** The words [str.split()] returns for a text of blanks and words. *)
Lemma split_ws_words (p0 : string) (wps : list (string * string)) :
  is_blank p0 = true → words_ok wps = true →
  split_ws (p0 +:+ words_text wps) = fst <$> wps.
Proof.
  intros Hp Hw. unfold split_ws.
  rewrite split_ws_go_blank by done. by apply split_ws_words_text.
Qed.

(** Every text is made of blanks and words in this way. *)
Lemma text_has_words (text : string) :
  ∃ p0 wps, is_blank p0 = true ∧ words_ok wps = true
            ∧ text = p0 +:+ words_text wps.
Proof.
  induction text as [|c text (p0 & wps & Hp & Hw & ->)].
  - by exists EmptyString, [].
  - destruct (py_isspace c) eqn:Hc.
    + exists (String c p0), wps. split; [|done].
      unfold is_blank in *. cbn [all_chars]. by rewrite Hc, Hp.
    + destruct p0 as [|d p0].
      * destruct wps as [|[w p] rest].
        -- exists EmptyString, [(str1 c, EmptyString)]. split; [done|].
           split; [|done]. cbn [words_ok]. unfold is_word, str1.
           cbn [is_empty all_chars negb]. by rewrite Hc.
        -- exists EmptyString, ((String c w, p) :: rest). split; [done|].
           split; [|done]. cbn [words_ok] in *.
           apply andb_true_iff in Hw as [Hw Hrest].
           apply andb_true_iff in Hw as [Hw Hgap].
           apply andb_true_iff in Hw as [Hw Hb].
           unfold is_word in *. apply andb_true_iff in Hw as [_ Hw].
           cbn [is_empty all_chars negb]. by rewrite Hc, Hw, Hb, Hgap, Hrest.
      * exists EmptyString, ((str1 c, String d p0) :: wps). split; [done|].
        split.
        -- cbn [words_ok]. unfold is_word, str1.
           cbn [is_empty all_chars negb]. rewrite Hc, Hp, Hw.
           by destruct wps.
        -- rewrite app_nil_l_s. cbn [words_text]. unfold str1.
           by rewrite !app_cons_s, app_nil_l_s.
Qed.

(** C9.  Every text is made of blanks and words ([text_has_words] inside
    the statement), [str.split()] returns exactly its words, and the
    estimate is the number of words divided by 200 and rounded to a nearest
    integer [r] (the distance between [200 * r] and the word count is at most
    100), and never less than 1.  A body of 400 words gives 2 and a body of
    50 words gives 1. *)
Theorem estimate_reading_time_nearest (text p0 : string)
    (wps : list (string * string)) :
  is_blank p0 = true → words_ok wps = true →
  text = p0 +:+ words_text wps →
  let words := Z.of_nat (length wps) in
  split_ws text = fst <$> wps
  ∧ (∃ r : Z, (Z.abs (200 * r - words) ≤ 100)%Z
              ∧ estimate_reading_time text = Z.max 1 r)
  ∧ (1 ≤ estimate_reading_time text)%Z
  ∧ (words = 400%Z → estimate_reading_time text = 2%Z)
  ∧ (words = 50%Z → estimate_reading_time text = 1%Z)
  ∧ (∀ t : string, ∃ q0 ws, is_blank q0 = true ∧ words_ok ws = true
                            ∧ t = q0 +:+ words_text ws).
Proof.
  intros Hp Hw -> words.
  assert (split_ws (p0 +:+ words_text wps) = fst <$> wps) as Hsplit
    by (by apply split_ws_words).
  split; [exact Hsplit|].
  unfold estimate_reading_time. rewrite Hsplit, length_fmap. fold words.
  split; [|split; [lia|split; [|split]]].
  - exists (round_div words 200). split; [|done].
    apply round_div_nearest. unfold words. lia.
  - intros ->. reflexivity.
  - intros ->. reflexivity.
  - apply text_has_words.
Qed.

(** A body of 400 words, one to a line after some blanks, and a body of 50
    words. *)
Lemma estimate_reading_time_nearest_witness :
  estimate_reading_time
    ("  " +:+ words_text (replicate 399 ("word", " " +:+ nl) ++ [("word", nl)]))
  = 2%Z
  ∧ estimate_reading_time
      (words_text (replicate 49 ("w", " ") ++ [("w", EmptyString)]))
    = 1%Z.
Proof.
  split.
  - refine (proj1 (proj2 (proj2 (proj2
             (estimate_reading_time_nearest _ "  "
                (replicate 399 ("word", " " +:+ nl) ++ [("word", nl)])
                _ _ eq_refl)))) _);
      vm_compute; reflexivity.
  - refine (proj1 (proj2 (proj2 (proj2 (proj2
             (estimate_reading_time_nearest _ EmptyString
                (replicate 49 ("w", " ") ++ [("w", EmptyString)])
                _ _ eq_refl))))) _);
      vm_compute; reflexivity.
Defined.

(** Two bodies of the sizes the specification names. *)
Example reading_time_400_words :
  length (split_ws (join " " (replicate 400 "word"))) = 400
  ∧ estimate_reading_time (join " " (replicate 400 "word")) = 2%Z.
Proof. split; vm_compute; reflexivity. Qed.

Example reading_time_50_words :
  length (split_ws (join nl (replicate 50 "word"))) = 50
  ∧ estimate_reading_time (join nl (replicate 50 "word")) = 1%Z.
Proof. split; vm_compute; reflexivity. Qed.

(** Ties go to the even neighbour, as [round] does: 100 words give 0.5,
    rounded to 0 and raised to 1; 300 words give 2; 500 words give 2. *)
Example reading_time_ties :
  round_div 100 200 = 0%Z ∧ round_div 300 200 = 2%Z ∧ round_div 500 200 = 2%Z.
Proof. repeat split. Qed.

(** ** C8: header lines *)

Lemma find_sub_char_None (c : ascii) (s : string) :
  has_char c s = false → find_sub (str1 c) s = None.
Proof.
  induction s as [|x s IH]; intros H; [done|].
  simpl in H. apply orb_false_iff in H as [Hx Hs].
  cbn [find_sub str1 strip_prefix]. rewrite (IH Hs).
  replace (ch_eqb c x) with false; [done|].
  symmetry. apply not_true_iff_false. intros E. apply ch_eqb_eq in E as ->.
  by rewrite ch_eqb_refl in Hx.
Qed.

Lemma find_sub_char_Some (c : ascii) (a b : string) :
  has_char c a = false → find_sub (str1 c) (a +:+ str1 c +:+ b) = Some (a, b).
Proof.
  induction a as [|x a IH]; intros H.
  - rewrite app_nil_l_s. unfold str1. rewrite app_cons_s, app_nil_l_s.
    cbn [find_sub strip_prefix]. by rewrite ch_eqb_refl.
  - simpl in H. apply orb_false_iff in H as [Hx Hs].
    rewrite app_cons_s. cbn [find_sub str1 strip_prefix].
    replace (ch_eqb c x) with false.
    + fold (str1 c). by rewrite (IH Hs).
    + symmetry. apply not_true_iff_false. intros E. apply ch_eqb_eq in E as ->.
      by rewrite ch_eqb_refl in Hx.
Qed.

Lemma lstrip_by_spec (p : ascii → bool) (s : string) :
  ∃ a, s = a +:+ lstrip_by p s ∧ all_chars p a = true
       ∧ head_is p (lstrip_by p s) = false.
Proof.
  induction s as [|x s (a & Hs & Ha & Hh)].
  - by exists EmptyString.
  - simpl. destruct (p x) eqn:E.
    + exists (String x a). rewrite app_cons_s, <- Hs. simpl. by rewrite E, Ha.
    + exists EmptyString. by rewrite app_nil_l_s.
Qed.

Lemma rstrip_by_spec (p : ascii → bool) (s : string) :
  ∃ b, s = rstrip_by p s +:+ b ∧ all_chars p b = true
       ∧ last_is p (rstrip_by p s) = false
       ∧ (head_is p s = false → head_is p (rstrip_by p s) = false).
Proof.
  induction s as [|x s (b & Hs & Hb & Hl & Hh)].
  - by exists EmptyString.
  - cbn [rstrip_by]. destruct (rstrip_by p s) as [|y r] eqn:R.
    + rewrite app_nil_l_s in Hs. subst b. cbn [is_empty andb].
      destruct (p x) eqn:E.
      * exists (String x s). rewrite app_nil_l_s. cbn [all_chars].
        rewrite E, Hb. repeat split; done.
      * exists s. rewrite app_cons_s, app_nil_l_s. repeat split; done.
    + cbn [is_empty andb]. exists b.
      rewrite app_cons_s, <- Hs. repeat split; done.
Qed.

Lemma strip_by_spec (p : ascii → bool) (s : string) :
  is_strip_of p s (strip_by p s).
Proof.
  unfold is_strip_of, strip_by.
  destruct (lstrip_by_spec p s) as (a & Hs & Ha & Hh).
  destruct (rstrip_by_spec p (lstrip_by p s)) as (b & Hr & Hb & Hl & Hh').
  exists a, b. repeat split; try done; [|by apply Hh'].
  by rewrite <- Hr.
Qed.

(** C8, as the code has it.  A header line without a colon leaves the
    mapping as it is.  A line [key:value], cut at its first colon, stores
    under the trimmed key the value without its surrounding whitespace, then
    without every leading and trailing double quote, then without every
    leading and trailing single quote, whether the quotes match or not. *)
Theorem fm_line_strips_all_quotes (fm : gmap string string) (line : string) :
  (has_char c_colon line = false → fm_line fm line = fm)
  ∧ (∀ key value,
       line = key +:+ ":" +:+ value → has_char c_colon key = false →
       ∃ v1 v2 v3,
         is_strip_of py_isspace value v1
         ∧ is_strip_of (ch_eqb c_dquote) v1 v2
         ∧ is_strip_of (ch_eqb c_squote) v2 v3
         ∧ fm_line fm line = <[py_strip key := v3]> fm).
Proof.
  split.
  - intros H. unfold fm_line.
    change ":" with (str1 c_colon). by rewrite find_sub_char_None.
  - intros key value -> Hk.
    exists (py_strip value), (strip_char c_dquote (py_strip value)),
      (strip_value value).
    repeat split; try apply strip_by_spec.
    unfold fm_line. change ":" with (str1 c_colon).
    by rewrite find_sub_char_Some.
Qed.

(** The claim as written fails: a value in two layers of double quotes
    loses both, and a lone leading quote is removed. *)
Lemma fm_line_quotes_counterexample :
  fm_lines ["k: " +:+ dq +:+ dq +:+ "x" +:+ dq +:+ dq] !! "k" = Some "x"
  ∧ fm_lines ["k: " +:+ dq +:+ dq +:+ "x" +:+ dq +:+ dq] !! "k"
    ≠ Some (dq +:+ "x" +:+ dq)
  ∧ fm_lines ["k: " +:+ dq +:+ "x"] !! "k" = Some "x"
  ∧ fm_lines ["k: " +:+ dq +:+ "x"] !! "k" ≠ Some (dq +:+ "x").
Proof. repeat split; vm_compute; congruence. Qed.

Example fm_line_examples :
  strip_value (" " +:+ dq +:+ "Hello" +:+ dq +:+ " ") = "Hello"
  ∧ strip_value (sq +:+ "Hello" +:+ sq) = "Hello"
  ∧ strip_value (dq +:+ sq +:+ "Hello" +:+ sq +:+ dq) = "Hello"
  ∧ strip_value (sq +:+ dq +:+ "Hello" +:+ dq +:+ sq) = dq +:+ "Hello" +:+ dq
  ∧ fm_lines ["a: 1"; "no colon here"; "b: x:y"; "a : 2"]
    = <["a" := "2"]> (<["b" := "x:y"]> (<["a" := "1"]> ∅)).
Proof. repeat split; vm_compute; reflexivity. Qed.

(** ** C3: the post list is sorted by date, newest first, and stably *)

Lemma ltb_lt_ne (s1 s2 : string) : String.ltb s1 s2 = true → s1 ≠ s2.
Proof.
  unfold String.ltb. intros H ->.
  pose proof (String.compare_antisym s2 s2) as A.
  destruct (s2 ?= s2)%string; simpl in *; congruence.
Qed.

Lemma ltb_true_le (s1 s2 : string) : String.ltb s1 s2 = true → String.le s1 s2.
Proof.
  unfold String.ltb, String.le, String.leb.
  by destruct (s1 ?= s2)%string.
Qed.

Lemma ltb_false_le (s1 s2 : string) : String.ltb s1 s2 = false → String.le s2 s1.
Proof.
  unfold String.ltb, String.le, String.leb.
  rewrite (String.compare_antisym s2 s1).
  by destruct (s1 ?= s2)%string.
Qed.

Lemma date_ge_trans : Transitive date_ge.
Proof. intros a b c Hab Hbc. unfold date_ge in *. by etrans. Qed.

Lemma insert_desc_perm (p : post) (l : list post) : insert_desc p l ≡ₚ p :: l.
Proof.
  induction l as [|q l IH]; [done|]. simpl.
  destruct (String.ltb (date p) (date q)); [|done].
  rewrite IH. apply Permutation_swap.
Qed.

Lemma sort_by_date_desc_perm (l : list post) : sort_by_date_desc l ≡ₚ l.
Proof.
  induction l as [|p l IH]; [done|].
  unfold sort_by_date_desc in *. simpl. rewrite insert_desc_perm. by f_equiv.
Qed.

Lemma insert_desc_sorted (p : post) (l : list post) :
  StronglySorted date_ge l → StronglySorted date_ge (insert_desc p l).
Proof.
  induction 1 as [|q l Hl IH Hq]; simpl.
  - repeat constructor.
  - destruct (String.ltb (date p) (date q)) eqn:E.
    + constructor; [done|].
      rewrite insert_desc_perm. constructor; [|done].
      by apply ltb_true_le.
    + apply ltb_false_le in E.
      constructor; [by constructor|].
      constructor; [done|].
      eapply Forall_impl; [exact Hq|]. intros r Hr.
      unfold date_ge in *. by etrans.
Qed.

Lemma sort_by_date_desc_sorted (l : list post) :
  StronglySorted date_ge (sort_by_date_desc l).
Proof.
  induction l as [|p l IH]; [constructor|].
  by apply insert_desc_sorted.
Qed.

Lemma insert_desc_filter (d : string) (p : post) (l : list post) :
  filter (λ q, date q = d) (insert_desc p l) = filter (λ q, date q = d) (p :: l).
Proof.
  induction l as [|q l IH]; [done|]. simpl.
  destruct (String.ltb (date p) (date q)) eqn:E; [|done].
  apply ltb_lt_ne in E.
  rewrite (filter_cons _ q), IH, !filter_cons.
  repeat case_decide; congruence.
Qed.

(** Stability: the records of one date keep their order. *)
Lemma sort_by_date_desc_stable (d : string) (l : list post) :
  filter (λ q, date q = d) (sort_by_date_desc l) = filter (λ q, date q = d) l.
Proof.
  induction l as [|p l IH]; [done|].
  unfold sort_by_date_desc in *. simpl.
  by rewrite insert_desc_filter, !filter_cons, IH.
Qed.

(** The scans. *)

Lemma md_post_slug (e : entry) : slug (md_post e) = get_slug_from_filename (fst e).
Proof. unfold md_post. by destruct (parse_frontmatter (snd e)). Qed.

Lemma md_post_src (e : entry) : src (md_post e) = Markdown.
Proof. unfold md_post. by destruct (parse_frontmatter (snd e)). Qed.

Lemma foldl_scan_md (files : list entry) (acc : scan_state) :
  seen_ok acc →
  fst (foldl scan_md acc files) = fst acc ++ (md_post <$> files)
  ∧ seen_ok (foldl scan_md acc files).
Proof.
  revert acc. induction files as [|e files IH]; intros acc Hacc; simpl.
  - by rewrite app_nil_r.
  - destruct (IH (scan_md acc e)) as [-> Hok].
    + intros s. unfold scan_md. simpl. rewrite fmap_app. simpl.
      rewrite elem_of_union, elem_of_singleton, elem_of_app, list_elem_of_singleton.
      rewrite (Hacc s). tauto.
    + split; [|done]. unfold scan_md. simpl. by rewrite <- app_assoc.
Qed.

Lemma foldl_scan_html (files : list entry) (acc : scan_state) :
  seen_ok acc →
  ∃ hs, fst (foldl scan_html acc files) = fst acc ++ hs
        ∧ Forall (λ p, src p = Html) hs
        ∧ (∀ p, p ∈ hs → slug p ∉ slug <$> fst acc)
        ∧ NoDup (slug <$> hs).
Proof.
  revert acc. induction files as [|e files IH]; intros acc Hacc; simpl.
  - exists []. rewrite app_nil_r. repeat split; [done|set_solver|constructor].
  - unfold scan_html at 2. case_bool_decide as Hin.
    + by apply IH.
    + set (h := extract_metadata_from_html e).
      destruct (IH (fst acc ++ [h], {[path_stem (fst e)]} ∪ snd acc))
        as (hs & Hfst & Hsrc & Hfresh & Hnd).
      { intros s. simpl. rewrite fmap_app. simpl.
        rewrite elem_of_union, elem_of_singleton, elem_of_app, list_elem_of_singleton.
        rewrite (Hacc s). tauto. }
      exists (h :: hs). simpl in *. rewrite Hfst, <- app_assoc. simpl.
      split; [done|]. split; [by constructor|]. split.
      * intros p [->|Hp]%elem_of_cons.
        -- simpl. by rewrite <- (Hacc _).
        -- intros Hs. apply (Hfresh p Hp). rewrite fmap_app, elem_of_app. by left.
      * constructor; [|done].
        intros Hs. apply list_elem_of_fmap in Hs as (p & Hsp & Hp).
        apply (Hfresh p Hp). rewrite fmap_app, <- Hsp, elem_of_app.
        right. apply list_elem_of_singleton. reflexivity.
Qed.

Lemma scan_posts_split (posts_dir thoughts_dir : option (list entry)) :
  ∃ hs, scan_posts posts_dir thoughts_dir
        = (md_post <$> dir_files ".md" posts_dir) ++ hs
      ∧ Forall (λ p, src p = Html) hs
      ∧ (∀ p, p ∈ hs → slug p ∉ md_slugs posts_dir)
      ∧ NoDup (slug <$> hs).
Proof.
  unfold scan_posts.
  destruct (foldl_scan_md (dir_files ".md" posts_dir) ([], ∅)) as [Hfst Hok].
  { intros s. simpl. set_solver. }
  destruct (foldl_scan_html (dir_files ".html" thoughts_dir) _ Hok)
    as (hs & Hh & Hsrc & Hfresh & Hnd).
  exists hs. rewrite Hh, Hfst. simpl. repeat split; try done.
  intros p Hp Hs. apply (Hfresh p Hp). rewrite Hfst. simpl.
  unfold md_slugs in Hs. rewrite <- list_fmap_compose.
  erewrite list_fmap_ext; [exact Hs|]. intros _ e _. simpl. apply md_post_slug.
Qed.

(** C3.  The post list is a rearrangement of the scanned records, sorted by
    the date string in descending order; records with equal dates keep the
    order of the scan, which puts the markdown records before the HTML
    records.  For the dates 2024-03-01, 2024-01-15, 2024-03-01 the sort gives
    the first record, the third, then the second. *)
Theorem get_all_posts_sorted_stable (posts_dir thoughts_dir : option (list entry)) :
  let scanned := scan_posts posts_dir thoughts_dir in
  let sorted := get_all_posts posts_dir thoughts_dir in
  sorted ≡ₚ scanned
  ∧ StronglySorted date_ge sorted
  ∧ (∀ d, filter (λ p, date p = d) sorted = filter (λ p, date p = d) scanned)
  ∧ (∃ ms hs, scanned = ms ++ hs
              ∧ Forall (λ p, src p = Markdown) ms
              ∧ Forall (λ p, src p = Html) hs)
  ∧ (∀ a b c, date a = "2024-03-01" → date b = "2024-01-15" →
              date c = "2024-03-01" →
              sort_by_date_desc [a; b; c] = [a; c; b]).
Proof.
  intros scanned sorted. unfold sorted, get_all_posts. fold scanned.
  split; [apply sort_by_date_desc_perm|].
  split; [apply sort_by_date_desc_sorted|].
  split; [intros d; apply sort_by_date_desc_stable|].
  split.
  - destruct (scan_posts_split posts_dir thoughts_dir) as (hs & Hs & Hsrc & _).
    exists (md_post <$> dir_files ".md" posts_dir), hs.
    split; [done|]. split; [|done].
    apply Forall_fmap, Forall_forall. intros e _. apply md_post_src.
  - intros a b c Ha Hb Hc. unfold sort_by_date_desc.
    cbn [foldr insert_desc]. rewrite Hb, Hc.
    change (String.ltb "2024-01-15" "2024-03-01") with true.
    cbn [insert_desc]. rewrite Ha, Hc.
    change (String.ltb "2024-03-01" "2024-03-01") with false.
    reflexivity.
Qed.

(** The same on a site: two markdown posts and a published page. *)
Example get_all_posts_order :
  file <$> get_all_posts
    (Some [("2024-01-15-b.md", "b"); ("2024-03-01-a.md", "a")])
    (Some [("c.html", "<p class=" +:+ dq +:+ "meta" +:+ dq +:+ ">2024.03")])
  = ["2024-03-01-a.md"; "c.html"; "2024-01-15-b.md"].
Proof. vm_compute. reflexivity. Qed.

(** ** C2: markdown sources win over published pages *)

Lemma NoDup_fmap_eq {A B : Type} (f : A → B) (l : list A) (x y : A) :
  NoDup (f <$> l) → x ∈ l → y ∈ l → f x = f y → x = y.
Proof.
  induction l as [|z l IH]; intros Hnd Hx Hy Hf; [by apply elem_of_nil in Hx|].
  rewrite fmap_cons in Hnd. apply NoDup_cons in Hnd as [Hz Hnd].
  apply elem_of_cons in Hx as [->|Hx]; apply elem_of_cons in Hy as [->|Hy].
  - done.
  - exfalso. apply Hz. rewrite Hf. by apply list_elem_of_fmap_2.
  - exfalso. apply Hz. rewrite <- Hf. by apply list_elem_of_fmap_2.
  - by apply IH.
Qed.

Lemma md_posts_slugs (posts_dir : option (list entry)) :
  slug <$> (md_post <$> dir_files ".md" posts_dir) = md_slugs posts_dir.
Proof.
  unfold md_slugs. rewrite <- list_fmap_compose.
  apply list_fmap_ext. intros _ e _. simpl. apply md_post_slug.
Qed.

Lemma length_filter_fmap {A : Type} (f : A → string) (s : string) (l : list A) :
  length (filter (λ x, f x = s) l) = length (filter (λ y, y = s) (f <$> l)).
Proof.
  induction l as [|x l IH]; [done|]. rewrite fmap_cons.
  destruct (decide (f x = s)) as [E|E].
  - rewrite !filter_cons_True by done. simpl. by rewrite IH.
  - by rewrite !filter_cons_False.
Qed.

Lemma filter_eq_not_elem (s : string) (l : list string) :
  s ∉ l → filter (λ y, y = s) l = [].
Proof.
  induction l as [|x l IH]; [done|]. intros H.
  apply not_elem_of_cons in H as [Hx Hl].
  rewrite filter_cons_False by congruence. by apply IH.
Qed.

Lemma NoDup_filter_eq (s : string) (l : list string) :
  NoDup l → length (filter (λ y, y = s) l) ≤ 1.
Proof.
  induction 1 as [|x l Hx _ IH]; [simpl; lia|].
  destruct (decide (x = s)) as [->|E].
  - rewrite filter_cons_True by done. rewrite filter_eq_not_elem by done.
    simpl. lia.
  - by rewrite filter_cons_False.
Qed.

(** The records that carry a slug: as many as there are markdown files with
    that slug, and one at most when there is none. *)
Lemma slug_records (posts_dir thoughts_dir : option (list entry)) (s : string) :
  (s ∈ md_slugs posts_dir →
   length (filter (λ p, slug p = s) (get_all_posts posts_dir thoughts_dir))
   = length (filter (λ y, y = s) (md_slugs posts_dir)))
  ∧ (s ∉ md_slugs posts_dir →
     length (filter (λ p, slug p = s) (get_all_posts posts_dir thoughts_dir)) ≤ 1).
Proof.
  destruct (scan_posts_split posts_dir thoughts_dir)
    as (hs & Hscan & Hsrc & Hfresh & Hnd).
  assert (length (filter (λ p, slug p = s) (get_all_posts posts_dir thoughts_dir))
          = length (filter (λ y, y = s) (md_slugs posts_dir))
            + length (filter (λ y, y = s) (slug <$> hs))) as E.
  { unfold get_all_posts. rewrite sort_by_date_desc_perm, Hscan, filter_app.
    rewrite length_app.
    rewrite (length_filter_fmap slug s (md_post <$> dir_files ".md" posts_dir)).
    rewrite (length_filter_fmap slug s hs).
    by rewrite md_posts_slugs. }
  split; intros Hs; rewrite E.
  - rewrite (filter_eq_not_elem s (slug <$> hs)); [simpl; lia|].
    intros Hin. apply list_elem_of_fmap in Hin as (p & -> & Hp).
    by apply (Hfresh p Hp).
  - rewrite (filter_eq_not_elem s (md_slugs posts_dir)) by done.
    simpl. by apply NoDup_filter_eq.
Qed.

(** C2, as the code has it.  No record made from a published page carries
    the slug of a markdown file: every record with such a slug comes from
    markdown.  A slug has as many records as there are markdown files with
    it, and one at most when there is none; so a slug that exactly one
    markdown file has (whatever the other files are, and whether a published
    page has it too) has exactly one record, made from markdown.  When the
    markdown file names give pairwise distinct slugs, no two records of the
    post list share a slug. *)
Theorem markdown_slug_priority (posts_dir thoughts_dir : option (list entry)) :
  let posts := get_all_posts posts_dir thoughts_dir in
  (∀ p, p ∈ posts → slug p ∈ md_slugs posts_dir → src p = Markdown)
  ∧ (NoDup (md_slugs posts_dir) →
     NoDup (slug <$> posts)
     ∧ ∀ s, s ∈ md_slugs posts_dir →
         ∃ p, p ∈ posts ∧ slug p = s ∧ src p = Markdown
              ∧ ∀ q, q ∈ posts → slug q = s → q = p)
  ∧ (∀ s, s ∈ md_slugs posts_dir →
       length (filter (λ p, slug p = s) posts)
       = length (filter (λ y, y = s) (md_slugs posts_dir)))
  ∧ (∀ s, s ∉ md_slugs posts_dir →
       length (filter (λ p, slug p = s) posts) ≤ 1)
  ∧ (∀ s, length (filter (λ y, y = s) (md_slugs posts_dir)) = 1 →
       ∃ p, filter (λ q, slug q = s) posts = [p] ∧ src p = Markdown
            ∧ ∀ q, q ∈ posts → slug q = s → q = p).
Proof.
  intros posts.
  destruct (scan_posts_split posts_dir thoughts_dir)
    as (hs & Hscan & Hsrc & Hfresh & Hnd).
  assert (∀ p, p ∈ posts ↔ p ∈ scan_posts posts_dir thoughts_dir) as Hin.
  { intros p. unfold posts, get_all_posts. by rewrite sort_by_date_desc_perm. }
  assert (∀ p, p ∈ posts → slug p ∈ md_slugs posts_dir → src p = Markdown) as Hprio.
  { intros p Hp Hs. apply Hin in Hp. rewrite Hscan in Hp.
    apply elem_of_app in Hp as [Hp|Hp].
    - apply list_elem_of_fmap in Hp as (e & -> & _). apply md_post_src.
    - by destruct (Hfresh p Hp). }
  split; [exact Hprio|]. split.
  { intros Hmd.
    assert (NoDup (slug <$> posts)) as Hposts.
    { unfold posts, get_all_posts. rewrite sort_by_date_desc_perm, Hscan, fmap_app.
      apply NoDup_app. rewrite md_posts_slugs. split; [done|]. split; [|done].
      intros s Hs Hs'. apply list_elem_of_fmap in Hs' as (p & -> & Hp).
      by apply (Hfresh p Hp). }
    split; [exact Hposts|]. intros s Hs.
    rewrite <- md_posts_slugs in Hs.
    apply list_elem_of_fmap in Hs as (p & -> & Hp).
    assert (p ∈ posts) as Hp'.
    { apply Hin. rewrite Hscan. apply elem_of_app. by left. }
    exists p. split; [done|]. split; [done|]. split.
    - apply Hprio; [done|]. rewrite <- md_posts_slugs. by apply list_elem_of_fmap_2.
    - intros q Hq Hqs. by apply (NoDup_fmap_eq slug posts). }
  split; [intros s; apply slug_records|].
  split; [intros s; apply slug_records|].
  intros s Hone.
  assert (s ∈ md_slugs posts_dir) as Hs.
  { destruct (decide (s ∈ md_slugs posts_dir)) as [|Hn]; [done|].
    rewrite filter_eq_not_elem in Hone by done. simpl in Hone. lia. }
  pose proof (proj1 (slug_records posts_dir thoughts_dir s) Hs) as Hlen.
  fold posts in Hlen. rewrite Hone in Hlen.
  destruct (filter (λ q, slug q = s) posts) as [|p [|p' l]] eqn:Hf;
    [done| |done].
  assert (p ∈ posts ∧ slug p = s) as [Hp Hps].
  { assert (p ∈ filter (λ q, slug q = s) posts) as H
      by (rewrite Hf; apply list_elem_of_here).
    by apply list_elem_of_filter in H as [? ?]. }
  exists p. split; [done|]. split.
  - apply Hprio; [done|]. by rewrite Hps.
  - intros q Hq Hqs.
    assert (q ∈ filter (λ q, slug q = s) posts) as H
      by (by apply list_elem_of_filter).
    rewrite Hf in H. by apply list_elem_of_singleton in H.
Qed.

(** The site of the specification, [posts/2024-01-01-x.md] and
    [thoughts/x.html], beside two markdown files that share the slug y. *)
Lemma markdown_slug_priority_witness :
  let posts_dir := Some [("2024-01-01-x.md", "hello"); ("y.md", "a");
                         ("2024-02-02-y.md", "b")] in
  let thoughts_dir := Some [("x.html", "<title>X / sotoalt</title>")] in
  length (filter (λ y, y = "x") (md_slugs posts_dir)) = 1
  ∧ ∃ p, filter (λ q, slug q = "x") (get_all_posts posts_dir thoughts_dir) = [p]
         ∧ src p = Markdown
         ∧ ∀ q, q ∈ get_all_posts posts_dir thoughts_dir → slug q = "x" → q = p.
Proof.
  intros posts_dir thoughts_dir.
  assert (length (filter (λ y, y = "x") (md_slugs posts_dir)) = 1) as H
    by (vm_compute; reflexivity).
  split; [exact H|].
  exact (proj2 (proj2 (proj2 (proj2
           (markdown_slug_priority posts_dir thoughts_dir)))) "x" H).
Defined.

Example slug_priority_example :
  (λ p, (slug p, src p, file p)) <$>
    get_all_posts (Some [("2024-01-01-x.md", "hello")])
                  (Some [("x.html", "<title>X / sotoalt</title>")])
  = [("x", Markdown, "2024-01-01-x.md")].
Proof. vm_compute. reflexivity. Qed.

(** The claim as written fails: two markdown files with one slug give two
    records with that slug. *)
Lemma slug_unique_counterexample :
  let posts :=
    get_all_posts (Some [("2024-01-01-x.md", "a"); ("2024-02-02-x.md", "b")])
                  None in
  slug <$> posts = ["x"; "x"] ∧ ¬ NoDup (slug <$> posts).
Proof.
  assert (slug <$> get_all_posts
            (Some [("2024-01-01-x.md", "a"); ("2024-02-02-x.md", "b")]) None
          = ["x"; "x"]) as E by (vm_compute; reflexivity).
  split; [exact E|]. rewrite E. intros H.
  apply NoDup_cons in H as [H _]. apply H. apply list_elem_of_singleton. reflexivity.
Qed.

(** ** C7: the date of a markdown post *)

Lemma re_date_prefix_match (p rest : string) :
  date_shaped p = true →
  re_match re_date_prefix (p +:+ "-" +:+ rest) = Some ([p], rest).
Proof.
  intros H.
  do 10 (destruct p as [|? p]; [done|]). destruct p; [|done].
  cbn [date_shaped] in H.
  do 9 (apply andb_true_iff in H as [H ?]).
  repeat match goal with E : ch_eqb _ _ = true |- _ => apply ch_eqb_eq in E; subst end.
  rewrite !app_cons_s, app_nil_l_s.
  unfold re_match, re_date_prefix, digits, c_dash.
  repeat (cbn;
    match goal with
    | E : is_digit ?a = true |- context [is_digit ?a] => rewrite E
    | |- context [ch_eqb ?x ?x] => rewrite ch_eqb_refl
    end).
  reflexivity.
Qed.

Lemma re_date_prefix_inv (name : string) (gs : list string) (rest : string) :
  re_match re_date_prefix name = Some (gs, rest) →
  ∃ p, gs = [p] ∧ date_shaped p = true ∧ name = p +:+ "-" +:+ rest.
Proof.
  unfold re_match, re_date_prefix, digits. cbn.
  intros H.
  repeat first
    [ match type of H with
      | context [match ?s with EmptyString => _ | String _ _ => _ end] =>
          is_var s; destruct s; cbn in H; [discriminate H|]
      end
    | match type of H with
      | context [if ?b then _ else _] =>
          destruct b eqn:?; cbn in H; [|discriminate H]
      end ].
  inversion H; subst; clear H.
  repeat match goal with E : ch_eqb _ _ = true |- _ =>
    apply ch_eqb_eq in E; subst end.
  eexists. split; [reflexivity|]. split; [|reflexivity].
  cbv [String.append str1 date_shaped].
  repeat match goal with E : is_digit _ = true |- _ => rewrite E; clear E end.
  reflexivity.
Qed.

(** The post list takes the date of a post without a front-matter date from
    the file name, and falls back to 1970-01-01. *)
Lemma md_date_from_filename (fm : gmap string string) (name : string) :
  dict_get fm "date" EmptyString = EmptyString →
  (∀ p rest, date_shaped p = true → name = p +:+ "-" +:+ rest →
             md_date fm name = p)
  ∧ ((∀ p rest, date_shaped p = true → name ≠ p +:+ "-" +:+ rest) →
     md_date fm name = "1970-01-01").
Proof.
  intros H. unfold md_date. rewrite H. cbn [is_empty]. split.
  - intros p rest Hp ->. rewrite re_date_prefix_match by done. reflexivity.
  - intros Hno. destruct (re_match re_date_prefix name) as [[gs rest]|] eqn:E; [|done].
    apply re_date_prefix_inv in E as (p & -> & Hp & ->).
    by destruct (Hno p rest Hp).
Qed.

(** C7, what [publish_post] does.  When the front matter has no date, the
    record carries the date of the day of publication, whatever the file
    name: neither the date prefix of the name nor 1970-01-01. *)
Theorem publish_post_date_is_today (today : string) (md_file : entry) :
  fst (parse_frontmatter (snd md_file)) !! "date" = None →
  info_date (publish_post today md_file) = today.
Proof.
  unfold publish_post. destruct (parse_frontmatter (snd md_file)) as [fm body].
  simpl. intros H. unfold dict_get. by rewrite H.
Qed.

(** A dated file without front matter: the post list dates it 2024-01-01,
    publishing it on 2026-11-03 dates it 2026-11-03. *)
Lemma publish_post_date_is_today_witness :
  fst (parse_frontmatter "hello") !! "date" = None
  ∧ info_date (publish_post "2026-11-03" ("2024-01-01-x.md", "hello")) = "2026-11-03"
  ∧ date (md_post ("2024-01-01-x.md", "hello")) = "2024-01-01".
Proof.
  split; [reflexivity|]. split; [|vm_compute; reflexivity].
  apply (publish_post_date_is_today "2026-11-03" ("2024-01-01-x.md", "hello")).
  reflexivity.
Defined.

Example publish_post_undated_name :
  info_date (publish_post "2026-11-03" ("notes.md", "hello")) = "2026-11-03"
  ∧ date (md_post ("notes.md", "hello")) = "1970-01-01".
Proof. split; vm_compute; reflexivity. Qed.

(** ** C1: the image branch *)

(** C1, at an image line.  The alternative text and the address go into the
    figure as they stand: a script tag in the alternative text reaches the
    output twice, unescaped, and an ampersand stays a bare ampersand. *)
Theorem image_branch_not_escaped :
  markdown_to_html "![<script>](x)"
  = "<figure><img src=" +:+ dq +:+ "x" +:+ dq +:+ " alt=" +:+ dq +:+ "<script>"
    +:+ dq +:+ "><figcaption><script></figcaption></figure>"
  ∧ contains "<script>" (markdown_to_html "![<script>](x)") = true
  ∧ markdown_to_html "![a&b](c)"
    = "<figure><img src=" +:+ dq +:+ "c" +:+ dq +:+ " alt=" +:+ dq +:+ "a&b"
      +:+ dq +:+ "><figcaption>a&b</figcaption></figure>"
  ∧ contains "&amp;" (markdown_to_html "![a&b](c)") = false.
Proof. repeat split; vm_compute; reflexivity. Qed.

(** The other branches pass the text through [process_inline] or
    [html_escape]. *)
Example text_branches_escaped :
  markdown_to_html "<script> & *b*" = "<p>&lt;script&gt; &amp; <em>b</em></p>"
  ∧ markdown_to_html "## <script>&" = "<h2>&lt;script&gt;&amp;</h2>"
  ∧ markdown_to_html "> **&**[&](&)"
    = "<blockquote><p><strong>&amp;</strong><a href=" +:+ dq +:+ "&amp;" +:+ dq
      +:+ ">&amp;</a></p></blockquote>"
  ∧ markdown_to_html ("```" +:+ nl +:+ "<script>&" +:+ nl +:+ "```")
    = "<pre><code>&lt;script&gt;&amp;</code></pre>".
Proof. repeat split; vm_compute; reflexivity. Qed.

(** ** The loop of markdown_to_html, block by block *)

Lemma convert_lines_step (line : string) (rest : list string) (st : conv_state) :
  convert_lines (line :: rest) st
  = convert_lines (snd (block_step line rest st)) (fst (block_step line rest st)).
Proof.
  unfold block_step. cbn [convert_lines].
  destruct (is_fence line); [by destruct (in_code st)|].
  destruct (in_code st); [done|].
  cbv zeta. generalize (close_list line st). clear st. intros st.
  repeat match goal with
  | |- (if ?b then _ else _) = _ => destruct b; [reflexivity|]
  end.
  cbn [fst snd].
  change (line :: take_run para_continues rest)
    with ([line] ++ take_run para_continues rest).
  generalize [line]. induction rest as [|l rest IH]; intros para.
  - cbn. by rewrite app_nil_r.
  - cbn [take_run drop_run]. destruct (para_continues l) eqn:E.
    + rewrite IH. by rewrite <- app_assoc.
    + by rewrite app_nil_r.
Qed.

Lemma fence_stops_para (f : string) : is_fence f = true → para_continues f = false.
Proof.
  unfold is_fence, para_continues, para_stops. intros H. cbn [existsb].
  rewrite H. rewrite !orb_true_r. apply andb_false_r.
Qed.

Lemma take_run_app_stop (p : string → bool) (l : list string) (x : string)
    (r : list string) :
  p x = false → take_run p (l ++ x :: r) = take_run p l.
Proof.
  intros Hx. induction l as [|y l IH]; cbn [app take_run].
  - by rewrite Hx.
  - destruct (p y); [by rewrite IH|done].
Qed.

Lemma drop_run_app_stop (p : string → bool) (l : list string) (x : string)
    (r : list string) :
  p x = false → drop_run p (l ++ x :: r) = drop_run p l ++ x :: r.
Proof.
  intros Hx. induction l as [|y l IH]; cbn [app drop_run].
  - by rewrite Hx.
  - destruct (p y); [by rewrite IH|done].
Qed.

Lemma drop_run_length (p : string → bool) (l : list string) :
  length (drop_run p l) ≤ length l.
Proof.
  induction l as [|y l IH]; [done|]. cbn [drop_run].
  destruct (p y); simpl; lia.
Qed.

Lemma block_step_length (line : string) (rest : list string) (st : conv_state) :
  length (snd (block_step line rest st)) ≤ length rest.
Proof.
  unfold block_step.
  repeat match goal with
  | |- context [if ?b then _ else _] => destruct b; try (cbn [snd]; lia)
  end.
  cbn [snd]. apply drop_run_length.
Qed.

(** A fence ends the block before it: the lines up to a fence are converted
    as if the input ended there. *)
Lemma block_step_app_fence (line : string) (pre : list string) (f : string)
    (rest : list string) (st : conv_state) :
  is_fence f = true →
  block_step line (pre ++ f :: rest) st
  = (fst (block_step line pre st), snd (block_step line pre st) ++ f :: rest).
Proof.
  intros Hf. apply fence_stops_para in Hf. unfold block_step.
  repeat match goal with
  | |- context [if ?b then _ else _] => destruct b; try reflexivity
  end.
  cbn [fst snd]. by rewrite take_run_app_stop, drop_run_app_stop.
Qed.

Lemma convert_lines_app_fence (pre : list string) (f : string)
    (rest : list string) (st : conv_state) :
  is_fence f = true →
  convert_lines (pre ++ f :: rest) st
  = convert_lines (f :: rest) (convert_lines pre st).
Proof.
  intros Hf. remember (length pre) as n eqn:Hn.
  assert (length pre ≤ n) as Hle by lia. clear Hn.
  revert pre st Hle. induction n as [|n IH]; intros pre st Hle.
  - destruct pre; [done|simpl in Hle; lia].
  - destruct pre as [|line pre]; [done|]. simpl in Hle.
    rewrite <- app_comm_cons.
    rewrite (convert_lines_step line (pre ++ f :: rest)).
    rewrite (convert_lines_step line pre).
    rewrite block_step_app_fence by done. cbn [fst snd].
    apply IH. pose proof (block_step_length line pre st). lia.
Qed.

(** Inside a code block every line that is not a fence goes to the buffer,
    whatever it looks like. *)
Lemma convert_lines_in_code (code : list string) (st : conv_state) :
  in_code st = true → Forall (λ l, is_fence l = false) code →
  convert_lines code st
  = {| html_lines := html_lines st; in_list := in_list st;
       in_code := true; code_block := code_block st ++ code |}.
Proof.
  intros Hin Hcode. revert st Hin.
  induction Hcode as [|l code Hl _ IH]; intros st Hin.
  - cbn. rewrite app_nil_r. destruct st; simpl in *; by subst.
  - cbn [convert_lines]. rewrite Hl, Hin.
    rewrite IH by done. cbn. by rewrite <- app_assoc.
Qed.

Lemma convert_lines_fenced (f1 : string) (code : list string) (f2 : string)
    (post : list string) (st : conv_state) :
  is_fence f1 = true → is_fence f2 = true →
  Forall (λ l, is_fence l = false) code →
  in_code st = false → buffer_ok st →
  convert_lines (f1 :: code ++ f2 :: post) st
  = convert_lines post (emit (pre_block code) st).
Proof.
  intros H1 H2 Hcode Hin Hbuf.
  cbn [convert_lines]. rewrite H1, Hin.
  rewrite convert_lines_app_fence by done.
  rewrite (convert_lines_in_code code) by done.
  cbn [convert_lines]. rewrite H2. cbn [in_code].
  f_equal. unfold close_code, emit, open_code, pre_block. cbn.
  rewrite (Hbuf Hin), Hin. reflexivity.
Qed.

Lemma convert_lines_unclosed (f : string) (rest : list string) (st : conv_state) :
  is_fence f = true → Forall (λ l, is_fence l = false) rest →
  in_code st = false →
  finish (convert_lines (f :: rest) st) = finish st.
Proof.
  intros Hf Hrest Hin. cbn [convert_lines]. rewrite Hf, Hin.
  by rewrite convert_lines_in_code.
Qed.

(** The invariant of the buffer, and the growth of the output. *)





(** ** C6: what stands between two fences *)


(** A block whose lines look like a heading, a list item, a rule, a quote
    and an image ([fenced_md]). *)


Example fenced_md_html :
  markdown_to_html fenced_md
  = join html_sep
      ["<p>intro</p>";
       "<pre><code>" +:+
         join nl ["# not a heading"; "- *not* a list"; "---"; "&gt; q"; "![a](b)"]
         +:+ "</code></pre>";
       "<p>after</p>"].
Proof. vm_compute. reflexivity. Qed.

(** ** C10: a fence that is never closed *)

(** C10.  When a fence opens a code block and no fence follows, the output
    is the output for the lines before that fence: the lines after it are
    buffered and dropped, and no preformatted block is made. *)
Theorem unclosed_fence_discards (md : string) (pre : list string)
    (f : string) (rest : list string) :
  split_char c_nl md = pre ++ f :: rest →
  is_fence f = true →
  Forall (λ l, is_fence l = false) rest →
  in_code (convert_lines pre conv_init) = false →
  markdown_to_html md = join html_sep (finish (convert_lines pre conv_init)).
Proof.
  intros Hmd Hf Hrest Hin. unfold markdown_to_html.
  rewrite Hmd, convert_lines_app_fence by done.
  by rewrite convert_lines_unclosed.
Qed.


Lemma unclosed_fence_discards_witness :
  split_char c_nl unclosed_md = ["- item"] ++ "```" :: ["lost <b>"; "## also lost"]
  ∧ markdown_to_html unclosed_md
    = join html_sep (finish (convert_lines ["- item"] conv_init))
  ∧ markdown_to_html unclosed_md = markdown_to_html "- item".
Proof.
  split; [reflexivity|]. split; [|vm_compute; reflexivity].
  apply (unclosed_fence_discards unclosed_md ["- item"] "```"
           ["lost <b>"; "## also lost"]).
  - reflexivity.
  - reflexivity.
  - repeat constructor.
  - reflexivity.
Defined.

Example unclosed_md_html :
  markdown_to_html unclosed_md = join html_sep ["<ul>"; "<li>item</li>"; "</ul>"]
  ∧ contains "lost" (markdown_to_html unclosed_md) = false
  ∧ contains "<pre>" (markdown_to_html unclosed_md) = false.
Proof. repeat split; vm_compute; reflexivity. Qed.

(** ** [html.escape], character by character *)

Lemma ch_eqb_neq (a b : ascii) : ch_eqb a b = false ↔ a ≠ b.
Proof.
  rewrite <- ch_eqb_eq. destruct (ch_eqb a b); split; congruence.
Qed.

Lemma ch_eqb_sym (a b : ascii) : ch_eqb a b = ch_eqb b a.
Proof.
  destruct (ch_eqb a b) eqn:E.
  - apply ch_eqb_eq in E as ->. by rewrite ch_eqb_refl.
  - symmetry. apply ch_eqb_neq. apply ch_eqb_neq in E. congruence.
Qed.

Lemma replace_char_cons (c : ascii) (new : string) (x : ascii) (s : string) :
  str_replace (str1 c) new (String x s)
  = (if ch_eqb c x then new else str1 x) +:+ str_replace (str1 c) new s.
Proof.
  unfold str_replace. cbn [replace_from str1 startswith String.length Nat.sub].
  destruct (ch_eqb c x); cbn [andb]; [|done].
  by destruct s.
Qed.

Lemma replace_char_single (c : ascii) (new : string) (x : ascii) :
  ch_eqb c x = false → str_replace (str1 c) new (str1 x) = str1 x.
Proof. intros H. unfold str1 at 2. by rewrite replace_char_cons, H. Qed.

Lemma replace_char_app (c : ascii) (new a b : string) :
  str_replace (str1 c) new (a +:+ b)
  = str_replace (str1 c) new a +:+ str_replace (str1 c) new b.
Proof.
  induction a as [|x a IH]; [done|].
  by rewrite app_cons_s, !replace_char_cons, IH, app_assoc_s.
Qed.

Lemma html_escape_app (a b : string) :
  html_escape (a +:+ b) = html_escape a +:+ html_escape b.
Proof.
  unfold html_escape, dq, sq.
  change "&" with (str1 c_amp). change "<" with (str1 c_lt).
  change ">" with (str1 c_gt).
  by rewrite !replace_char_app.
Qed.

Lemma html_escape_cons (x : ascii) (s : string) :
  html_escape (String x s) = html_escape (str1 x) +:+ html_escape s.
Proof. by rewrite <- html_escape_app. Qed.

(** A character is written as it is, or it is one of the five and its
    entity is written. *)
Lemma html_escape_char (x : ascii) :
  (inert x = true → html_escape (str1 x) = str1 x)
  ∧ (html_escape (str1 x) = str1 x
     ∨ html_escape (str1 x) = "&amp;" ∨ html_escape (str1 x) = "&lt;"
     ∨ html_escape (str1 x) = "&gt;" ∨ html_escape (str1 x) = "&quot;"
     ∨ html_escape (str1 x) = "&#x27;")
  ∧ (html_escape (str1 x) = str1 x ∨ inert x = false).
Proof.
  destruct (ch_eqb c_amp x) eqn:E1; [apply ch_eqb_eq in E1 as <-; vm_compute; intuition congruence|].
  destruct (ch_eqb c_lt x) eqn:E2; [apply ch_eqb_eq in E2 as <-; vm_compute; intuition congruence|].
  destruct (ch_eqb c_gt x) eqn:E3; [apply ch_eqb_eq in E3 as <-; vm_compute; intuition congruence|].
  destruct (ch_eqb c_dquote x) eqn:E4; [apply ch_eqb_eq in E4 as <-; vm_compute; intuition congruence|].
  destruct (ch_eqb c_squote x) eqn:E5; [apply ch_eqb_eq in E5 as <-; vm_compute; intuition congruence|].
  assert (html_escape (str1 x) = str1 x) as H.
  { unfold html_escape, dq, sq.
    change "&" with (str1 c_amp). change "<" with (str1 c_lt).
    change ">" with (str1 c_gt).
    by rewrite !replace_char_single. }
  auto.
Qed.

Lemma html_escape_char_cases (x : ascii) :
  html_escape (str1 x) = str1 x
  ∨ (inert x = false ∧ html_escape (str1 x) ∈ entities).
Proof.
  destruct (html_escape_char x) as (_ & Hcases & Hinert).
  destruct Hinert as [H|H]; [by left|].
  destruct Hcases as [H'|H']; [by left|]. right. split; [done|].
  unfold entities. rewrite !elem_of_cons. tauto.
Qed.

Lemma has_char_app (c : ascii) (a b : string) :
  has_char c (a +:+ b) = has_char c a || has_char c b.
Proof.
  induction a as [|x a IH]; [done|].
  rewrite app_cons_s. cbn [has_char]. by rewrite IH, orb_assoc.
Qed.

Lemma is_empty_app (a b : string) : is_empty (a +:+ b) = is_empty a && is_empty b.
Proof. by destruct a. Qed.

Lemma head_is_app (p : ascii → bool) (a b : string) :
  head_is p (a +:+ b) = if is_empty a then head_is p b else head_is p a.
Proof. by destruct a. Qed.

Lemma last_is_app (p : ascii → bool) (a b : string) :
  last_is p (a +:+ b) = if is_empty b then last_is p a else last_is p b.
Proof.
  induction a as [|x a IH].
  - rewrite app_nil_l_s. by destruct b.
  - rewrite app_cons_s. cbn [last_is]. rewrite IH.
    destruct (a +:+ b) eqn:E.
    + destruct a; [|done]. rewrite app_nil_l_s in E. by subst.
    + destruct a; [|done]. rewrite app_nil_l_s in E. subst. done.
Qed.

(** An inert character is in no entity. *)
Lemma inert_not_in_entity (c : ascii) (e : string) :
  inert c = true → e ∈ entities → has_char c e = false.
Proof.
  unfold inert, entities, dq, sq, str1. intros H He.
  apply negb_true_iff in H. cbn [String.append has_char] in H.
  repeat (apply orb_false_iff in H as [? H]).
  rewrite !elem_of_cons in He.
  destruct He as [->|[->|[->|[->|[->|He]]]]];
    [..|by apply elem_of_nil in He];
    cbn [has_char];
    repeat match goal with E : ch_eqb _ c = false |- _ => rewrite E; clear E end;
    reflexivity.
Qed.

Lemma has_char_escape (c : ascii) (s : string) :
  inert c = true → has_char c (html_escape s) = has_char c s.
Proof.
  intros Hc. induction s as [|x s IH]; [done|].
  rewrite html_escape_cons, has_char_app, IH. cbn [has_char]. f_equal.
  destruct (html_escape_char_cases x) as [->|[Hx He]].
  - cbn [str1 has_char]. apply orb_false_r.
  - rewrite (inert_not_in_entity c _ Hc He). symmetry.
    apply ch_eqb_neq. intros ->. congruence.
Qed.

Lemma is_empty_escape (s : string) : is_empty (html_escape s) = is_empty s.
Proof.
  destruct s as [|x s]; [done|]. rewrite html_escape_cons, is_empty_app.
  destruct (html_escape_char_cases x) as [->|[_ He]]; [done|].
  unfold entities in He. rewrite !elem_of_cons in He.
  destruct He as [->|[->|[->|[->|[->|He]]]]]; [done..|by apply elem_of_nil in He].
Qed.

Lemma entity_facts (e : string) :
  e ∈ entities →
  is_empty e = false ∧ no_ddash e = true
  ∧ head_is (ch_eqb c_dash) e = false ∧ last_is (ch_eqb c_dash) e = false.
Proof.
  unfold entities. rewrite !elem_of_cons.
  intros [->|[->|[->|[->|[->|He]]]]]; [done..|by apply elem_of_nil in He].
Qed.

Lemma head_dash_escape (s : string) :
  head_is (ch_eqb c_dash) (html_escape s) = head_is (ch_eqb c_dash) s.
Proof.
  destruct s as [|x s]; [done|]. rewrite html_escape_cons, head_is_app.
  destruct (html_escape_char_cases x) as [->|[Hx He]]; [done|].
  destruct (entity_facts _ He) as (-> & _ & -> & _).
  cbn [head_is]. symmetry. apply ch_eqb_neq. intros <-. done.
Qed.

Lemma no_ddash_app (a b : string) :
  no_ddash a = true → no_ddash b = true →
  last_is (ch_eqb c_dash) a = false ∨ head_is (ch_eqb c_dash) b = false →
  no_ddash (a +:+ b) = true.
Proof.
  induction a as [|x a IH]; intros Ha Hb Hj; [done|].
  rewrite app_cons_s. cbn [no_ddash] in *.
  apply andb_true_iff in Ha as [Hx Ha].
  rewrite head_is_app. apply andb_true_iff. split.
  - destruct a as [|y a]; [|done]. cbn [is_empty].
    destruct Hj as [Hj| ->]; [|by rewrite andb_false_r].
    cbn [last_is] in Hj. by rewrite Hj.
  - apply IH; [done..|]. destruct Hj as [Hj|Hj]; [|by right].
    destruct a; [by left|]. by left.
Qed.

Lemma no_ddash_escape (s : string) :
  no_ddash s = true → no_ddash (html_escape s) = true.
Proof.
  induction s as [|x s IH]; [done|]. intros H. cbn [no_ddash] in H.
  apply andb_true_iff in H as [Hx Hs].
  rewrite html_escape_cons.
  destruct (html_escape_char_cases x) as [->|[_ He]].
  - unfold str1. rewrite app_cons_s, app_nil_l_s. cbn [no_ddash].
    by rewrite head_dash_escape, Hx, IH.
  - destruct (entity_facts _ He) as (_ & Hd & _ & Hl).
    apply no_ddash_app; auto.
Qed.


(** ** Substitution passes *)

Lemma sub_from_skip (re : regex) (repl : list string → string) (m b : string) :
  sub_from re repl (String.length m) (m +:+ b) = sub_from re repl 0 b.
Proof.
  induction m as [|x m IH]; [by destruct b|].
  rewrite app_cons_s. exact IH.
Qed.

(** A pattern that begins with a literal character matches only where that
    character stands: text without it is copied. *)
Lemma re_sub_no_trigger (m : ascii) (l : string) (its : regex)
    (repl : list string → string) (x y : string) :
  has_char m x = false →
  re_sub (Lit (String m l) :: its) repl (x +:+ y)
  = x +:+ re_sub (Lit (String m l) :: its) repl y.
Proof.
  unfold re_sub. induction x as [|c x IH]; intros H; [done|].
  cbn [has_char] in H. apply orb_false_iff in H as [Hc Hx].
  rewrite !app_cons_s. cbn [sub_from re_match match_items strip_prefix].
  rewrite ch_eqb_sym, Hc. by rewrite IH.
Qed.

(** At a match the replacement is written and the scan goes on after it. *)
Lemma re_sub_at_match (re : regex) (repl : list string → string)
    (m rest : string) (gs : list string) :
  is_empty m = false →
  re_match re (m +:+ rest) = Some (gs, rest) →
  re_sub re repl (m +:+ rest) = repl gs +:+ re_sub re repl rest.
Proof.
  unfold re_sub. destruct m as [|c m]; [done|]. intros _ H.
  rewrite app_cons_s in *. cbn [sub_from]. rewrite H.
  rewrite app_length_s.
  replace (String.length m + String.length rest - String.length rest)
    with (String.length m) by lia.
  by rewrite sub_from_skip.
Qed.

Lemma extend_nil (cur : option string) : extend cur EmptyString = cur.
Proof. destruct cur; [|done]. cbn. by rewrite app_nil_r_s. Qed.

Lemma extend_extend (cur : option string) (a b : string) :
  extend (extend cur a) b = extend cur (a +:+ b).
Proof. destruct cur; [|done]. cbn. by rewrite app_assoc_s. Qed.

(** A greedy repetition takes the whole run when the rest of the pattern
    then succeeds. *)
Lemma greedy_run (p : ascii → bool) (k : mcont) (cur : option string)
    (gs : list string) (run rest : string) (r : mresult) :
  all_chars p run = true → head_is p rest = false →
  k (extend cur run) gs rest = Some r →
  greedy p k cur gs (run +:+ rest) = Some r.
Proof.
  revert cur. induction run as [|x run IH]; intros cur Hrun Hrest Hk.
  - rewrite app_nil_l_s. rewrite extend_nil in Hk.
    destruct rest as [|c rest]; [done|].
    cbn [greedy]. cbn [head_is] in Hrest. by rewrite Hrest.
  - cbn [all_chars] in Hrun. apply andb_true_iff in Hrun as [Hx Hrun].
    rewrite app_cons_s. cbn [greedy]. rewrite Hx.
    rewrite (IH (extend cur (str1 x))); [done..|].
    by rewrite extend_extend.
Qed.

Lemma plus_run (p : ascii → bool) (its : regex) (cur : option string)
    (gs : list string) (run rest : string) (r : mresult) :
  is_empty run = false → all_chars p run = true → head_is p rest = false →
  match_items its (extend cur run) gs rest = Some r →
  match_items (Plus p :: its) cur gs (run +:+ rest) = Some r.
Proof.
  destruct run as [|x run]; [done|]. intros _ Hrun Hrest Hk.
  cbn [all_chars] in Hrun. apply andb_true_iff in Hrun as [Hx Hrun].
  rewrite app_cons_s. cbn [match_items]. rewrite Hx.
  apply greedy_run; [done..|]. by rewrite extend_extend.
Qed.

Lemma all_not_char (c : ascii) (s : string) :
  has_char c s = false → all_chars (not_char c) s = true.
Proof.
  induction s as [|x s IH]; [done|]. cbn [has_char all_chars].
  intros [Hx Hs]%orb_false_iff. unfold not_char at 1, ch_neqb.
  by rewrite Hx, IH.
Qed.

Lemma match_items_lit (l : string) (its : regex) (cur : option string)
    (gs : list string) (s : string) :
  match_items (Lit l :: its) cur gs (l +:+ s) = match_items its (extend cur l) gs s.
Proof. cbn [match_items]. by rewrite strip_prefix_app. Qed.

Lemma match_items_open (its : regex) (cur : option string) (gs : list string)
    (s : string) :
  match_items (GOpen :: its) cur gs s = match_items its (Some EmptyString) gs s.
Proof. reflexivity. Qed.

Lemma match_items_close (its : regex) (cur : option string) (gs : list string)
    (s : string) :
  match_items (GClose :: its) cur gs s
  = match_items its None (gs ++ [default EmptyString cur]) s.
Proof. reflexivity. Qed.


Lemma startswith_dash (s : string) : startswith "-" s = head_is (ch_eqb c_dash) s.
Proof. destruct s; [done|]. cbn. apply andb_true_r. Qed.

(** Text without a double dash is copied by the last replacement. *)
Lemma replace_ddash_prefix (new x y : string) :
  no_ddash x = true →
  last_is (ch_eqb c_dash) x = false ∨ head_is (ch_eqb c_dash) y = false →
  str_replace "--" new (x +:+ y) = x +:+ str_replace "--" new y.
Proof.
  unfold str_replace. induction x as [|c x IH]; intros Hx Hj; [done|].
  cbn [no_ddash] in Hx. apply andb_true_iff in Hx as [Hc Hx].
  rewrite !app_cons_s. cbn [replace_from startswith].
  fold (startswith "-" (x +:+ y)). rewrite startswith_dash, head_is_app.
  assert (ch_eqb "-" c && (if is_empty x then head_is (ch_eqb c_dash) y
                           else head_is (ch_eqb c_dash) x) = false) as ->.
  { destruct x as [|d x]; cbn [is_empty].
    - destruct Hj as [Hj| ->]; [|by rewrite andb_false_r].
      cbn [last_is] in Hj. unfold c_dash in Hj. by rewrite Hj.
    - by apply negb_true_iff in Hc. }
  rewrite IH; [done..|].
  destruct Hj as [Hj|Hj]; [|by right]. destruct x; [by left|by left].
Qed.

(** ** The address of a link in plain surroundings *)




Lemma re_sub_bold_under_quiet (x y : string) :
  has_char c_under x = false →
  re_sub re_bold_under (wrap_tag "strong") (x +:+ y)
  = x +:+ re_sub re_bold_under (wrap_tag "strong") y.
Proof. apply re_sub_no_trigger. Qed.


Lemma re_sub_em_under_quiet (x y : string) :
  has_char c_under x = false →
  re_sub re_em_under (wrap_tag "em") (x +:+ y)
  = x +:+ re_sub re_em_under (wrap_tag "em") y.
Proof. apply re_sub_no_trigger. Qed.



Lemma no_markup_inv (s : string) :
  no_markup s = true →
  has_char c_tick s = false ∧ has_char c_star s = false
  ∧ has_char c_under s = false ∧ no_ddash s = true.
Proof.
  unfold no_markup. intros H.
  repeat (apply andb_true_iff in H as [H ?]).
  repeat split; try done; by apply negb_true_iff.
Qed.



(** ** No script tag comes out of the text branches *)

Lemma startswith_app_l (p a b : string) :
  startswith p a = true → startswith p (a +:+ b) = true.
Proof.
  revert a. induction p as [|x p IH]; intros a H; [done|].
  destruct a as [|y a]; [done|]. rewrite app_cons_s. cbn [startswith] in *.
  apply andb_true_iff in H as [-> H]. by rewrite IH.
Qed.

Lemma no_script_suffix (a b : string) : no_script (a +:+ b) = true → no_script b = true.
Proof.
  induction a as [|x a IH]; [done|]. rewrite app_cons_s. cbn [no_script].
  intros [_ H]%andb_true_iff. by apply IH.
Qed.

Lemma no_script_prefix (a b : string) : no_script (a +:+ b) = true → no_script a = true.
Proof.
  induction a as [|x a IH]; [done|]. rewrite app_cons_s. cbn [no_script].
  intros [Hx H]%andb_true_iff. rewrite (IH H), andb_true_r.
  destruct (ch_eqb c_lt x); [|done]. cbn [andb negb] in *.
  destruct (startswith "sc" a) eqn:E; [|done].
  by rewrite (startswith_app_l _ _ b E) in Hx.
Qed.

Lemma no_script_app_last (a b : string) :
  no_script a = true → no_script b = true →
  last_is (in_chars "<s") a = false → no_script (a +:+ b) = true.
Proof.
  induction a as [|x a IH]; intros Ha Hb Hl; [done|].
  rewrite app_cons_s. cbn [no_script] in *.
  apply andb_true_iff in Ha as [Hx Ha].
  assert (last_is (in_chars "<s") a = false ∨ a = EmptyString) as Hl'.
  { destruct a; [by right|by left]. }
  apply andb_true_iff. split.
  - destruct (ch_eqb c_lt x) eqn:Ex; [|done]. cbn [andb negb] in *.
    apply ch_eqb_eq in Ex as <-.
    destruct a as [|y a]; [done|].
    destruct a as [|z a].
    + rewrite app_cons_s, app_nil_l_s. cbn [startswith].
      cbn [last_is in_chars has_char] in Hl.
      apply orb_false_iff in Hl as [_ Hl]. apply orb_false_iff in Hl as [Hl _].
      by rewrite Hl.
    + exact Hx.
  - destruct Hl' as [Hl'| ->]; [by apply IH|done].
Qed.

Lemma no_script_app_head (a b : string) :
  no_script a = true → no_script b = true →
  head_is (in_chars "sc") b = false → no_script (a +:+ b) = true.
Proof.
  intros Ha Hb Hh. induction a as [|x a IH]; [done|].
  rewrite app_cons_s. cbn [no_script] in *.
  apply andb_true_iff in Ha as [Hx Ha]. rewrite (IH Ha), andb_true_r.
  destruct (ch_eqb c_lt x) eqn:Ex; [|done]. cbn [andb negb] in *.
  destruct a as [|y a].
  - rewrite app_nil_l_s. destruct b as [|z b]; [done|].
    cbn [head_is in_chars has_char] in Hh. cbn [startswith].
    apply orb_false_iff in Hh as [Hh _]. by rewrite Hh.
  - destruct a as [|z a]; [|exact Hx].
    rewrite app_cons_s, app_nil_l_s. cbn [startswith] in *.
    destruct (ch_eqb "s" y); [|done]. cbn [andb].
    destruct b as [|w b]; [done|].
    cbn [head_is in_chars has_char] in Hh.
    apply orb_false_iff in Hh as [_ Hh]. apply orb_false_iff in Hh as [Hh _].
    by rewrite Hh.
Qed.

Lemma no_script_no_lt (s : string) : has_char c_lt s = false → no_script s = true.
Proof.
  induction s as [|x s IH]; [done|]. cbn [has_char no_script].
  intros [Hx Hs]%orb_false_iff. rewrite ch_eqb_sym, Hx. by rewrite IH.
Qed.

Lemma extend_no_script (cur : option string) (t s : string) :
  no_script (default EmptyString cur +:+ (t +:+ s)) = true →
  no_script (default EmptyString (extend cur t) +:+ s) = true.
Proof.
  destruct cur as [a|]; unfold extend; cbn.
  - by rewrite app_assoc_s.
  - rewrite !app_nil_l_s. apply no_script_suffix.
Qed.

(** The groups of a match are pieces of the subject. *)
Lemma greedy_groups (p : ascii → bool) (k : mcont) :
  (∀ cur gs s gs' rest,
     k cur gs s = Some (gs', rest) →
     no_script (default EmptyString cur +:+ s) = true →
     Forall (λ g, no_script g = true) gs →
     Forall (λ g, no_script g = true) gs') →
  ∀ s cur gs gs' rest,
    greedy p k cur gs s = Some (gs', rest) →
    no_script (default EmptyString cur +:+ s) = true →
    Forall (λ g, no_script g = true) gs →
    Forall (λ g, no_script g = true) gs'.
Proof.
  intros Hk. induction s as [|c s IH]; intros cur gs gs' rest H HJ Hgs.
  - cbn [greedy] in H. by eapply Hk.
  - cbn [greedy] in H. destruct (p c); [|by eapply Hk].
    destruct (greedy p k (extend cur (str1 c)) gs s) as [r|] eqn:E.
    + inversion H; subst. eapply IH; [exact E| |done].
      by apply extend_no_script.
    + by eapply Hk.
Qed.

Lemma match_items_groups (its : regex) :
  ∀ cur gs s gs' rest,
    match_items its cur gs s = Some (gs', rest) →
    no_script (default EmptyString cur +:+ s) = true →
    Forall (λ g, no_script g = true) gs →
    Forall (λ g, no_script g = true) gs'.
Proof.
  induction its as [|it its IH]; intros cur gs s gs' rest H HJ Hgs.
  - cbn in H. by inversion H; subst.
  - assert (∀ c s', no_script (default EmptyString cur +:+ String c s') = true →
            no_script (default EmptyString (extend cur (str1 c)) +:+ s') = true)
      as Hstep.
    { intros c s' HJ'. by apply extend_no_script. }
    destruct it as [l|p|p|p| |]; cbn [match_items] in H.
    + destruct (strip_prefix l s) as [s'|] eqn:E; [|done].
      apply strip_prefix_Some in E as ->.
      eapply IH; [exact H| |done]. by apply extend_no_script.
    + destruct s as [|c s]; [done|]. destruct (p c); [|done].
      eapply IH; [exact H|by apply Hstep|done].
    + eapply (greedy_groups p (match_items its)); [exact IH|exact H|done|done].
    + destruct s as [|c s]; [done|]. destruct (p c); [|done].
      eapply (greedy_groups p (match_items its)); [exact IH|exact H| |done].
      by apply Hstep.
    + eapply IH; [exact H| |done]. cbn [default]. rewrite app_nil_l_s.
      by eapply no_script_suffix.
    + eapply IH; [exact H| |].
      * cbn [default]. rewrite app_nil_l_s. by eapply no_script_suffix.
      * apply Forall_app. split; [done|]. constructor; [|done].
        by eapply no_script_prefix.
Qed.

Lemma re_match_groups (re : regex) (s : string) (gs : list string) (rest : string) :
  re_match re s = Some (gs, rest) → no_script s = true →
  Forall (λ g, no_script g = true) gs.
Proof.
  intros H HJ. eapply (match_items_groups re None [] s); [exact H|done|done].
Qed.

(** A substitution whose replacements are elements, opening with an angle
    and closing with one, makes no script tag. *)
Section Substitution.
Variable re : regex.
Variable repl : list string → string.
Hypothesis repl_head : ∀ gs, head_is (ch_eqb c_lt) (repl gs) = true.
Hypothesis repl_last : ∀ gs, last_is (in_chars "<s") (repl gs) = false.
Hypothesis repl_ok :
  ∀ gs, Forall (λ g, no_script g = true) gs → no_script (repl gs) = true.

Lemma repl_not_letter (gs : list string) (x : ascii) (s : string) :
  ch_eqb c_lt x = false → startswith (String x EmptyString) (repl gs +:+ s) = false.
Proof.
  intros Hx. pose proof (repl_head gs) as H.
  destruct (repl gs) as [|c r]; [done|]. cbn [head_is] in H.
  apply ch_eqb_eq in H as <-. rewrite app_cons_s. cbn [startswith].
  by rewrite ch_eqb_sym, Hx.
Qed.

Lemma sub_from_c (s : string) :
  startswith "c" (sub_from re repl 0 s) = true → startswith "c" s = true.
Proof.
  destruct s as [|x s]; [done|]. cbn [sub_from].
  destruct (re_match re (String x s)) as [[gs rest]|]; [|done].
  by rewrite repl_not_letter.
Qed.

Lemma sub_from_sc (s : string) :
  startswith "sc" (sub_from re repl 0 s) = true → startswith "sc" s = true.
Proof.
  destruct s as [|x s]; [done|]. cbn [sub_from].
  destruct (re_match re (String x s)) as [[gs rest]|].
  - change "sc" with ("s" +:+ "c").
    intros H. exfalso.
    pose proof (repl_head gs) as Hh.
    destruct (repl gs) as [|c r]; [done|]. cbn [head_is] in Hh.
    apply ch_eqb_eq in Hh as <-. by rewrite app_cons_s in H.
  - cbn [startswith]. intros [-> H]%andb_true_iff. cbn [andb].
    by apply sub_from_c.
Qed.

Lemma sub_from_no_script (s : string) :
  ∀ skip, no_script s = true → no_script (sub_from re repl skip s) = true.
Proof.
  induction s as [|x s IH]; intros skip HJ; [done|].
  cbn [no_script] in HJ. apply andb_true_iff in HJ as [Hx HJ'].
  cbn [sub_from]. destruct skip as [|k]; [|by apply IH].
  destruct (re_match re (String x s)) as [[gs rest]|] eqn:E.
  - apply no_script_app_last; [|by apply IH|apply repl_last].
    apply repl_ok. eapply re_match_groups; [exact E|].
    cbn [no_script]. by rewrite Hx, HJ'.
  - cbn [no_script]. rewrite (IH 0 HJ'), andb_true_r.
    destruct (ch_eqb c_lt x); [|done]. cbn [andb negb] in *.
    destruct (startswith "sc" (sub_from re repl 0 s)) eqn:F; [|done].
    by rewrite (sub_from_sc s F) in Hx.
Qed.
End Substitution.

(** The last character of a text that ends with a literal. *)
Ltac solve_last :=
  rewrite !last_is_app, !is_empty_app; cbn [is_empty dq str1 andb];
  rewrite ?andb_false_r; reflexivity.

(** The replacements of [process_inline]. *)
Lemma grp_no_script (n : nat) (gs : list string) :
  Forall (λ g, no_script g = true) gs → no_script (grp n gs) = true.
Proof.
  intros H. unfold grp. destruct (gs !! (n - 1)) as [g|] eqn:E; [|done].
  cbn [default]. rewrite Forall_forall in H. apply H.
  by eapply list_elem_of_lookup_2.
Qed.

(** An element around clean text is clean. *)
Lemma element_no_script (a m b : string) :
  no_script a = true → last_is (in_chars "<s") a = false →
  no_script b = true → head_is (in_chars "sc") b = false →
  no_script m = true → no_script (a +:+ m +:+ b) = true.
Proof.
  intros Ha Hl Hb Hh Hm.
  apply no_script_app_last; [done| |done].
  by apply no_script_app_head.
Qed.

Lemma wrap_tag_facts (tag : string) (gs : list string) :
  tag ∈ ["code"; "strong"; "em"] →
  head_is (ch_eqb c_lt) (wrap_tag tag gs) = true
  ∧ last_is (in_chars "<s") (wrap_tag tag gs) = false
  ∧ (Forall (λ g, no_script g = true) gs → no_script (wrap_tag tag gs) = true).
Proof.
  rewrite !elem_of_cons.
  intros [->|[->|[->|H]]]; [..|by apply elem_of_nil in H]; unfold wrap_tag.
  - change ("<" +:+ "code" +:+ ">" +:+ grp 1 gs +:+ "</" +:+ "code" +:+ ">")
      with ("<code>" +:+ grp 1 gs +:+ "</code>").
    split; [done|]. split; [solve_last|].
    intros H. apply element_no_script; try done. by apply grp_no_script.
  - change ("<" +:+ "strong" +:+ ">" +:+ grp 1 gs +:+ "</" +:+ "strong" +:+ ">")
      with ("<strong>" +:+ grp 1 gs +:+ "</strong>").
    split; [done|]. split; [solve_last|].
    intros H. apply element_no_script; try done. by apply grp_no_script.
  - change ("<" +:+ "em" +:+ ">" +:+ grp 1 gs +:+ "</" +:+ "em" +:+ ">")
      with ("<em>" +:+ grp 1 gs +:+ "</em>").
    split; [done|]. split; [solve_last|].
    intros H. apply element_no_script; try done. by apply grp_no_script.
Qed.

Lemma link_repl_facts (gs : list string) :
  head_is (ch_eqb c_lt) (link_repl gs) = true
  ∧ last_is (in_chars "<s") (link_repl gs) = false
  ∧ (Forall (λ g, no_script g = true) gs → no_script (link_repl gs) = true).
Proof.
  unfold link_repl. split; [done|]. split; [solve_last|].
  intros H.
  change ("<a href=" +:+ dq +:+ grp 2 gs +:+ dq +:+ ">" +:+ grp 1 gs +:+ "</a>")
    with (("<a href=" +:+ dq) +:+ grp 2 gs +:+ (dq +:+ ">") +:+ grp 1 gs +:+ "</a>").
  apply element_no_script; try done; [|by apply grp_no_script].
  apply element_no_script; try done; by apply grp_no_script.
Qed.

Lemma re_sub_wrap_no_script (re : regex) (tag s : string) :
  tag ∈ ["code"; "strong"; "em"] →
  no_script s = true → no_script (re_sub re (wrap_tag tag) s) = true.
Proof.
  intros Htag H. unfold re_sub. apply sub_from_no_script; [..|done].
  - intros gs. by apply wrap_tag_facts.
  - intros gs. by apply wrap_tag_facts.
  - intros gs. by apply wrap_tag_facts.
Qed.

Lemma re_sub_link_no_script (re : regex) (s : string) :
  no_script s = true → no_script (re_sub re link_repl s) = true.
Proof.
  intros H. unfold re_sub. apply sub_from_no_script; [..|done].
  - intros gs. apply link_repl_facts.
  - intros gs. apply link_repl_facts.
  - intros gs. apply link_repl_facts.
Qed.

(** The dash entity. *)
Lemma mdash_c (s : string) :
  startswith "c" (replace_from "--" "&mdash;" 0 s) = true → startswith "c" s = true.
Proof.
  destruct s as [|x s]; [done|]. cbn [replace_from].
  by destruct (startswith "--" (String x s)).
Qed.

Lemma mdash_sc (s : string) :
  startswith "sc" (replace_from "--" "&mdash;" 0 s) = true → startswith "sc" s = true.
Proof.
  destruct s as [|x s]; [done|]. cbn [replace_from].
  destruct (startswith "--" (String x s)); [done|].
  cbn [startswith]. intros [-> H]%andb_true_iff. cbn [andb].
  by apply mdash_c.
Qed.

Lemma mdash_no_script (s : string) :
  ∀ skip, no_script s = true →
          no_script (replace_from "--" "&mdash;" skip s) = true.
Proof.
  induction s as [|x s IH]; intros skip HJ; [done|].
  cbn [no_script] in HJ. apply andb_true_iff in HJ as [Hx HJ'].
  cbn [replace_from]. destruct skip as [|k]; [|by apply IH].
  destruct (startswith "--" (String x s)).
  - apply no_script_app_last; [done|by apply IH|done].
  - cbn [no_script]. rewrite (IH 0 HJ'), andb_true_r.
    destruct (ch_eqb c_lt x); [|done]. cbn [andb negb] in *.
    destruct (startswith "sc" (replace_from "--" "&mdash;" 0 s)) eqn:F; [|done].
    by rewrite (mdash_sc s F) in Hx.
Qed.

Lemma html_escape_no_lt (s : string) : has_char c_lt (html_escape s) = false.
Proof.
  induction s as [|x s IH]; [done|].
  rewrite html_escape_cons, has_char_app, IH, orb_false_r.
  destruct (html_escape_char_cases x) as [E|[_ He]].
  - rewrite E. cbn [str1 has_char]. rewrite orb_false_r.
    apply ch_eqb_neq. intros ->. by vm_compute in E.
  - unfold entities in He. rewrite !elem_of_cons in He.
    destruct He as [->|[->|[->|[->|[->|He]]]]]; [done..|by apply elem_of_nil in He].
Qed.

Lemma html_escape_no_script (s : string) : no_script (html_escape s) = true.
Proof. apply no_script_no_lt, html_escape_no_lt. Qed.

(** Whatever the text, [process_inline] writes no [<sc]. *)
Lemma process_inline_no_script (text : string) :
  no_script (process_inline text) = true.
Proof.
  unfold process_inline, str_replace.
  apply mdash_no_script, re_sub_link_no_script.
  do 2 (apply re_sub_wrap_no_script; [set_solver|]).
  do 2 (apply re_sub_wrap_no_script; [set_solver|]).
  apply re_sub_wrap_no_script; [set_solver|].
  apply html_escape_no_script.
Qed.

Lemma no_script_contains (s : string) :
  no_script s = true → contains "<script>" s = false.
Proof.
  intros H. unfold contains. apply bool_decide_eq_false. intros [r Hr].
  revert r Hr. induction s as [|x s IH]; intros r Hr; [done|].
  cbn [find_sub] in Hr.
  destruct (strip_prefix "<script>" (String x s)) as [t|] eqn:E.
  - apply strip_prefix_Some in E. rewrite E in H. by vm_compute in H.
  - cbn [no_script] in H. apply andb_true_iff in H as [_ H].
    destruct (find_sub "<script>" s) as [[a b]|]; [|done].
    by eapply IH.
Qed.

(** ** The blocks of markdown_to_html outside the image branch *)

Lemma emit_lines_ok (x : string) (st : conv_state) :
  no_script x = true → lines_ok st → lines_ok (emit x st).
Proof.
  unfold lines_ok, emit. cbn [html_lines]. intros Hx Hst.
  apply Forall_app. split; [done|]. by constructor.
Qed.

Lemma inline_element_no_script (a text b : string) :
  no_script a = true → last_is (in_chars "<s") a = false →
  no_script b = true → head_is (in_chars "sc") b = false →
  no_script (a +:+ process_inline text +:+ b) = true.
Proof.
  intros. apply element_no_script; try done. apply process_inline_no_script.
Qed.

Lemma block_step_lines_ok (line : string) (rest : list string) (st : conv_state) :
  re_match re_image_test line = None →
  lines_ok st → lines_ok (fst (block_step line rest st)).
Proof.
  intros Himg Hst. unfold block_step. rewrite Himg.
  change (bool_decide (is_Some (@None mresult))) with false.
  assert (lines_ok (close_list line st)) as Hcl.
  { unfold close_list. destruct (in_list st && negb (is_bullet line)); [|done].
    unfold set_in_list, lines_ok. cbn [html_lines]. by apply emit_lines_ok. }
  destruct (is_fence line).
  { cbn [fst]. destruct (in_code st); [|done].
    unfold close_code, lines_ok. cbn [html_lines].
    apply Forall_app. split; [done|]. constructor; [|done].
    apply element_no_script; try done. apply html_escape_no_script. }
  destruct (in_code st); [done|].
  cbv zeta. revert Hcl. generalize (close_list line st). clear st Hst.
  intros st Hst.
  repeat match goal with
  | |- context [if ?b then _ else _] => destruct b; cbn [fst]
  end; try done;
  try (apply emit_lines_ok; [|done]);
  try (by apply inline_element_no_script); try done.
  unfold emit_item. apply emit_lines_ok; [by apply inline_element_no_script|].
  destruct (in_list st); [done|].
  unfold set_in_list, lines_ok. cbn [html_lines]. by apply emit_lines_ok.
Qed.

Lemma drop_run_Forall {P : string → Prop} (p : string → bool) (l : list string) :
  Forall P l → Forall P (drop_run p l).
Proof.
  induction 1 as [|x l Hx Hl IH]; [done|]. cbn [drop_run].
  destruct (p x); [done|]. by constructor.
Qed.

Lemma block_step_rest_Forall {P : string → Prop} (line : string)
    (rest : list string) (st : conv_state) :
  Forall P rest → Forall P (snd (block_step line rest st)).
Proof.
  intros H. unfold block_step.
  repeat match goal with
  | |- context [if ?b then _ else _] => destruct b; cbn [snd]
  end; try done.
  by apply drop_run_Forall.
Qed.

Lemma convert_lines_lines_ok (lines : list string) (st : conv_state) :
  Forall (λ line, re_match re_image_test line = None) lines →
  lines_ok st → lines_ok (convert_lines lines st).
Proof.
  remember (length lines) as n eqn:Hn.
  assert (length lines ≤ n) as Hle by lia. clear Hn.
  revert lines st Hle. induction n as [|n IH]; intros lines st Hle Hlines Hst.
  - destruct lines; [done|simpl in Hle; lia].
  - destruct lines as [|line rest]; [done|]. simpl in Hle.
    apply Forall_cons in Hlines as [Hline Hrest].
    rewrite convert_lines_step. apply IH.
    + pose proof (block_step_length line rest st). lia.
    + by apply block_step_rest_Forall.
    + by apply block_step_lines_ok.
Qed.

Lemma join_sep_no_script (l : list string) :
  Forall (λ x, no_script x = true) l → no_script (join html_sep l) = true.
Proof.
  induction 1 as [|x l Hx Hl IH]; [done|].
  destruct l as [|y l]; [done|].
  change (join html_sep (x :: y :: l))
    with (x +:+ html_sep +:+ join html_sep (y :: l)).
  apply no_script_app_head; [done| |done].
  by apply no_script_app_last.
Qed.

(** X1 (the part of C1 that holds).  Where no line has the shape of an
    image, the script tags of the body do not reach the output: the
    converter writes no [<script>]. *)
Theorem text_branches_no_script (md : string) :
  Forall (λ line, re_match re_image_test line = None) (split_char c_nl md) →
  contains "<script>" (markdown_to_html md) = false.
Proof.
  intros H. apply no_script_contains. unfold markdown_to_html.
  apply join_sep_no_script.
  pose proof (convert_lines_lines_ok _ conv_init H) as Hok.
  unfold finish. destruct (in_list _).
  - apply Forall_app. split; [by apply Hok; constructor|]. by constructor.
  - by apply Hok; constructor.
Qed.

Lemma text_branches_no_script_witness :
  Forall (λ line, re_match re_image_test line = None) (split_char c_nl script_md)
  ∧ contains "<script>" script_md = true
  ∧ contains "<script>" (markdown_to_html script_md) = false.
Proof.
  assert (Forall (λ line, re_match re_image_test line = None)
            (split_char c_nl script_md)) as H by (repeat constructor).
  split; [exact H|]. split; [reflexivity|].
  exact (text_branches_no_script script_md H).
Defined.

(** X2.  The inline formatter alone: for every text, no [<script>] in what
    it returns. *)
Theorem process_inline_never_script (text : string) :
  contains "<script>" (process_inline text) = false.
Proof. apply no_script_contains, process_inline_no_script. Qed.

(** * Further properties of the program *)

(** ** parse_frontmatter: a document with a header *)

Lemma find_sub_here (sep b : string) :
  find_sub sep (sep +:+ b) = Some (EmptyString, b).
Proof.
  assert (∀ s, find_sub sep s
               = match strip_prefix sep s with
                 | Some rest => Some (EmptyString, rest)
                 | None =>
                     match s with
                     | EmptyString => None
                     | String c s' =>
                         match find_sub sep s' with
                         | Some (a, b) => Some (String c a, b)
                         | None => None
                         end
                     end
                 end) as E by (by intros []).
  by rewrite E, strip_prefix_app.
Qed.

Lemma find_sub_cons (sep : string) (c : ascii) (s : string) :
  find_sub sep (String c s)
  = match strip_prefix sep (String c s) with
    | Some rest => Some (EmptyString, rest)
    | None =>
        match find_sub sep s with
        | Some (a, b) => Some (String c a, b)
        | None => None
        end
    end.
Proof. reflexivity. Qed.

Lemma find_sub_marker (h b : string) :
  contains "---" (h +:+ "--") = false →
  find_sub "---" (h +:+ "---" +:+ b) = Some (h, b).
Proof.
  unfold contains. intros H. apply bool_decide_eq_false in H.
  induction h as [|x h IH].
  - rewrite app_nil_l_s. apply find_sub_here.
  - rewrite app_cons_s in H. rewrite app_cons_s.
    rewrite find_sub_cons in H. rewrite find_sub_cons.
    destruct (strip_prefix "---" (String x (h +:+ "--"))) as [r|] eqn:E.
    { exfalso. apply H. eauto. }
    assert (strip_prefix "---" (String x (h +:+ "---" +:+ b)) = None) as ->.
    { apply strip_prefix_None. apply strip_prefix_None in E.
      destruct h as [|y h]; [exact E|].
      destruct h as [|z h]; [exact E|exact E]. }
    rewrite IH; [done|].
    intros [r Hr]. apply H.
    destruct (find_sub "---" (h +:+ "--")) as [[a c]|]; [eauto|done].
Qed.

(** X3.  A document that opens with the marker, whose header holds no
    further marker: the header lines give the metadata and everything after
    the second marker, trimmed, is the body.  Markers in the body (the
    rules of markdown) stay in the body. *)
Theorem parse_frontmatter_header (h b : string) :
  contains "---" (h +:+ "--") = false →
  parse_frontmatter ("---" +:+ h +:+ "---" +:+ b)
  = (fm_lines (split_char c_nl (py_strip h)), py_strip b).
Proof.
  intros H. unfold parse_frontmatter.
  assert (startswith "---" ("---" +:+ h +:+ "---" +:+ b) = true) as ->.
  { by rewrite strip_prefix_startswith, strip_prefix_app. }
  cbn [negb split_max].
  rewrite find_sub_here. by rewrite find_sub_marker.
Qed.

Lemma parse_frontmatter_header_witness :
  let h := nl +:+ "title: Hello" +:+ nl +:+ "date: 2024-05-01" +:+ nl in
  let b := nl +:+ "## Hi" +:+ nl +:+ "---" +:+ nl +:+ "text" +:+ nl in
  contains "---" (h +:+ "--") = false
  ∧ parse_frontmatter ("---" +:+ h +:+ "---" +:+ b)
    = (<["date" := "2024-05-01"]> (<["title" := "Hello"]> ∅),
       "## Hi" +:+ nl +:+ "---" +:+ nl +:+ "text").
Proof.
  intros h b. split; [reflexivity|].
  rewrite (parse_frontmatter_header h b eq_refl). vm_compute. reflexivity.
Defined.

(** ** The header lines: the last line for a key wins *)

Lemma fm_line_lookup_other (fm : gmap string string) (line key : string) :
  (∀ k v, find_sub ":" line = Some (k, v) → py_strip k ≠ key) →
  fm_line fm line !! key = fm !! key.
Proof.
  intros H. unfold fm_line.
  destruct (find_sub ":" line) as [[k v]|] eqn:E; [|done].
  rewrite lookup_insert_ne; [done|]. by eapply H.
Qed.

Lemma foldl_fm_line_other (lines : list string) (fm : gmap string string)
    (key : string) :
  Forall (λ l, ∀ k v, find_sub ":" l = Some (k, v) → py_strip k ≠ key) lines →
  foldl fm_line fm lines !! key = fm !! key.
Proof.
  intros H. revert fm. induction H as [|l lines Hl _ IH]; intros fm; [done|].
  cbn [foldl]. by rewrite IH, fm_line_lookup_other.
Qed.

(** X4.  Of the header lines with one key the last decides: its value,
    stripped, is what the metadata holds for the key, whatever stands before
    it.  A key that no line carries is absent. *)
Theorem fm_lines_last_wins (before after : list string) (key value : string) :
  has_char c_colon key = false →
  Forall (λ l, ∀ k v, find_sub ":" l = Some (k, v) → py_strip k ≠ py_strip key)
    after →
  fm_lines (before ++ [key +:+ ":" +:+ value] ++ after) !! py_strip key
  = Some (strip_value value)
  ∧ ∀ other,
      Forall (λ l, ∀ k v, find_sub ":" l = Some (k, v) → py_strip k ≠ other)
        (before ++ [key +:+ ":" +:+ value] ++ after) →
      fm_lines (before ++ [key +:+ ":" +:+ value] ++ after) !! other = None.
Proof.
  intros Hk Hafter. unfold fm_lines. split.
  - rewrite !foldl_app. rewrite foldl_fm_line_other by done.
    cbn [foldl]. unfold fm_line at 1.
    change ":" with (str1 c_colon). rewrite find_sub_char_Some by done.
    apply lookup_insert_eq.
  - intros other H. by rewrite foldl_fm_line_other.
Qed.

Lemma fm_lines_last_wins_witness :
  has_char c_colon "title " = false
  ∧ fm_lines (["title: old"; "date: 2024-01-01"] ++ ["title " +:+ ":" +:+ " new"]
              ++ ["description: d"]) !! "title"
    = Some "new".
Proof.
  split; [reflexivity|].
  refine (proj1 (fm_lines_last_wins ["title: old"; "date: 2024-01-01"]
                   ["description: d"] "title " " new" eq_refl _)).
  repeat constructor. intros k v H. vm_compute in H.
  inversion H; subst. vm_compute. congruence.
Defined.

(** ** File names: slug and date *)

Lemma rsplit_char_none (c : ascii) (s : string) :
  has_char c s = false → rsplit_char c s = None.
Proof.
  induction s as [|x s IH]; [done|]. cbn [has_char rsplit_char].
  intros [Hx Hs]%orb_false_iff. by rewrite IH, Hx.
Qed.

Lemma rsplit_char_last (c : ascii) (a b : string) :
  has_char c b = false → rsplit_char c (a +:+ str1 c +:+ b) = Some (a, b).
Proof.
  intros Hb. induction a as [|x a IH].
  - rewrite app_nil_l_s. unfold str1. rewrite app_cons_s, app_nil_l_s.
    cbn [rsplit_char]. by rewrite rsplit_char_none, ch_eqb_refl.
  - rewrite app_cons_s. cbn [rsplit_char]. by rewrite IH.
Qed.

(** The stem of [a.b] is [a] when [b] is a suffix: not empty, no dot. *)
Lemma path_stem_suffix (a b : string) :
  is_empty a = false → is_empty b = false → has_char c_dot b = false →
  path_stem (a +:+ "." +:+ b) = a.
Proof.
  intros Ha Hb Hd. unfold path_stem.
  change "." with (str1 c_dot). rewrite rsplit_char_last by done.
  by rewrite Ha, Hb.
Qed.

Lemma date_shaped_chars (d : string) :
  date_shaped d = true →
  ∃ y1 y2 y3 y4 m1 m2 d1 d2,
    d = String y1 (String y2 (String y3 (String y4 (String c_dash
          (String m1 (String m2 (String c_dash (String d1 (String d2
             EmptyString)))))))))
    ∧ is_digit y1 = true ∧ is_digit y2 = true ∧ is_digit y3 = true
    ∧ is_digit y4 = true ∧ is_digit m1 = true ∧ is_digit m2 = true
    ∧ is_digit d1 = true ∧ is_digit d2 = true.
Proof.
  intros H.
  do 10 (destruct d as [|? d]; [done|]). destruct d; [|done].
  cbn [date_shaped] in H.
  do 9 (apply andb_true_iff in H as [H ?]).
  repeat match goal with E : ch_eqb _ _ = true |- _ => apply ch_eqb_eq in E; subst end.
  do 8 eexists. split; [reflexivity|]. by repeat split.
Qed.

(** The pattern for dated names, at a dated name. *)
Lemma re_dated_name_match (d s : string) :
  date_shaped d = true → is_empty s = false → has_char c_nl s = false →
  re_match re_dated_name (d +:+ "-" +:+ s) = Some ([s], EmptyString).
Proof.
  intros Hd Hs Hnl.
  destruct (date_shaped_chars d Hd)
    as (y1 & y2 & y3 & y4 & m1 & m2 & d1 & d2 & -> & ? & ? & ? & ? & ? & ? & ? & ?).
  rewrite !app_cons_s, app_nil_l_s.
  unfold re_match, re_dated_name, digits, c_dash.
  cbn [replicate app match_items strip_prefix].
  repeat match goal with
  | E : is_digit ?a = true |- context [is_digit ?a] => rewrite E
  | |- context [ch_eqb ?x ?x] => rewrite ch_eqb_refl
  end.
  cbn [extend fmap option_fmap option_map].
  change (match_items [GOpen; Plus not_newline; GClose] None [] s
          = Some ([s], EmptyString)).
  rewrite match_items_open.
  rewrite <- (app_nil_r_s s) at 1.
  apply plus_run; [done| |done|].
  - clear Hs. induction s as [|x s IH]; [done|].
    cbn [has_char all_chars] in *. apply orb_false_iff in Hnl as [Hx Hnl].
    unfold not_newline at 1, ch_neqb. by rewrite Hx, IH.
  - rewrite match_items_close. reflexivity.
Qed.

Lemma parse_frontmatter_plain (content : string) :
  startswith "---" content = false → parse_frontmatter content = (∅, content).
Proof. intros H. unfold parse_frontmatter. by rewrite H. Qed.

(** X5.  The file-name convention.  For a name [YYYY-MM-DD-slug.ext] whose
    slug is not empty and holds no dot and no newline, the slug is what
    follows the date prefix, and a markdown file of that name without front
    matter gives the record dated by the name, titled by the slug with
    spaces for dashes, with the whole content as body. *)
Theorem dated_file_record (d s content : string) :
  date_shaped d = true →
  is_empty s = false → has_char c_nl s = false → has_char c_dot s = false →
  startswith "---" content = false →
  get_slug_from_filename (d +:+ "-" +:+ s +:+ ".md") = s
  ∧ md_post (d +:+ "-" +:+ s +:+ ".md", content)
    = {| title := str_replace "-" " " s; date := d;
         description := EmptyString; slug := s;
         file := d +:+ "-" +:+ s +:+ ".md";
         body := Some content; src := Markdown |}.
Proof.
  intros Hd Hs Hnl Hdot Hc.
  assert (get_slug_from_filename (d +:+ "-" +:+ s +:+ ".md") = s) as Hslug.
  { unfold get_slug_from_filename.
    assert (d +:+ "-" +:+ s +:+ ".md" = (d +:+ "-" +:+ s) +:+ "." +:+ "md") as ->
      by (by rewrite !app_assoc_s).
    rewrite path_stem_suffix; [|by destruct d|done|done].
    by rewrite re_dated_name_match. }
  split; [exact Hslug|].
  unfold md_post. cbn [fst snd].
  rewrite parse_frontmatter_plain by done.
  rewrite Hslug. unfold md_date, dict_get. rewrite !lookup_empty.
  cbn [default is_empty]. by rewrite re_date_prefix_match.
Qed.

Lemma dated_file_record_witness :
  date_shaped "2024-01-01" = true
  ∧ get_slug_from_filename ("2024-01-01" +:+ "-" +:+ "my-first-post" +:+ ".md")
    = "my-first-post"
  ∧ md_post ("2024-01-01" +:+ "-" +:+ "my-first-post" +:+ ".md", "hello")
    = {| title := "my first post"; date := "2024-01-01";
         description := EmptyString; slug := "my-first-post";
         file := "2024-01-01-my-first-post.md";
         body := Some "hello"; src := Markdown |}.
Proof.
  split; [reflexivity|].
  exact (dated_file_record "2024-01-01" "my-first-post" "hello"
           eq_refl eq_refl eq_refl eq_refl eq_refl).
Defined.

(** ** What a match tells about the subject *)

Lemma lit_inv (l : string) (its : regex) (cur : option string)
    (gs : list string) (s : string) (r : mresult) :
  match_items (Lit l :: its) cur gs s = Some r →
  ∃ s', s = l +:+ s' ∧ match_items its (extend cur l) gs s' = Some r.
Proof.
  cbn [match_items]. destruct (strip_prefix l s) as [s'|] eqn:E; [|done].
  intros H. exists s'. split; [by apply strip_prefix_Some|done].
Qed.

Lemma one_inv (p : ascii → bool) (its : regex) (cur : option string)
    (gs : list string) (s : string) (r : mresult) :
  match_items (One p :: its) cur gs s = Some r →
  ∃ c s', s = String c s' ∧ p c = true
          ∧ match_items its (extend cur (str1 c)) gs s' = Some r.
Proof.
  cbn [match_items]. destruct s as [|c s']; [done|].
  destruct (p c) eqn:E; [|done]. intros H. by exists c, s'.
Qed.

Lemma greedy_inv (p : ascii → bool) (k : mcont) (s : string) :
  ∀ cur gs r,
    greedy p k cur gs s = Some r →
    ∃ run rest, s = run +:+ rest ∧ all_chars p run = true
                ∧ k (extend cur run) gs rest = Some r.
Proof.
  induction s as [|c s IH]; intros cur gs r H.
  - exists EmptyString, EmptyString. by rewrite extend_nil.
  - cbn [greedy] in H. destruct (p c) eqn:E.
    + destruct (greedy p k (extend cur (str1 c)) gs s) as [r'|] eqn:G.
      * inversion H; subst. apply IH in G as (run & rest & -> & Hrun & Hk).
        exists (String c run), rest. rewrite app_cons_s. cbn [all_chars].
        rewrite E, Hrun. rewrite extend_extend in Hk. by repeat split.
      * exists EmptyString, (String c s). by rewrite extend_nil.
    + exists EmptyString, (String c s). by rewrite extend_nil.
Qed.

Lemma plus_inv (p : ascii → bool) (its : regex) (cur : option string)
    (gs : list string) (s : string) (r : mresult) :
  match_items (Plus p :: its) cur gs s = Some r →
  ∃ run rest, s = run +:+ rest ∧ is_empty run = false
              ∧ all_chars p run = true
              ∧ match_items its (extend cur run) gs rest = Some r.
Proof.
  cbn [match_items]. destruct s as [|c s]; [done|].
  destruct (p c) eqn:E; [|done]. intros H.
  apply greedy_inv in H as (run & rest & -> & Hrun & Hk).
  exists (String c run), rest. rewrite app_cons_s. cbn [all_chars is_empty].
  rewrite E, Hrun. rewrite extend_extend in Hk. by repeat split.
Qed.

Lemma star_inv (p : ascii → bool) (its : regex) (cur : option string)
    (gs : list string) (s : string) (r : mresult) :
  match_items (Star p :: its) cur gs s = Some r →
  ∃ run rest, s = run +:+ rest ∧ all_chars p run = true
              ∧ match_items its (extend cur run) gs rest = Some r.
Proof. cbn [match_items]. apply greedy_inv. Qed.

(** [re.search] finds a match at some place of the subject. *)
Lemma re_search_inv (re : regex) (s : string) (r : mresult) :
  re_search re s = Some r →
  ∃ before at_, s = before +:+ at_ ∧ re_match re at_ = Some r.
Proof.
  induction s as [|c s IH]; cbn [re_search].
  - destruct (re_match re EmptyString) eqn:E; [|done].
    intros H. inversion H; subst. by exists EmptyString, EmptyString.
  - destruct (re_match re (String c s)) eqn:E.
    + intros H. inversion H; subst. by exists EmptyString, (String c s).
    + intros H. apply IH in H as (b & a & -> & H).
      exists (String c b), a. by rewrite app_cons_s.
Qed.

(** A pattern that begins with a literal character is not found in a text
    without that character. *)
Lemma re_search_no_trigger (m : ascii) (l : string) (its : regex) (s : string) :
  has_char m s = false → re_search (Lit (String m l) :: its) s = None.
Proof.
  induction s as [|c s IH]; [done|]. cbn [has_char].
  intros [Hc Hs]%orb_false_iff.
  cbn [re_search re_match match_items strip_prefix].
  rewrite ch_eqb_sym, Hc. by apply IH.
Qed.

(** ** get_slug_from_filename: the slug is never empty *)

Lemma path_stem_not_empty (name : string) :
  is_empty name = false → is_empty (path_stem name) = false.
Proof.
  intros H. unfold path_stem.
  destruct (rsplit_char c_dot name) as [[a b]|]; [|done].
  destruct (is_empty a) eqn:Ea; [done|].
  cbn [orb]. by destruct (is_empty b).
Qed.

(** X6.  The slug of a file name is a text.  For a bare file name (not
    empty, without a slash and other than the single dot, which [Path] takes
    for the current directory and not for a name), the slug is never empty,
    so no page is written to a file named [.html] alone. *)
Theorem slug_not_empty (filename : string) :
  is_empty filename = false →
  has_char "/" filename = false →
  String.eqb filename "." = false →
  is_empty (get_slug_from_filename filename) = false.
Proof.
  intros H _ _. unfold get_slug_from_filename.
  destruct (re_match re_dated_name (path_stem filename)) as [[gs rest]|] eqn:E;
    [|by apply path_stem_not_empty].
  unfold re_match, re_dated_name, digits in E.
  cbn [replicate app] in E.
  do 4 (apply one_inv in E as (? & ? & _ & _ & E)).
  apply lit_inv in E as (? & _ & E).
  do 2 (apply one_inv in E as (? & ? & _ & _ & E)).
  apply lit_inv in E as (? & _ & E).
  do 2 (apply one_inv in E as (? & ? & _ & _ & E)).
  apply lit_inv in E as (? & _ & E).
  rewrite match_items_open in E.
  apply plus_inv in E as (run & rest' & _ & Hrun & _ & E).
  rewrite match_items_close in E. cbn in E. inversion E; subst.
  unfold grp. cbn. rewrite app_nil_l_s. exact Hrun.
Qed.

Lemma slug_not_empty_witness :
  is_empty (get_slug_from_filename ".md") = false
  ∧ is_empty (get_slug_from_filename "2024-01-01-.md") = false.
Proof.
  split.
  - exact (slug_not_empty ".md" eq_refl eq_refl eq_refl).
  - exact (slug_not_empty "2024-01-01-.md" eq_refl eq_refl eq_refl).
Defined.

(** ** extract_metadata_from_html *)

Lemma re_meta_date_inv (s : string) (gs : list string) (rest : string) :
  re_match re_meta_date s = Some (gs, rest) →
  ∃ y1 y2 y3 y4 m1 m2,
    gs = [String y1 (String y2 (String y3 (String y4 EmptyString)));
          String m1 (String m2 EmptyString)]
    ∧ is_digit y1 = true ∧ is_digit y2 = true ∧ is_digit y3 = true
    ∧ is_digit y4 = true ∧ is_digit m1 = true ∧ is_digit m2 = true
    ∧ s = "<p class=" +:+ dq +:+ "meta" +:+ dq +:+ ">"
          +:+ String y1 (String y2 (String y3 (String y4 EmptyString)))
          +:+ "." +:+ String m1 (String m2 EmptyString) +:+ rest.
Proof.
  unfold re_match, re_meta_date, digits. cbn [replicate app]. intros E.
  apply lit_inv in E as (s1 & -> & E).
  rewrite match_items_open in E.
  apply one_inv in E as (y1 & ? & -> & Hy1 & E).
  apply one_inv in E as (y2 & ? & -> & Hy2 & E).
  apply one_inv in E as (y3 & ? & -> & Hy3 & E).
  apply one_inv in E as (y4 & ? & -> & Hy4 & E).
  rewrite match_items_close in E.
  apply lit_inv in E as (? & -> & E).
  rewrite match_items_open in E.
  apply one_inv in E as (m1 & ? & -> & Hm1 & E).
  apply one_inv in E as (m2 & ? & -> & Hm2 & E).
  rewrite match_items_close in E. cbn in E. inversion E; subst.
  exists y1, y2, y3, y4, m1, m2. repeat split; done.
Qed.

(** X7.  Whatever a published page holds, the record read from it is dated
    by a text of the shape YYYY-MM-01: four digits, two digits, and the day
    always 01 (1970-01-01 when the page shows no date).  A page without any
    opening angle gives the fallbacks: the title is the slug with spaces for
    dashes, the description is empty, the date is 1970-01-01. *)
Theorem html_record_date_shape (html_file : entry) :
  let r := extract_metadata_from_html html_file in
  date_shaped (date r) = true
  ∧ str_drop 7 (date r) = "-01"
  ∧ slug r = path_stem (fst html_file)
  ∧ src r = Html
  ∧ (has_char c_lt (snd html_file) = false →
     title r = str_replace "-" " " (path_stem (fst html_file))
     ∧ description r = EmptyString
     ∧ date r = "1970-01-01").
Proof.
  intros r. unfold r, extract_metadata_from_html. cbn [date slug src title description].
  split; [|split; [|split; [done|split; [done|]]]].
  - destruct (re_search re_meta_date (snd html_file)) as [[gs rest]|] eqn:E; [|done].
    apply re_search_inv in E as (b & a & _ & E).
    apply re_meta_date_inv in E
      as (y1 & y2 & y3 & y4 & m1 & m2 & -> & H1 & H2 & H3 & H4 & H5 & H6 & _).
    match goal with |- context [grp 1 [?a; ?b]] =>
      change (grp 1 [a; b]) with a; change (grp 2 [a; b]) with b end.
    cbv [String.append date_shaped].
    rewrite H1, H2, H3, H4, H5, H6. reflexivity.
  - destruct (re_search re_meta_date (snd html_file)) as [[gs rest]|] eqn:E; [|done].
    apply re_search_inv in E as (b & a & _ & E).
    apply re_meta_date_inv in E
      as (y1 & y2 & y3 & y4 & m1 & m2 & -> & _).
    reflexivity.
  - intros H. unfold re_title, re_description, re_meta_date.
    cbn [app]. unfold dq, str1.
    rewrite !app_cons_s.
    rewrite !(re_search_no_trigger "<"%char) by exact H.
    done.
Qed.

Example html_record_month_not_checked :
  date (extract_metadata_from_html
          ("x.html", "<p class=" +:+ dq +:+ "meta" +:+ dq +:+ ">2024.13"))
  = "2024-13-01".
Proof. vm_compute. reflexivity. Qed.

(** ** Reading back what a page shows *)

Lemma startswith_stop (p a : string) (c : ascii) (t : string) :
  has_char c p = false →
  startswith p (a +:+ String c t) = true → startswith p a = true.
Proof.
  revert a. induction p as [|x p IH]; intros a Hp H; [done|].
  cbn [has_char] in Hp. apply orb_false_iff in Hp as [Hx Hp].
  destruct a as [|y a].
  - rewrite app_nil_l_s in H. cbn [startswith] in H.
    apply andb_true_iff in H as [H _]. apply ch_eqb_eq in H as ->.
    by rewrite ch_eqb_refl in Hx.
  - rewrite app_cons_s in H. cbn [startswith] in *.
    apply andb_true_iff in H as [-> H]. by apply IH.
Qed.

(** A literal whose first character does not come again in it cannot lie
    across the end of the text before it. *)
Lemma startswith_no_straddle (c : ascii) (l a r : string) :
  has_char c l = false → is_empty a = false →
  startswith (String c l) (a +:+ String c l +:+ r) = true →
  startswith (String c l) a = true.
Proof.
  intros Hl Ha H. destruct a as [|y a]; [done|].
  rewrite app_cons_s in H. cbn [startswith] in *.
  apply andb_true_iff in H as [-> H]. cbn [andb].
  rewrite app_cons_s in H. by eapply startswith_stop.
Qed.

Lemma contains_cons (l : string) (x : ascii) (a : string) :
  contains l (String x a) = false →
  startswith l (String x a) = false ∧ contains l a = false.
Proof.
  unfold contains. rewrite find_sub_cons. intros H.
  apply bool_decide_eq_false in H.
  destruct (strip_prefix l (String x a)) as [r|] eqn:E.
  { exfalso. apply H. eauto. }
  split; [by apply strip_prefix_None|].
  apply bool_decide_eq_false. intros [[u v] Hf]. apply H.
  rewrite Hf. eauto.
Qed.

(** The search steps over a text that does not hold the opening literal of
    the pattern. *)
Lemma re_search_skip (c : ascii) (l : string) (its : regex)
    (before r : string) (res : mresult) :
  has_char c l = false →
  contains (String c l) before = false →
  re_match (Lit (String c l) :: its) (String c l +:+ r) = Some res →
  re_search (Lit (String c l) :: its) (before +:+ String c l +:+ r) = Some res.
Proof.
  intros Hl Hb Hm. induction before as [|x a IH].
  - rewrite app_nil_l_s. rewrite app_cons_s in *. cbn [re_search].
    by rewrite Hm.
  - apply contains_cons in Hb as [Hx Ha].
    rewrite app_cons_s. cbn [re_search].
    assert (re_match (Lit (String c l) :: its)
              (String x (a +:+ String c l +:+ r)) = None) as ->.
    { unfold re_match. cbn [match_items].
      destruct (strip_prefix (String c l) (String x (a +:+ String c l +:+ r)))
        eqn:E; [|done].
      exfalso.
      assert (startswith (String c l) (String x a +:+ String c l +:+ r) = true) as Hs.
      { rewrite strip_prefix_startswith, app_cons_s, E.
        apply bool_decide_eq_true. eauto. }
      apply startswith_no_straddle in Hs; [|done|done]. congruence. }
    by apply IH.
Qed.

(** Greedy repetition gives characters back until the rest of the pattern
    matches. *)
Lemma greedy_all_fail (p : ascii → bool) (k : mcont) (gs : list string)
    (rest : string) (extra : string) :
  ∀ cur,
    all_chars p extra = true → head_is p rest = false →
    (∀ e1 e2, extra = e1 +:+ e2 → is_empty e1 = false →
              k (extend cur e1) gs (e2 +:+ rest) = None) →
    greedy p k cur gs (extra +:+ rest) = k cur gs (extra +:+ rest).
Proof.
  induction extra as [|x extra IH]; intros cur Hp Hr Hfail.
  - rewrite app_nil_l_s. destruct rest as [|c rest]; [done|].
    cbn [greedy]. cbn [head_is] in Hr. by rewrite Hr.
  - cbn [all_chars] in Hp. apply andb_true_iff in Hp as [Hx Hp].
    rewrite app_cons_s. cbn [greedy]. rewrite Hx.
    rewrite IH; [|done|done|].
    + rewrite (Hfail (str1 x) extra); [done|done|done].
    + intros e1 e2 -> He1. rewrite extend_extend.
      apply (Hfail (str1 x +:+ e1) e2); [done|done].
Qed.

Lemma greedy_give_back (p : ascii → bool) (k : mcont) (gs : list string)
    (run extra rest : string) (r : mresult) :
  ∀ cur,
    all_chars p run = true → all_chars p extra = true →
    head_is p rest = false →
    (∀ e1 e2, extra = e1 +:+ e2 → is_empty e1 = false →
              k (extend cur (run +:+ e1)) gs (e2 +:+ rest) = None) →
    k (extend cur run) gs (extra +:+ rest) = Some r →
    greedy p k cur gs (run +:+ extra +:+ rest) = Some r.
Proof.
  induction run as [|x run IH]; intros cur Hrun Hextra Hrest Hfail Hk.
  - rewrite app_nil_l_s. rewrite extend_nil in Hk.
    rewrite greedy_all_fail; [done|done|done|].
    intros e1 e2 He He1. specialize (Hfail e1 e2 He He1).
    by rewrite app_nil_l_s in Hfail.
  - cbn [all_chars] in Hrun. apply andb_true_iff in Hrun as [Hx Hrun].
    rewrite app_cons_s. cbn [greedy]. rewrite Hx.
    rewrite (IH (extend cur (str1 x))); [done|done|done|done| |].
    + intros e1 e2 He He1. rewrite extend_extend.
      by apply Hfail.
    + by rewrite extend_extend.
Qed.

Lemma match_items_plus (p : ascii → bool) (its : regex) (cur : option string)
    (gs : list string) (c : ascii) (s : string) :
  match_items (Plus p :: its) cur gs (String c s)
  = if p c then greedy p (match_items its) (extend cur (str1 c)) gs s else None.
Proof. reflexivity. Qed.

(** The title pattern at a title. *)
Lemma re_title_match (t rest : string) :
  is_empty t = false → has_char c_lt t = false →
  re_match re_title ("<title>" +:+ t +:+ " / sotoalt</title>" +:+ rest)
  = Some ([t], rest).
Proof.
  intros Ht Hlt. unfold re_match, re_title.
  rewrite match_items_lit, match_items_open.
  destruct t as [|x t]; [done|].
  cbn [has_char] in Hlt. apply orb_false_iff in Hlt as [Hx Hlt].
  rewrite app_cons_s, match_items_plus.
  assert (not_char c_lt x = true) as ->.
  { unfold not_char, ch_neqb. by rewrite Hx. }
  change (" / sotoalt</title>" +:+ rest)
    with (" / sotoalt" +:+ "</title>" +:+ rest).
  apply greedy_give_back.
  - by apply all_not_char.
  - reflexivity.
  - reflexivity.
  - intros e1 e2 He He1. rewrite match_items_close. cbn [match_items].
    repeat match goal with
    | He : _ = ?e +:+ e2 |- _ =>
        destruct e as [|? e];
        [rewrite app_nil_l_s in He; subst e2; first [done|reflexivity]
        |rewrite app_cons_s in He;
         first [discriminate He|injection He as ? He; subst]]
    end.
  - rewrite match_items_close.
    change (" / sotoalt" +:+ "</title>" +:+ rest)
      with (" / sotoalt</title>" +:+ rest).
    rewrite match_items_lit. cbn. by rewrite app_nil_l_s.
Qed.

(** The description pattern at a description. *)
Lemma re_description_match (d rest : string) :
  has_char c_dquote d = false →
  re_match re_description (description_open +:+ d +:+ dq +:+ rest)
  = Some ([d], rest).
Proof.
  intros Hd. unfold re_match, re_description.
  fold description_open.
  rewrite match_items_lit, match_items_open.
  change (match_items (Star (not_char c_dquote) :: [GClose; Lit dq]))
    with (greedy (not_char c_dquote) (match_items [GClose; Lit dq])).
  apply greedy_run; [by apply all_not_char|done|].
  rewrite match_items_close, match_items_lit. cbn. by rewrite app_nil_l_s.
Qed.

(** The date pattern at a date. *)
Lemma re_meta_date_match (y m rest : string) :
  four_digits y = true → two_digits m = true →
  re_match re_meta_date (meta_open +:+ y +:+ "." +:+ m +:+ rest)
  = Some ([y; m], rest).
Proof.
  intros Hy Hm.
  do 4 (destruct y as [|? y]; [done|]). destruct y; [|done].
  do 2 (destruct m as [|? m]; [done|]). destruct m; [|done].
  cbn [four_digits two_digits] in *.
  do 3 (apply andb_true_iff in Hy as [Hy ?]).
  apply andb_true_iff in Hm as [Hm ?].
  unfold re_match, re_meta_date, digits. fold meta_open.
  cbn [replicate app].
  rewrite match_items_lit, match_items_open.
  repeat first
    [ rewrite app_cons_s
    | rewrite app_nil_l_s
    | progress cbn [match_items strip_prefix]
    | match goal with
      | E : is_digit ?a = true |- context [is_digit ?a] => rewrite E
      | |- context [ch_eqb ?x ?x] => rewrite ch_eqb_refl
      end ].
  reflexivity.
Qed.

(** A page with a title element, a description and a date paragraph, each
    the first of its kind. *)
Lemma html_reads_page
    (name page b1 t a1 b2 d a2 b3 y m a3 : string) :
  page = b1 +:+ "<title>" +:+ t +:+ " / sotoalt</title>" +:+ a1 →
  contains "<title>" b1 = false →
  is_empty t = false → has_char c_lt t = false →
  page = b2 +:+ description_open +:+ d +:+ dq +:+ a2 →
  contains description_open b2 = false →
  has_char c_dquote d = false →
  page = b3 +:+ meta_open +:+ y +:+ "." +:+ m +:+ a3 →
  contains meta_open b3 = false →
  four_digits y = true → two_digits m = true →
  extract_metadata_from_html (name, page)
  = {| title := t; date := y +:+ "-" +:+ m +:+ "-01"; description := d;
       slug := path_stem name; file := name; body := None; src := Html |}.
Proof.
  intros P1 B1 Ht Hlt P2 B2 Hd P3 B3 Hy Hm.
  unfold extract_metadata_from_html. cbn [fst snd].
  assert (re_search re_title page = Some ([t], a1)) as ->.
  { rewrite P1. apply (re_search_skip "<" "title>"); [done|done|].
    by apply re_title_match. }
  assert (re_search re_description page = Some ([d], a2)) as ->.
  { rewrite P2. unfold re_description. fold description_open.
    apply (re_search_skip "<"
             ("meta name=" +:+ dq +:+ "description" +:+ dq +:+ " content=" +:+ dq));
      [done|done|].
    by apply re_description_match. }
  assert (re_search re_meta_date page = Some ([y; m], a3)) as ->.
  { rewrite P3. unfold re_meta_date. fold meta_open.
    apply (re_search_skip "<" ("p class=" +:+ dq +:+ "meta" +:+ dq +:+ ">"));
      [done|done|].
    by apply re_meta_date_match. }
  reflexivity.
Qed.

(** X8.  What a published page shows is what is read back from it.  For a
    page with a title element [<title>t / sotoalt</title>], a description
    [<meta name=.. content=..>] and a date paragraph [<p class=meta>YYYY.MM],
    each the first of its kind in the page, the record has the title [t],
    the description as written and the date YYYY-MM-01. *)
Theorem html_record_reads_page
    (name page b1 t a1 b2 d a2 b3 y m a3 : string) :
  page = b1 +:+ "<title>" +:+ t +:+ " / sotoalt</title>" +:+ a1 →
  contains "<title>" b1 = false →
  is_empty t = false → has_char c_lt t = false →
  page = b2 +:+ description_open +:+ d +:+ dq +:+ a2 →
  contains description_open b2 = false →
  has_char c_dquote d = false →
  page = b3 +:+ meta_open +:+ y +:+ "." +:+ m +:+ a3 →
  contains meta_open b3 = false →
  four_digits y = true → two_digits m = true →
  extract_metadata_from_html (name, page)
  = {| title := t; date := y +:+ "-" +:+ m +:+ "-01"; description := d;
       slug := path_stem name; file := name; body := None; src := Html |}.
Proof. apply html_reads_page. Qed.

Lemma html_record_reads_page_witness :
  let head := "<html><head>" in
  let mid := "<link rel=x>" in
  let page :=
    head +:+ "<title>" +:+ "A & B" +:+ " / sotoalt</title>" +:+ mid
    +:+ description_open +:+ "about <b>" +:+ dq +:+ "></head><body>"
    +:+ meta_open +:+ "2024" +:+ "." +:+ "05" +:+ " / 3 min</p></body>" in
  contains "<title>" head = false
  ∧ extract_metadata_from_html ("a-b.html", page)
    = {| title := "A & B"; date := "2024-05-01"; description := "about <b>";
         slug := "a-b"; file := "a-b.html"; body := None; src := Html |}.
Proof.
  intros head mid page. split; [reflexivity|].
  apply (html_record_reads_page "a-b.html" page
           head "A & B"
           (mid +:+ description_open +:+ "about <b>" +:+ dq +:+ "></head><body>"
            +:+ meta_open +:+ "2024" +:+ "." +:+ "05" +:+ " / 3 min</p></body>")
           (head +:+ "<title>" +:+ "A & B" +:+ " / sotoalt</title>" +:+ mid)
           "about <b>"
           ("></head><body>" +:+ meta_open +:+ "2024" +:+ "." +:+ "05"
            +:+ " / 3 min</p></body>")
           (head +:+ "<title>" +:+ "A & B" +:+ " / sotoalt</title>" +:+ mid
            +:+ description_open +:+ "about <b>" +:+ dq +:+ "></head><body>")
           "2024" "05" " / 3 min</p></body>");
    reflexivity.
Defined.

(** ** Dates: parsing and formatting *)

Lemma digit_cases (c : ascii) :
  is_digit c = true →
  c ∈ ["0"; "1"; "2"; "3"; "4"; "5"; "6"; "7"; "8"; "9"]%char.
Proof.
  unfold is_digit. intros H. apply andb_true_iff in H as [H1 H2].
  apply Nat.leb_le in H1. apply Nat.leb_le in H2.
  rewrite <- (ascii_nat_embedding c).
  assert (nat_of_ascii c = 48 ∨ nat_of_ascii c = 49 ∨ nat_of_ascii c = 50
          ∨ nat_of_ascii c = 51 ∨ nat_of_ascii c = 52 ∨ nat_of_ascii c = 53
          ∨ nat_of_ascii c = 54 ∨ nat_of_ascii c = 55 ∨ nat_of_ascii c = 56
          ∨ nat_of_ascii c = 57) as Hc by lia.
  rewrite !elem_of_cons.
  destruct Hc as [->|[->|[->|[->|[->|[->|[->|[->|[->| ->]]]]]]]]]; tauto.
Qed.

Ltac each_digit H :=
  apply digit_cases in H; rewrite !elem_of_cons in H;
  destruct H as [->|[->|[->|[->|[->|[->|[->|[->|[->|[->|H]]]]]]]]]];
  [..|by apply elem_of_nil in H].

Lemma digit_val_range (c : ascii) : is_digit c = true → (0 ≤ digit_val c ≤ 9)%Z.
Proof. intros H. each_digit H; vm_compute; split; congruence. Qed.

Lemma digit_chr_val (c : ascii) : is_digit c = true → digit_chr (digit_val c) = c.
Proof. intros H. each_digit H; reflexivity. Qed.

Lemma digit_not_space (c : ascii) : is_digit c = true → py_isspace c = false.
Proof. intros H. each_digit H; reflexivity. Qed.

(** The month and the day of two digits: which pairs the alternatives take. *)
Lemma month_chars (a b : ascii) :
  is_digit a = true → is_digit b = true →
  (ch_eqb "1" a && in_range "0" "2" b) || (ch_eqb "0" a && in_range "1" "9" b)
  = (1 <=? 10 * digit_val a + digit_val b)%Z
    && (10 * digit_val a + digit_val b <=? 12)%Z.
Proof. intros Ha Hb. each_digit Ha; each_digit Hb; reflexivity. Qed.

Lemma day_chars (a b : ascii) :
  is_digit a = true → is_digit b = true →
  (ch_eqb "3" a && in_range "0" "1" b) || (in_range "1" "2" a && is_digit b)
  || (ch_eqb "0" a && in_range "1" "9" b)
  = (1 <=? 10 * digit_val a + digit_val b)%Z
    && (10 * digit_val a + digit_val b <=? 31)%Z.
Proof. intros Ha Hb. each_digit Ha; each_digit Hb; reflexivity. Qed.

Lemma alt2_match (p1 p2 : ascii → bool) (c1 c2 : ascii) (r : string) :
  re_match ([GOpen] ++ [One p1; One p2] ++ [GClose]) (String c1 (String c2 r))
  = if p1 c1 && p2 c2 then Some ([String c1 (String c2 EmptyString)], r)
    else None.
Proof.
  unfold re_match. cbn [app match_items].
  destruct (p1 c1); [|done]. destruct (p2 c2); reflexivity.
Qed.

Lemma alt1_match (p : ascii → bool) (c : ascii) (r : string) :
  re_match ([GOpen] ++ [One p] ++ [GClose]) (String c r)
  = if p c then Some ([str1 c], r) else None.
Proof. unfold re_match. cbn [app match_items]. by destruct (p c). Qed.

Lemma month_alts_two {R : Type} (k : string → string → option R)
    (a b : ascii) (r : string) :
  is_digit a = true → is_digit b = true →
  k (str1 a) (String b r) = None →
  match_alts month_alts k (String a (String b r))
  = if (1 <=? 10 * digit_val a + digit_val b)%Z
       && (10 * digit_val a + digit_val b <=? 12)%Z
    then k (String a (String b EmptyString)) r else None.
Proof.
  intros Ha Hb Hk. rewrite <- month_chars by done.
  unfold month_alts. cbn [match_alts].
  rewrite !alt2_match, alt1_match.
  destruct (ch_eqb "1" a && in_range "0" "2" b) eqn:E1.
  - cbn [orb]. change (grp 1 [String a (String b EmptyString)])
      with (String a (String b EmptyString)).
    destruct (k (String a (String b EmptyString)) r) eqn:K; [done|].
    apply andb_true_iff in E1 as [E1 _]. apply ch_eqb_eq in E1 as <-.
    change (ch_eqb "0" "1") with false.
    change (in_range "1" "9" "1") with true. cbn [andb].
    change (grp 1 [str1 "1"%char]) with (str1 "1"%char). by rewrite Hk.
  - cbn [orb]. destruct (ch_eqb "0" a && in_range "1" "9" b) eqn:E2.
    + change (grp 1 [String a (String b EmptyString)])
        with (String a (String b EmptyString)).
      destruct (k (String a (String b EmptyString)) r) eqn:K; [done|].
      apply andb_true_iff in E2 as [E2 _]. apply ch_eqb_eq in E2 as <-.
      change (in_range "1" "9" "0") with false. cbn [andb]. done.
    + destruct (in_range "1" "9" a); [|done].
      change (grp 1 [str1 a]) with (str1 a). by rewrite Hk.
Qed.

Lemma day_alts_two {R : Type} (k : string → string → option R) (a b : ascii) :
  is_digit a = true → is_digit b = true →
  (∀ g r, is_Some (k g r)) →
  match_alts day_alts k (String a (String b EmptyString))
  = if (1 <=? 10 * digit_val a + digit_val b)%Z
       && (10 * digit_val a + digit_val b <=? 31)%Z
    then k (String a (String b EmptyString)) EmptyString
    else if in_range "1" "9" a then k (str1 a) (str1 b) else None.
Proof.
  intros Ha Hb Hk. rewrite <- day_chars by done.
  unfold day_alts. cbn [match_alts].
  rewrite !alt2_match, alt1_match.
  pose proof (Hk (String a (String b EmptyString)) EmptyString) as [x Hx].
  pose proof (Hk (str1 a) (str1 b)) as [y Hy].
  destruct (ch_eqb "3" a && in_range "0" "1" b) eqn:E1.
  { cbv beta iota. cbn [orb].
    change (grp 1 [String a (String b EmptyString)])
      with (String a (String b EmptyString)).
    by rewrite Hx. }
  destruct (in_range "1" "2" a && is_digit b) eqn:E2.
  { cbv beta iota. cbn [orb].
    change (grp 1 [String a (String b EmptyString)])
      with (String a (String b EmptyString)).
    by rewrite Hx. }
  destruct (ch_eqb "0" a && in_range "1" "9" b) eqn:E3.
  { cbv beta iota. cbn [orb].
    change (grp 1 [String a (String b EmptyString)])
      with (String a (String b EmptyString)).
    by rewrite Hx. }
  cbn [orb]. destruct (in_range "1" "9" a) eqn:E4.
  { cbv beta iota. change (grp 1 [str1 a]) with (str1 a).
    unfold str1 in *. by rewrite Hy. }
  destruct (ch_eqb " " a) eqn:E5; [|done].
  apply ch_eqb_eq in E5 as <-. done.
Qed.

Lemma py_int_two (a b : ascii) :
  is_digit a = true →
  py_int (String a (String b EmptyString)) = (10 * digit_val a + digit_val b)%Z.
Proof.
  intros Ha. unfold py_int. cbn [lstrip_by]. rewrite digit_not_space by done.
  cbn [int_digits]. lia.
Qed.

Lemma py_int_four (a b c d : ascii) :
  is_digit a = true →
  py_int (String a (String b (String c (String d EmptyString))))
  = (1000 * digit_val a + 100 * digit_val b + 10 * digit_val c + digit_val d)%Z.
Proof.
  intros Ha. unfold py_int. cbn [lstrip_by]. rewrite digit_not_space by done.
  cbn [int_digits]. lia.
Qed.

Lemma pad2_two (a b : ascii) :
  is_digit a = true → is_digit b = true →
  pad2 (10 * digit_val a + digit_val b) = String a (String b EmptyString).
Proof.
  intros Ha Hb. unfold pad2.
  pose proof (digit_val_range a Ha). pose proof (digit_val_range b Hb).
  replace ((10 * digit_val a + digit_val b) / 10)%Z with (digit_val a) by (Z.to_euclidean_division_equations; lia).
  replace ((10 * digit_val a + digit_val b) mod 10)%Z with (digit_val b) by (Z.to_euclidean_division_equations; lia).
  by rewrite !digit_chr_val.
Qed.

Lemma year_text_four (a b c d : ascii) :
  is_digit a = true → is_digit b = true → is_digit c = true → is_digit d = true →
  (1000 ≤ 1000 * digit_val a + 100 * digit_val b + 10 * digit_val c + digit_val d)%Z →
  year_text (1000 * digit_val a + 100 * digit_val b + 10 * digit_val c + digit_val d)
  = String a (String b (String c (String d EmptyString))).
Proof.
  intros Ha Hb Hc Hd Hy. unfold year_text.
  pose proof (digit_val_range a Ha). pose proof (digit_val_range b Hb).
  pose proof (digit_val_range c Hc). pose proof (digit_val_range d Hd).
  set (y := (1000 * digit_val a + 100 * digit_val b + 10 * digit_val c
             + digit_val d)%Z) in *.
  assert ((y <? 10)%Z = false) as -> by (apply Z.ltb_ge; lia).
  assert ((y <? 100)%Z = false) as -> by (apply Z.ltb_ge; lia).
  assert ((y <? 1000)%Z = false) as -> by (apply Z.ltb_ge; lia).
  replace (y / 1000)%Z with (digit_val a) by (unfold y; Z.to_euclidean_division_equations; lia).
  replace (y / 100 mod 10)%Z with (digit_val b) by (unfold y; Z.to_euclidean_division_equations; lia).
  replace (y / 10 mod 10)%Z with (digit_val c) by (unfold y; Z.to_euclidean_division_equations; lia).
  replace (y mod 10)%Z with (digit_val d) by (unfold y; Z.to_euclidean_division_equations; lia).
  by rewrite !digit_chr_val.
Qed.

Lemma days_in_month_max (y m : Z) : (28 ≤ days_in_month y m ≤ 31)%Z.
Proof.
  unfold days_in_month.
  destruct (m =? 2)%Z; [destruct (is_leap y); lia|].
  destruct ((m =? 4)%Z || (m =? 6)%Z || (m =? 9)%Z || (m =? 11)%Z); lia.
Qed.

(** What [strptime] makes of a text of the shape YYYY-MM-DD. *)
Lemma strptime_ymd_iso (yy mm dd : string) :
  four_digits yy = true → two_digits mm = true → two_digits dd = true →
  strptime_ymd (yy +:+ "-" +:+ mm +:+ "-" +:+ dd)
  = if valid_ymd (py_int yy) (py_int mm) (py_int dd)
    then Some (py_int yy, py_int mm, py_int dd) else None.
Proof.
  intros Hy Hm Hd.
  do 4 (destruct yy as [|? yy]; [done|]). destruct yy; [|done].
  do 2 (destruct mm as [|? mm]; [done|]). destruct mm; [|done].
  do 2 (destruct dd as [|? dd]; [done|]). destruct dd; [|done].
  cbn [four_digits two_digits] in *.
  apply andb_true_iff in Hy as [Hy Hy4]. apply andb_true_iff in Hy as [Hy Hy3].
  apply andb_true_iff in Hy as [Hy1 Hy2].
  apply andb_true_iff in Hm as [Hm1 Hm2].
  apply andb_true_iff in Hd as [Hd1 Hd2].
  rewrite py_int_four, !py_int_two by done.
  unfold strptime_ymd, strptime_match.
  rewrite !app_cons_s, !app_nil_l_s.
  assert (re_match ([GOpen] ++ digits 4 ++ [GClose; Lit "-"])
            (String a (String a0 (String a1 (String a2
               (String "-" (String a3 (String a4 (String "-"
                  (String a5 (String a6 EmptyString))))))))))
          = Some ([String a (String a0 (String a1 (String a2 EmptyString)))],
                  String a3 (String a4 (String "-"
                    (String a5 (String a6 EmptyString)))))) as ->.
  { unfold re_match, digits. cbn [replicate app match_items strip_prefix].
    rewrite Hy1, Hy2, Hy3, Hy4, ch_eqb_refl. reflexivity. }
  change (grp 1 [String a (String a0 (String a1 (String a2 EmptyString)))])
    with (String a (String a0 (String a1 (String a2 EmptyString)))).
  rewrite month_alts_two; [|done|done|].
  2:{ cbn [strip_prefix]. destruct (ch_eqb "-" a4) eqn:E; [|done].
      apply ch_eqb_eq in E as <-. done. }
  pose proof (digit_val_range a3 Hm1) as R3.
  pose proof (digit_val_range a4 Hm2) as R4.
  pose proof (digit_val_range a5 Hd1) as R5.
  pose proof (digit_val_range a6 Hd2) as R6.
  set (y := (1000 * digit_val a + 100 * digit_val a0 + 10 * digit_val a1
             + digit_val a2)%Z).
  set (m := (10 * digit_val a3 + digit_val a4)%Z) in *.
  set (d := (10 * digit_val a5 + digit_val a6)%Z) in *.
  pose proof (days_in_month_max y m) as Hdim.
  unfold valid_ymd.
  destruct ((1 <=? m)%Z && (m <=? 12)%Z) eqn:Em.
  2:{ apply andb_false_iff in Em.
      destruct (1 <=? y)%Z; [|done]. cbn [andb].
      destruct Em as [-> | ->]; [done|]. by rewrite andb_false_r. }
  apply andb_true_iff in Em as [Em1 Em2]. rewrite Em1, Em2.
  cbn [strip_prefix]. rewrite ch_eqb_refl.
  rewrite day_alts_two; [|done|done|by eauto].
  fold d.
  destruct ((1 <=? d)%Z && (d <=? 31)%Z) eqn:Ed.
  - apply andb_true_iff in Ed as [Ed1 Ed2]. rewrite Ed1.
    cbn [is_empty]. rewrite !py_int_two by done.
    rewrite py_int_four by done. fold y m d.
    by rewrite !andb_true_r.
  - assert ((1 <=? d)%Z && (d <=? days_in_month y m)%Z = false) as Hv.
    { apply andb_false_iff in Ed as [Ed|Ed].
      - by rewrite Ed.
      - apply Z.leb_gt in Ed. rewrite andb_false_iff. right.
        apply Z.leb_gt. lia. }
    assert ((1 <=? y)%Z && true && true && (1 <=? d)%Z
            && (d <=? days_in_month y m)%Z = false) as ->.
    { rewrite !andb_true_r, <- andb_assoc, Hv. apply andb_false_r. }
    by destruct (in_range "1" "9" a5).
Qed.

Lemma format_date_display_valid (yy mm dd : string) :
  four_digits yy = true → two_digits mm = true → two_digits dd = true →
  valid_ymd (py_int yy) (py_int mm) (py_int dd) = true →
  (1000 ≤ py_int yy)%Z →
  format_date_display (yy +:+ "-" +:+ mm +:+ "-" +:+ dd) = yy +:+ "." +:+ mm.
Proof.
  intros Hy Hm Hd Hv Hk. unfold format_date_display.
  rewrite strptime_ymd_iso, Hv by done.
  do 4 (destruct yy as [|? yy]; [done|]). destruct yy; [|done].
  do 2 (destruct mm as [|? mm]; [done|]). destruct mm; [|done].
  cbn [four_digits two_digits] in *.
  apply andb_true_iff in Hy as [Hy Hy4]. apply andb_true_iff in Hy as [Hy Hy3].
  apply andb_true_iff in Hy as [Hy1 Hy2].
  apply andb_true_iff in Hm as [Hm1 Hm2].
  rewrite py_int_four in * by done. rewrite py_int_two by done.
  by rewrite year_text_four, pad2_two.
Qed.

Lemma format_date_rss_valid (yy mm dd : string) :
  four_digits yy = true → two_digits mm = true → two_digits dd = true →
  valid_ymd (py_int yy) (py_int mm) (py_int dd) = true →
  (1000 ≤ py_int yy)%Z →
  format_date_rss (yy +:+ "-" +:+ mm +:+ "-" +:+ dd)
  = day_abbr (weekday (py_int yy) (py_int mm) (py_int dd)) +:+ ", " +:+ dd
    +:+ " " +:+ month_abbr (py_int mm) +:+ " " +:+ yy +:+ " 00:00:00 +0000".
Proof.
  intros Hy Hm Hd Hv Hk. unfold format_date_rss.
  rewrite strptime_ymd_iso, Hv by done.
  do 4 (destruct yy as [|? yy]; [done|]). destruct yy; [|done].
  do 2 (destruct dd as [|? dd]; [done|]). destruct dd; [|done].
  cbn [four_digits two_digits] in *.
  apply andb_true_iff in Hy as [Hy Hy4]. apply andb_true_iff in Hy as [Hy Hy3].
  apply andb_true_iff in Hy as [Hy1 Hy2].
  apply andb_true_iff in Hd as [Hd1 Hd2].
  rewrite py_int_four in * by done. rewrite (py_int_two a3 a4) by done.
  by rewrite year_text_four, pad2_two.
Qed.

(** X9.  A calendar date written YYYY-MM-DD with a year from 1000 on is
    shown as YYYY.MM in a page and as [Www, DD Mon YYYY 00:00:00 +0000] in
    the feed, the day of the week being the one of that date. *)
Theorem format_date_iso (yy mm dd : string) :
  four_digits yy = true → two_digits mm = true → two_digits dd = true →
  valid_ymd (py_int yy) (py_int mm) (py_int dd) = true →
  (1000 ≤ py_int yy)%Z →
  format_date_display (yy +:+ "-" +:+ mm +:+ "-" +:+ dd) = yy +:+ "." +:+ mm
  ∧ format_date_rss (yy +:+ "-" +:+ mm +:+ "-" +:+ dd)
    = day_abbr (weekday (py_int yy) (py_int mm) (py_int dd)) +:+ ", " +:+ dd
      +:+ " " +:+ month_abbr (py_int mm) +:+ " " +:+ yy +:+ " 00:00:00 +0000".
Proof.
  intros Hy Hm Hd Hv Hk. split.
  - by apply format_date_display_valid.
  - by apply format_date_rss_valid.
Qed.

Lemma format_date_iso_witness :
  format_date_display "2024-05-01" = "2024.05"
  ∧ format_date_rss "2024-05-01" = "Wed, 01 May 2024 00:00:00 +0000".
Proof.
  apply (format_date_iso "2024" "05" "01");
    [reflexivity | reflexivity | reflexivity | reflexivity | vm_compute; congruence].
Defined.

(** X10.  A text of the shape YYYY-MM-DD that is no date of the calendar
    (month 00 or above 12, day 00 or beyond the end of the month, year 0000)
    is returned unchanged by both formatters. *)
Theorem format_date_not_a_date (yy mm dd : string) :
  four_digits yy = true → two_digits mm = true → two_digits dd = true →
  valid_ymd (py_int yy) (py_int mm) (py_int dd) = false →
  format_date_display (yy +:+ "-" +:+ mm +:+ "-" +:+ dd)
  = yy +:+ "-" +:+ mm +:+ "-" +:+ dd
  ∧ format_date_rss (yy +:+ "-" +:+ mm +:+ "-" +:+ dd)
    = yy +:+ "-" +:+ mm +:+ "-" +:+ dd.
Proof.
  intros Hy Hm Hd Hv. unfold format_date_display, format_date_rss.
  by rewrite strptime_ymd_iso, Hv.
Qed.

Lemma format_date_not_a_date_witness :
  format_date_display "2023-02-29" = "2023-02-29"
  ∧ format_date_rss "2023-02-29" = "2023-02-29".
Proof.
  apply (format_date_not_a_date "2023" "02" "29"); reflexivity.
Defined.

Lemma valid_ymd_first (y m d : Z) :
  valid_ymd y m d = true → valid_ymd y m 1 = true.
Proof.
  unfold valid_ymd. intros H.
  apply andb_true_iff in H as [H _]. apply andb_true_iff in H as [H _].
  rewrite H. pose proof (days_in_month_max y m).
  cbn [andb]. apply Z.leb_le. lia.
Qed.

(** X11.  Publishing and reading back keeps the month and loses the day.
    When the page of a post shows the display form of the calendar date
    YYYY-MM-DD (year from 1000 on) in its first date paragraph, the record
    read from the page has the date YYYY-MM-01; the page rebuilt from that
    record shows the same YYYY.MM, and the feed gives the first of the month. *)
Theorem html_record_date_loses_day
    (name page b yy mm dd a : string) :
  four_digits yy = true → two_digits mm = true → two_digits dd = true →
  valid_ymd (py_int yy) (py_int mm) (py_int dd) = true →
  (1000 ≤ py_int yy)%Z →
  page = b +:+ meta_open
         +:+ format_date_display (yy +:+ "-" +:+ mm +:+ "-" +:+ dd) +:+ a →
  contains meta_open b = false →
  let r := extract_metadata_from_html (name, page) in
  date r = yy +:+ "-" +:+ mm +:+ "-01"
  ∧ format_date_display (date r)
    = format_date_display (yy +:+ "-" +:+ mm +:+ "-" +:+ dd)
  ∧ format_date_rss (date r)
    = day_abbr (weekday (py_int yy) (py_int mm) 1) +:+ ", 01 "
      +:+ month_abbr (py_int mm) +:+ " " +:+ yy +:+ " 00:00:00 +0000".
Proof.
  intros Hy Hm Hd Hv Hk P B r.
  rewrite format_date_display_valid in P by done.
  assert (date r = yy +:+ "-" +:+ mm +:+ "-01") as Hr.
  { unfold r, extract_metadata_from_html. cbn [fst snd].
    assert (re_search re_meta_date page = Some ([yy; mm], a)) as ->.
    { rewrite P, !app_assoc_s.
      apply (re_search_skip "<" ("p class=" +:+ dq +:+ "meta" +:+ dq +:+ ">"));
        [done|done|].
      by apply re_meta_date_match. }
    by destruct (re_search re_title page) as [[? ?]|],
                (re_search re_description page) as [[? ?]|]. }
  assert (valid_ymd (py_int yy) (py_int mm) (py_int "01") = true) as Hv1.
  { change (py_int "01") with 1%Z. by eapply valid_ymd_first. }
  rewrite Hr. split; [done|].
  change (yy +:+ "-" +:+ mm +:+ "-01")
    with (yy +:+ "-" +:+ mm +:+ "-" +:+ "01").
  split.
  - rewrite (format_date_display_valid yy mm "01") by done.
    by rewrite format_date_display_valid.
  - rewrite (format_date_rss_valid yy mm "01") by done.
    change (py_int "01") with 1%Z. reflexivity.
Qed.

Lemma html_record_date_loses_day_witness :
  let page := "<body>" +:+ meta_open +:+ format_date_display "2024-05-17"
              +:+ " / 3 min</p></body>" in
  let r := extract_metadata_from_html ("a.html", page) in
  date r = "2024-05-01"
  ∧ format_date_display (date r) = format_date_display "2024-05-17"
  ∧ format_date_rss (date r) = "Wed, 01 May 2024 00:00:00 +0000".
Proof.
  intros page.
  apply (html_record_date_loses_day "a.html" page "<body>" "2024" "05" "17"
           " / 3 min</p></body>");
    [reflexivity | reflexivity | reflexivity | reflexivity
    | vm_compute; congruence | reflexivity | reflexivity].
Defined.

(** ** The lists of markdown_to_html *)

Lemma list_scan_app (o : bool) (l : list string) (x : string) :
  list_scan o (l ++ [x])
  = match list_scan o l with Some o' => list_step o' x | None => None end.
Proof.
  revert o. induction l as [|y l IH]; intros o; cbn [app list_scan].
  - by destruct (list_step o x).
  - destruct (list_step o y); [apply IH|done].
Qed.

Lemma strip_by_head (p : ascii → bool) (c : ascii) (s : string) :
  p c = false → strip_by p (String c s) = String c (rstrip_by p s).
Proof.
  intros Hc. unfold strip_by. cbn [lstrip_by]. rewrite Hc.
  cbn [rstrip_by]. by rewrite Hc, andb_false_r.
Qed.

Lemma heading_not_bullet (line : string) :
  startswith "#" line = true → is_bullet line = false.
Proof.
  destruct line as [|c line]; [done|]. cbn [startswith].
  rewrite andb_true_r. intros H. apply ch_eqb_eq in H as <-.
  unfold is_bullet, py_strip. by rewrite strip_by_head.
Qed.

Lemma rule_not_bullet (line : string) :
  is_rule line = true → is_bullet line = false.
Proof.
  unfold is_rule, is_bullet. intros H.
  apply orb_true_iff in H as [H|H]; [apply orb_true_iff in H as [H|H]|];
    apply String.eqb_eq in H; by rewrite H.
Qed.

Lemma startswith_trans_head (c : ascii) (p line : string) :
  startswith (String c p) line = true → startswith (str1 c) line = true.
Proof.
  destruct line as [|x line]; [done|]. cbn [startswith str1].
  intros H. apply andb_true_iff in H as [-> _]. done.
Qed.

Lemma emit_block_inv (x : string) (st : conv_state) :
  kind_of x = Block → in_list st = false →
  lists_inv st → lists_inv (emit x st).
Proof.
  unfold lists_inv, emit. cbn [html_lines in_list]. intros Hk Hl H.
  rewrite list_scan_app, H, Hl. unfold list_step. by rewrite Hk.
Qed.

Lemma close_list_inv (line : string) (st : conv_state) :
  lists_inv st →
  lists_inv (close_list line st)
  ∧ in_list (close_list line st) = in_list st && is_bullet line.
Proof.
  unfold lists_inv, close_list. intros H.
  destruct (in_list st) eqn:Hl; cbn [andb]; [|by rewrite Hl].
  destruct (is_bullet line); cbn [negb]; [by rewrite Hl|].
  cbn [set_in_list emit html_lines in_list].
  by rewrite list_scan_app, H.
Qed.

Lemma emit_item_inv (line : string) (st : conv_state) :
  lists_inv st → lists_inv (emit_item line st).
Proof.
  unfold lists_inv, emit_item. intros H.
  destruct (in_list st) eqn:Hl; cbn [emit set_in_list html_lines in_list].
  - by rewrite list_scan_app, H, Hl.
  - by rewrite !list_scan_app, H.
Qed.

Lemma emit_image_inv (line : string) (st : conv_state) :
  in_list st = false → lists_inv st → lists_inv (emit_image line st).
Proof.
  unfold emit_image. intros Hl H.
  destruct (re_match re_image line) as [[gs ?]|]; [|done].
  by apply emit_block_inv.
Qed.

Lemma block_step_lists_inv (line : string) (rest : list string) (st : conv_state) :
  lists_inv st → lists_inv (fst (block_step line rest st)).
Proof.
  intros H. unfold block_step.
  destruct (is_fence line).
  { destruct (in_code st); cbn [fst]; [|done].
    unfold lists_inv, close_code in *. cbn [html_lines in_list].
    rewrite list_scan_app, H. by destruct (in_list st). }
  destruct (in_code st); [done|].
  destruct (close_list_inv line st H) as [H' Hl]. cbv zeta.
  revert H' Hl. generalize (close_list line st). intros st' H' Hl.
  destruct (startswith "# " line) eqn:E1; [done|].
  destruct (startswith "## " line) eqn:E2.
  { cbn [fst]. apply emit_block_inv; [done| |done].
    rewrite Hl, (heading_not_bullet line); [apply andb_false_r|].
    by apply (startswith_trans_head _ "# "). }
  destruct (startswith "### " line) eqn:E3.
  { cbn [fst]. apply emit_block_inv; [done| |done].
    rewrite Hl, (heading_not_bullet line); [apply andb_false_r|].
    by apply (startswith_trans_head _ "## "). }
  destruct (is_rule line) eqn:E4.
  { cbn [fst]. apply emit_block_inv; [done| |done].
    rewrite Hl, (rule_not_bullet line) by done. apply andb_false_r. }
  destruct (is_bullet line) eqn:E5.
  { cbn [fst]. by apply emit_item_inv. }
  rewrite andb_false_r in Hl.
  destruct (startswith "> " line); [by apply emit_block_inv|].
  destruct (bool_decide _); [by apply emit_image_inv|].
  destruct (is_empty (py_strip line)); by apply emit_block_inv.
Qed.

Lemma convert_lines_lists_inv (lines : list string) (st : conv_state) :
  lists_inv st → lists_inv (convert_lines lines st).
Proof.
  remember (length lines) as n eqn:Hn.
  assert (length lines ≤ n) as Hle by lia. clear Hn.
  revert lines st Hle. induction n as [|n IH]; intros lines st Hle Hst.
  - destruct lines; [done|simpl in Hle; lia].
  - destruct lines as [|line rest]; [done|]. simpl in Hle.
    rewrite convert_lines_step. apply IH.
    + pose proof (block_step_length line rest st). lia.
    + by apply block_step_lists_inv.
Qed.

(** X12.  The lists of the output are well formed, line by line: a [<ul>]
    is written only when no list is open, a [</ul>] only when one is, every
    list is closed at the end, items stand only inside a list, and headings,
    rules, quotes, figures, paragraphs and blank lines only outside one.
    Only a code block can come out inside a list. *)
Theorem markdown_lists_closed (md : string) :
  list_scan false (finish (convert_lines (split_char c_nl md) conv_init))
  = Some false.
Proof.
  assert (lists_inv (convert_lines (split_char c_nl md) conv_init)) as H.
  { by apply convert_lines_lists_inv. }
  unfold lists_inv in H. unfold finish.
  destruct (in_list _) eqn:Hl.
  - by rewrite list_scan_app, H.
  - by rewrite H.
Qed.

Lemma fence_not_bullet (line : string) :
  is_fence line = true → is_bullet line = false.
Proof.
  unfold is_fence. intros H. apply (startswith_trans_head _ "``") in H.
  destruct line as [|c line]; [done|]. cbn [startswith str1] in H.
  rewrite andb_true_r in H. apply ch_eqb_eq in H as <-.
  unfold is_bullet, py_strip. by rewrite strip_by_head.
Qed.

(** X13.  A code block that follows a list item without a blank line is
    written before the list is closed: the fence is looked at before the
    list, so the [<pre>] lands between the item and [</ul>]. *)
Theorem code_block_inside_list (md item : string) (code : list string)
    (f1 f2 : string) :
  split_char c_nl md = item :: f1 :: code ++ [f2] →
  is_bullet item = true →
  is_fence f1 = true → is_fence f2 = true →
  Forall (λ l, is_fence l = false) code →
  markdown_to_html md
  = join html_sep
      ["<ul>";
       "<li>" +:+ process_inline (str_drop 2 (py_strip item)) +:+ "</li>";
       pre_block code; "</ul>"].
Proof.
  intros Hmd Hb H1 H2 Hcode. unfold markdown_to_html. rewrite Hmd. f_equal.
  assert (is_fence item = false) as Hf.
  { destruct (is_fence item) eqn:E; [|done].
    apply fence_not_bullet in E. congruence. }
  rewrite convert_lines_step. unfold block_step.
  rewrite Hf. cbn [conv_init in_code]. unfold close_list. cbn [in_list andb].
  assert (∀ p, startswith (String "#" p) item = false) as Hp.
  { intros p. destruct (startswith (String "#" p) item) eqn:E; [|done].
    apply startswith_trans_head, heading_not_bullet in E. congruence. }
  assert (is_rule item = false) as Hr.
  { destruct (is_rule item) eqn:E; [|done].
    apply rule_not_bullet in E. congruence. }
  rewrite !Hp, Hr.
  rewrite Hb. cbn [fst snd].
  rewrite convert_lines_fenced; [|done|done|done|done|done].
  reflexivity.
Qed.

Lemma code_block_inside_list_witness :
  markdown_to_html ("- a" +:+ nl +:+ "```" +:+ nl +:+ "x < y" +:+ nl +:+ "```")
  = join html_sep
      ["<ul>"; "<li>a</li>"; "<pre><code>x &lt; y</code></pre>"; "</ul>"].
Proof.
  apply (code_block_inside_list _ "- a" ["x < y"] "```" "```");
    [reflexivity | reflexivity | reflexivity | reflexivity | repeat constructor].
Defined.

(** ** The title line of a body *)

Lemma split_char_not_nil (c : ascii) (s : string) : split_char c s ≠ [].
Proof.
  induction s as [|x s IH]; [done|]. cbn [split_char].
  destruct (ch_eqb x c); [done|]. by destruct (split_char c s).
Qed.

Lemma split_char_line (c : ascii) (a b : string) :
  has_char c a = false →
  split_char c (a +:+ String c b) = a :: split_char c b.
Proof.
  induction a as [|x a IH]; intros Ha.
  - rewrite app_nil_l_s. cbn [split_char]. by rewrite ch_eqb_refl.
  - cbn [has_char] in Ha. apply orb_false_iff in Ha as [Hx Ha].
    rewrite app_cons_s. cbn [split_char]. rewrite IH by done.
    by rewrite Hx.
Qed.

(** X14.  A first-level heading on the first line of a body is left out of
    the page: the output is the output for the lines after it. *)
Theorem top_heading_dropped (t rest : string) :
  has_char c_nl t = false →
  markdown_to_html ("# " +:+ t +:+ nl +:+ rest) = markdown_to_html rest.
Proof.
  intros Ht. unfold markdown_to_html, nl, str1.
  change (String c_nl EmptyString +:+ rest) with (String c_nl rest).
  rewrite <- (app_assoc_s "# " t), split_char_line.
  2:{ rewrite !app_cons_s, app_nil_l_s. exact Ht. }
  rewrite convert_lines_step. unfold block_step.
  rewrite !app_cons_s. reflexivity.
Qed.

Lemma top_heading_dropped_witness :
  markdown_to_html ("# " +:+ "Title" +:+ nl +:+ "text") = "<p>text</p>".
Proof. apply (top_heading_dropped "Title" "text"). reflexivity. Defined.

(** ** The reading time *)

Lemma round_div_mono (n n' : Z) :
  (0 ≤ n ≤ n')%Z → (round_div n 200 ≤ round_div n' 200)%Z.
Proof.
  intros H. unfold round_div.
  destruct (Z.eq_dec (n / 200)%Z (n' / 200)%Z) as [Hq|Hq].
  - rewrite <- Hq.
    assert (n mod 200 ≤ n' mod 200)%Z.
    { rewrite !Z.mod_eq by lia. rewrite <- Hq. lia. }
    destruct (2 * (n mod 200) <? 200)%Z eqn:E1, (2 * (n' mod 200) <? 200)%Z eqn:E2,
             (200 <? 2 * (n mod 200))%Z eqn:E3, (200 <? 2 * (n' mod 200))%Z eqn:E4,
             (Z.even (n / 200)%Z); lia.
  - assert (n / 200 + 1 ≤ n' / 200)%Z.
    { assert (n / 200 ≤ n' / 200)%Z by (apply Z.div_le_mono; lia). lia. }
    destruct (2 * (n mod 200) <? 200)%Z, (2 * (n' mod 200) <? 200)%Z,
             (200 <? 2 * (n mod 200))%Z, (200 <? 2 * (n' mod 200))%Z,
             (Z.even (n / 200)%Z), (Z.even (n' / 200)%Z); lia.
Qed.

Lemma split_ws_go_word (cur s : string) :
  is_empty cur = false → 1 ≤ length (split_ws_go cur s).
Proof.
  revert cur. induction s as [|c s IH]; intros cur Hc; cbn [split_ws_go].
  - rewrite Hc. simpl. lia.
  - destruct (py_isspace c).
    + rewrite Hc. simpl. lia.
    + apply IH. by destruct cur.
Qed.

Lemma split_ws_go_app (cur a b : string) :
  length (split_ws_go cur a) ≤ length (split_ws_go cur (a +:+ b)).
Proof.
  revert cur. induction a as [|c a IH]; intros cur.
  - rewrite app_nil_l_s. cbn [split_ws_go].
    destruct (is_empty cur) eqn:E; [simpl; lia|].
    by apply split_ws_go_word.
  - rewrite app_cons_s. cbn [split_ws_go].
    destruct (py_isspace c); [|apply IH].
    destruct (is_empty cur); [apply IH|].
    simpl. specialize (IH EmptyString). lia.
Qed.

(** X15.  More text never reads faster: the estimate for a text followed
    by more text is at least the estimate for the text alone. *)
Theorem reading_time_grows (a b : string) :
  (estimate_reading_time a ≤ estimate_reading_time (a +:+ b))%Z.
Proof.
  unfold estimate_reading_time, split_ws.
  pose proof (split_ws_go_app EmptyString a b) as H.
  apply Z.max_le_compat_l, round_div_mono. lia.
Qed.

(** X16.  A word count halfway between two multiples of 200 goes to the
    even number of minutes, not up: 200 k + 100 words give k minutes for an
    even k and k + 1 for an odd one (500 words 2 minutes, 700 words 4), and
    100 words give 1. *)
Theorem reading_time_tie (text : string) (k : Z) :
  Z.of_nat (length (split_ws text)) = (200 * k + 100)%Z →
  estimate_reading_time text = Z.max 1 (if Z.even k then k else k + 1)%Z.
Proof.
  intros H. unfold estimate_reading_time. rewrite H. f_equal.
  unfold round_div.
  assert ((200 * k + 100) / 200 = k)%Z as -> by (Z.to_euclidean_division_equations; lia).
  assert ((200 * k + 100) mod 200 = 100)%Z as -> by (Z.to_euclidean_division_equations; lia).
  reflexivity.
Qed.

Lemma reading_time_tie_witness :
  estimate_reading_time
    (String.concat " " (repeat ("w" : string) 500)) = 2%Z.
Proof.
  apply (reading_time_tie _ 2). vm_compute. reflexivity.
Defined.

(** ** Filling the template *)

Lemma replace_from_skip (old new m b : string) :
  replace_from old new (String.length m) (m +:+ b) = replace_from old new 0 b.
Proof.
  induction m as [|x m IH]; [by destruct b|].
  rewrite app_cons_s. exact IH.
Qed.

Lemma startswith_self (p r : string) : startswith p (p +:+ r) = true.
Proof.
  induction p as [|c p IH]; [done|].
  rewrite app_cons_s. cbn [startswith]. by rewrite ch_eqb_refl.
Qed.

Lemma replace_from_here (c : ascii) (old new r : string) :
  replace_from (String c old) new 0 (String c old +:+ r)
  = new +:+ replace_from (String c old) new 0 r.
Proof.
  rewrite app_cons_s. cbn [replace_from].
  change (String c (old +:+ r)) with (String c old +:+ r) at 1.
  rewrite (startswith_self (String c old)).
  replace (String.length (String c old) - 1) with (String.length old)
    by (cbn [String.length]; lia).
  by rewrite replace_from_skip.
Qed.

Lemma replace_from_cons_no (old new : string) (c : ascii) (s : string) :
  startswith old (String c s) = false →
  replace_from old new 0 (String c s) = String c (replace_from old new 0 s).
Proof. intros H. cbn [replace_from]. by rewrite H. Qed.

(** Text without two braces in a row is copied by a replacement of a
    placeholder, when what follows does not complete one. *)
Lemma replace_text (q new s r : string) :
  no_dbrace s = true →
  startswith (String "{" q) r = false →
  replace_from (String "{" (String "{" q)) new 0 (s +:+ r)
  = s +:+ replace_from (String "{" (String "{" q)) new 0 r.
Proof.
  intros Hs Hr. induction s as [|c s IH]; [by rewrite !app_nil_l_s|].
  cbn [no_dbrace] in Hs. apply andb_true_iff in Hs as [Hc Hs].
  rewrite !app_cons_s, replace_from_cons_no; [by rewrite IH|].
  cbn [startswith]. destruct (ch_eqb "{" c) eqn:Ec; [|done].
  cbn [andb] in *. destruct s as [|d s].
  - by rewrite app_nil_l_s.
  - rewrite app_cons_s. cbn [startswith head_is] in *.
    apply negb_true_iff in Hc. by rewrite Hc.
Qed.

Lemma template_head (x : ascii) (q : string) (segs : list segment) :
  ch_eqb x "{" = false → Forall seg_ok segs →
  startswith (String "{" (String x q)) (template_of segs) = false.
Proof.
  intros Hx. induction 1 as [|seg segs Hseg _ IH]; [done|].
  cbn [template_of]. destruct seg as [s|n]; cbn [seg_text seg_ok] in *.
  - destruct s as [|c s]; [by rewrite app_nil_l_s|].
    unfold text_ok in Hseg. apply andb_true_iff in Hseg as [_ Hc].
    cbn [head_is] in Hc. apply negb_true_iff in Hc.
    rewrite app_cons_s. cbn [startswith]. by rewrite Hc.
  - unfold hole. rewrite !app_cons_s. cbn [startswith].
    by rewrite Hx, andb_false_r.
Qed.

Lemma hole_shape (name : string) :
  name ∈ placeholders →
  ∃ x q, hole name = String "{" (String "{" (String x q)) ∧ ch_eqb x "{" = false.
Proof.
  unfold placeholders. rewrite !elem_of_cons, elem_of_nil.
  intros [->|[->|[->|[->|[->|[->|[]]]]]]]; by eexists _, _.
Qed.

(** A placeholder of another name is copied. *)
Lemma replace_other_hole (name n new r : string) :
  name ∈ placeholders → n ∈ placeholders → n ≠ name →
  replace_from (hole name) new 0 (hole n +:+ r)
  = hole n +:+ replace_from (hole name) new 0 r.
Proof.
  unfold placeholders. rewrite !elem_of_cons, !elem_of_nil.
  intros [->|[->|[->|[->|[->|[->|[]]]]]]] [->|[->|[->|[->|[->|[->|[]]]]]]] Hne;
    try done; clear Hne;
    unfold hole; repeat first [rewrite app_cons_s | rewrite app_nil_l_s];
    repeat (rewrite replace_from_cons_no by reflexivity); reflexivity.
Qed.

Lemma subst_seg_ok (name new : string) (seg : segment) :
  text_ok new = true → seg_ok seg → seg_ok (subst_seg name new seg).
Proof.
  intros Hn. destruct seg as [s|n]; [done|]. cbn [subst_seg].
  by destruct (String.eqb n name).
Qed.

(** One replacement, on a template of good pieces: the placeholders of that
    name are filled in, everything else is copied. *)
Lemma replace_template (name new : string) (segs : list segment) :
  name ∈ placeholders → Forall seg_ok segs →
  str_replace (hole name) new (template_of segs)
  = template_of (map (subst_seg name new) segs).
Proof.
  intros Hname Hsegs. unfold str_replace.
  induction Hsegs as [|seg segs Hseg Hsegs IH]; [done|].
  cbn [map template_of]. destruct seg as [s|n]; cbn [subst_seg seg_text].
  - destruct (hole_shape name Hname) as (x & q & Hh & Hx). rewrite Hh in *.
    rewrite replace_text; [by rewrite IH| |by apply template_head].
    cbn [seg_ok] in Hseg. unfold text_ok in Hseg.
    by apply andb_true_iff in Hseg as [? _].
  - destruct (String.eqb_spec n name) as [->|Hne]; cbn [seg_text].
    + destruct (hole_shape name Hname) as (x & q & Hh & Hx).
      rewrite Hh in *. by rewrite replace_from_here, IH.
    + by rewrite replace_other_hole, IH.
Qed.

Ltac solve_fill :=
  first [ assumption
        | unfold placeholders;
          repeat first [apply list_elem_of_here | apply list_elem_of_further] ].

Lemma fill_template_segs
    (segs : list segment)
    (title description slug date_display reading_time html_content : string) :
  Forall seg_ok segs →
  text_ok title = true → text_ok description = true → text_ok slug = true →
  text_ok date_display = true → text_ok reading_time = true →
  fill_template (template_of segs) title description slug date_display
    reading_time html_content
  = fill_of (page_value title description slug date_display reading_time
               html_content) segs.
Proof.
  intros Hsegs Ht Hd Hs Hdd Hr. unfold fill_template.
  change "{{title}}" with (hole "title").
  change "{{description}}" with (hole "description").
  change "{{slug}}" with (hole "slug").
  change "{{date_display}}" with (hole "date_display").
  change "{{reading_time}}" with (hole "reading_time").
  change "{{content}}" with (hole "content").
  rewrite (replace_template "title") by solve_fill.
  set (s1 := map (subst_seg "title" title) segs).
  assert (Forall seg_ok s1) as H1.
  { apply Forall_fmap. eapply Forall_impl; [exact Hsegs|].
    intros seg. by apply subst_seg_ok. }
  rewrite (replace_template "description") by solve_fill.
  set (s2 := map (subst_seg "description" description) s1).
  assert (Forall seg_ok s2) as H2.
  { apply Forall_fmap. eapply Forall_impl; [exact H1|].
    intros seg. by apply subst_seg_ok. }
  rewrite (replace_template "slug") by solve_fill.
  set (s3 := map (subst_seg "slug" slug) s2).
  assert (Forall seg_ok s3) as H3.
  { apply Forall_fmap. eapply Forall_impl; [exact H2|].
    intros seg. by apply subst_seg_ok. }
  rewrite (replace_template "date_display") by solve_fill.
  set (s4 := map (subst_seg "date_display" date_display) s3).
  assert (Forall seg_ok s4) as H4.
  { apply Forall_fmap. eapply Forall_impl; [exact H3|].
    intros seg. by apply subst_seg_ok. }
  rewrite (replace_template "reading_time") by solve_fill.
  set (s5 := map (subst_seg "reading_time" reading_time) s4).
  assert (Forall seg_ok s5) as H5.
  { apply Forall_fmap. eapply Forall_impl; [exact H4|].
    intros seg. by apply subst_seg_ok. }
  rewrite (replace_template "content") by solve_fill.
  unfold s5, s4, s3, s2, s1. clear -Hsegs.
  induction Hsegs as [|seg segs Hseg _ IH]; [done|].
  cbn [map template_of fill_of]. rewrite IH. f_equal.
  destruct seg as [s|n]; [done|]. cbn [seg_ok] in Hseg.
  unfold placeholders in Hseg. rewrite !elem_of_cons, elem_of_nil in Hseg.
  by destruct Hseg as [->|[->|[->|[->|[->|[->|[]]]]]]].
Qed.

(** ** The page of publish_post *)

Lemma digit_chr_digit (v : Z) : (0 ≤ v ≤ 9)%Z → is_digit (digit_chr v) = true.
Proof.
  intros H.
  assert (v = 0 ∨ v = 1 ∨ v = 2 ∨ v = 3 ∨ v = 4 ∨ v = 5 ∨ v = 6 ∨ v = 7
          ∨ v = 8 ∨ v = 9)%Z as Hv by lia.
  by destruct Hv as [->|[->|[->|[->|[->|[->|[->|[->|[->| ->]]]]]]]]].
Qed.

Lemma digits_of_digits (fuel : nat) (n : Z) (acc : string) :
  (0 ≤ n)%Z → all_chars is_digit acc = true →
  all_chars is_digit (digits_of fuel n acc) = true.
Proof.
  revert n acc. induction fuel as [|fuel IH]; intros n acc Hn Hacc; [done|].
  cbn [digits_of].
  assert (all_chars is_digit (String (digit_chr (n mod 10)) acc) = true) as H.
  { cbn [all_chars]. rewrite Hacc, digit_chr_digit; [done|].
    Z.to_euclidean_division_equations; lia. }
  destruct (n <? 10)%Z; [done|].
  apply IH; [|done]. Z.to_euclidean_division_equations; lia.
Qed.

(** The fuel of [digits_of] is enough: one more changes nothing. *)
Lemma digits_of_fuel (fuel : nat) (n : Z) (acc : string) :
  (0 ≤ n < Z.of_nat fuel)%Z →
  digits_of (S fuel) n acc = digits_of fuel n acc.
Proof.
  revert n acc. induction fuel as [|fuel IH]; intros n acc Hn; [lia|].
  change (digits_of (S (S fuel)) n acc)
    with (if (n <? 10)%Z then String (digit_chr (n mod 10)) acc
          else digits_of (S fuel) (n / 10) (String (digit_chr (n mod 10)) acc)).
  change (digits_of (S fuel) n acc)
    with (if (n <? 10)%Z then String (digit_chr (n mod 10)) acc
          else digits_of fuel (n / 10) (String (digit_chr (n mod 10)) acc)).
  destruct (n <? 10)%Z eqn:E; [done|]. apply Z.ltb_ge in E.
  apply IH. Z.to_euclidean_division_equations; lia.
Qed.

Lemma digits_text_ok (s : string) : all_chars is_digit s = true → text_ok s = true.
Proof.
  intros H. unfold text_ok.
  assert (no_dbrace s = true) as ->.
  { induction s as [|c s IH]; [done|]. cbn [all_chars] in H.
    apply andb_true_iff in H as [Hc Hs]. cbn [no_dbrace].
    rewrite IH by done.
    destruct (ch_eqb "{" c) eqn:E; [|done].
    apply ch_eqb_eq in E as <-. done. }
  destruct s as [|c s]; [done|]. cbn [all_chars head_is] in *.
  apply andb_true_iff in H as [Hc _].
  destruct (ch_eqb "{" c) eqn:E; [|done].
  apply ch_eqb_eq in E as <-. done.
Qed.

Lemma reading_time_text_ok (text : string) :
  text_ok (py_str (estimate_reading_time text)) = true.
Proof.
  apply digits_text_ok. unfold py_str.
  assert (1 ≤ estimate_reading_time text)%Z as H.
  { unfold estimate_reading_time. lia. }
  assert ((estimate_reading_time text <? 0)%Z = false) as ->
    by (apply Z.ltb_ge; lia).
  apply digits_of_digits; [lia|done].
Qed.

(** X17.  The page of a post is the template with its placeholders filled
    in.  For a template made of text without [{{] and of the six
    placeholders, and a title, a description, a slug and a displayed date
    without [{{], the file written is [slug.html] and its text is the
    template with every placeholder replaced by its value; the converted
    body is inserted as it is. *)
Theorem publish_fills_template (segs : list segment) (today : string)
    (md_file : entry) :
  Forall seg_ok segs →
  text_ok (info_title (publish_post today md_file)) = true →
  text_ok (info_description (publish_post today md_file)) = true →
  text_ok (info_slug (publish_post today md_file)) = true →
  text_ok (format_date_display (info_date (publish_post today md_file))) = true →
  publish_output (Some (template_of segs)) today md_file
  = Some (info_slug (publish_post today md_file) +:+ ".html",
          fill_of
            (page_value
               (info_title (publish_post today md_file))
               (info_description (publish_post today md_file))
               (info_slug (publish_post today md_file))
               (format_date_display (info_date (publish_post today md_file)))
               (py_str (estimate_reading_time
                          (snd (parse_frontmatter (snd md_file)))))
               (markdown_to_html (snd (parse_frontmatter (snd md_file)))))
            segs).
Proof.
  intros Hsegs Ht Hd Hs Hdd. unfold publish_output. cbv zeta.
  rewrite fill_template_segs; try done.
  apply reading_time_text_ok.
Qed.

Lemma publish_fills_template_witness :
  publish_output
    (Some ("<title>{{title}} / sotoalt</title><style>p{margin:0}</style>"
           +:+ "<p class=meta>{{date_display}} / {{reading_time}} min</p>"
           +:+ "{{content}}"))
    "2024-06-01"
    ("2024-05-01-hello.md",
     "---" +:+ nl +:+ "title: Hello {you}" +:+ nl +:+ "date: 2024-05-01" +:+ nl
     +:+ "---" +:+ nl +:+ "some {{title}} text")
  = Some ("hello.html",
          "<title>Hello {you} / sotoalt</title><style>p{margin:0}</style>"
          +:+ "<p class=meta>2024.05 / 1 min</p>"
          +:+ "<p>some {{title}} text</p>").
Proof.
  apply (publish_fills_template
           [Text "<title>"; Hole "title";
            Text " / sotoalt</title><style>p{margin:0}</style><p class=meta>";
            Hole "date_display"; Text " / "; Hole "reading_time";
            Text " min</p>"; Hole "content"]);
    [ repeat constructor; solve_fill
    | reflexivity | reflexivity | reflexivity | reflexivity ].
Defined.

(** ** The items of the feed *)

Lemma count_plain (sep' x y : string) :
  has_char c_lt x = false →
  count_from (String "<" sep') 0 (x +:+ y) = count_from (String "<" sep') 0 y.
Proof.
  intros Hx. induction x as [|c x IH]; [by rewrite app_nil_l_s|].
  cbn [has_char] in Hx. apply orb_false_iff in Hx as [Hc Hx].
  rewrite app_cons_s. cbn [count_from startswith].
  unfold c_lt in Hc. rewrite (ch_eqb_sym "<" c), Hc. cbn [andb]. by apply IH.
Qed.

Lemma count_cons_no (sep : string) (c : ascii) (s : string) :
  startswith sep (String c s) = false →
  count_from sep 0 (String c s) = count_from sep 0 s.
Proof. intros H. cbn [count_from]. by rewrite H. Qed.

Lemma count_item_here (r : string) :
  count_from "<item>" 0
    (String "<" (String "i" (String "t" (String "e" (String "m" (String ">" r))))))
  = S (count_from "<item>" 0 r).
Proof. reflexivity. Qed.

Ltac count_items :=
  repeat first
    [ rewrite app_cons_s | rewrite app_nil_l_s | rewrite app_assoc_s ];
  repeat first
    [ rewrite count_item_here
    | rewrite count_cons_no by reflexivity
    | rewrite count_plain by first [assumption | apply html_escape_no_lt] ].

Lemma count_rss_item (p : post) (r : string) :
  feed_safe p →
  count_from "<item>" 0 (rss_item p +:+ r) = S (count_from "<item>" 0 r).
Proof.
  intros [Hs Hd]. unfold rss_item, SITE_URL, nl, str1.
  count_items. reflexivity.
Qed.

Lemma count_rss_items (l : list post) (r : string) :
  Forall feed_safe l →
  count_from "<item>" 0 (join nl (map rss_item l) +:+ r)
  = length l + count_from "<item>" 0 r.
Proof.
  induction 1 as [|p l Hp Hl IH]; [by rewrite app_nil_l_s|].
  destruct l as [|q l].
  - cbn [map join length]. by rewrite count_rss_item.
  - change (join nl (map rss_item (p :: q :: l)))
      with (rss_item p +:+ nl +:+ join nl (map rss_item (q :: l))).
    rewrite !app_assoc_s, count_rss_item by done.
    rewrite (count_plain _ nl) by done. rewrite IH. done.
Qed.

(** X18.  The feed holds one item for each of the first twenty posts and no
    other: whatever the titles and the descriptions contain, the text
    [<item>] occurs as many times as there are posts, and at most 20 times.
    (The slug and the date are written as they are, so this asks that they
    bring no opening angle.) *)
Theorem feed_item_count (now : string) (posts : list post) :
  Forall feed_safe posts → has_char c_lt now = false →
  str_count "<item>" (generate_rss now posts) = min 20 (length posts).
Proof.
  intros Hposts Hnow. unfold str_count, generate_rss.
  set (items := map rss_item (take 20 posts)).
  assert (∀ r, count_from "<item>" 0 (join nl items +:+ r)
               = min 20 (length posts) + count_from "<item>" 0 r) as Hitems.
  { intros r. unfold items. rewrite count_rss_items by (by apply Forall_take).
    by rewrite length_take. }
  unfold SITE_URL, SITE_TITLE, SITE_DESCRIPTION, dq, nl, str1 in *.
  repeat first
    [ rewrite app_cons_s | rewrite app_nil_l_s | rewrite app_assoc_s ].
  repeat first
    [ rewrite count_cons_no by reflexivity
    | rewrite (count_plain _ now) by assumption ].
  rewrite Hitems. 
  repeat rewrite count_cons_no by reflexivity. simpl. lia.
Qed.

Lemma feed_item_count_witness :
  let p := {| title := "<item> & more"; date := "2024-05-01";
              description := "<item>"; slug := "a"; file := "a.md";
              body := None; src := Markdown |} in
  str_count "<item>" (generate_rss "Wed, 01 May 2024 10:00:00 +0000" (repeat p 21))
  = 20.
Proof.
  intros p.
  apply (feed_item_count "Wed, 01 May 2024 10:00:00 +0000" (repeat p 21)).
  - cbn [repeat]. repeat (constructor; [split; reflexivity|]). constructor.
  - reflexivity.
Defined.

(** ** The pages of a rebuild *)

Lemma read_text_elem (dir : list entry) (e : entry) :
  NoDup (fst <$> dir) → e ∈ dir → read_text dir (fst e) = Some (snd e).
Proof.
  induction dir as [|x dir IH]; intros Hnd He; [by apply elem_of_nil in He|].
  rewrite fmap_cons in Hnd. apply NoDup_cons in Hnd as [Hx Hnd].
  cbn [read_text]. apply elem_of_cons in He as [->|He].
  - by rewrite String.eqb_refl.
  - destruct (String.eqb_spec (fst x) (fst e)) as [Heq|_]; [|by apply IH].
    exfalso. apply Hx. rewrite Heq. by apply list_elem_of_fmap_2.
Qed.

Lemma md_post_file (e : entry) : file (md_post e) = fst e.
Proof. unfold md_post. by destruct (parse_frontmatter (snd e)). Qed.

Lemma filter_all {A : Type} (P : A → Prop) `{∀ x, Decision (P x)} (l : list A) :
  Forall P l → filter P l = l.
Proof.
  induction 1 as [|x l Hx _ IH]; [done|].
  rewrite filter_cons_True by done. by rewrite IH.
Qed.

Lemma filter_none {A : Type} (P : A → Prop) `{∀ x, Decision (P x)} (l : list A) :
  Forall (λ x, ¬ P x) l → filter P l = [].
Proof.
  induction 1 as [|x l Hx _ IH]; [done|].
  by rewrite filter_cons_False.
Qed.

Lemma StronglySorted_filter {A : Type} (R : A → A → Prop) (P : A → Prop)
    `{∀ x, Decision (P x)} (l : list A) :
  StronglySorted R l → StronglySorted R (filter P l).
Proof.
  induction 1 as [|x l Hl IH Hx]; [constructor|].
  destruct (decide (P x)).
  - rewrite filter_cons_True by done. constructor; [done|].
    apply Forall_forall. intros y Hy. apply list_elem_of_filter in Hy as [_ Hy].
    by eapply Forall_forall in Hx.
  - by rewrite filter_cons_False.
Qed.

Lemma StronglySorted_fmap_inv {A B : Type} (R : B → B → Prop) (f : A → B)
    (l : list A) :
  StronglySorted R (f <$> l) → StronglySorted (λ a b, R (f a) (f b)) l.
Proof.
  induction l as [|x l IH]; [constructor|].
  rewrite fmap_cons. intros H. apply StronglySorted_inv in H as [Hl Hx].
  constructor; [by apply IH|].
  apply Forall_forall. intros y Hy.
  eapply Forall_forall in Hx; [exact Hx|]. by apply list_elem_of_fmap_2.
Qed.

Lemma Permutation_fmap_inv {A B : Type} (f : A → B) (k : list B) (l : list A) :
  k ≡ₚ f <$> l → ∃ l', l' ≡ₚ l ∧ k = f <$> l'.
Proof.
  intros H. apply (Permutation_map_inv f l) in H as (l' & -> & Hl').
  exists l'. split; [by symmetry|done].
Qed.

(** The markdown records of the post list are the records of the markdown
    files, in the order of the list. *)
Lemma markdown_posts_files (posts_dir thoughts_dir : option (list entry)) :
  ∃ es, es ≡ₚ dir_files ".md" posts_dir
    ∧ filter (λ p, src p = Markdown) (get_all_posts posts_dir thoughts_dir)
      = md_post <$> es
    ∧ StronglySorted (λ a b, date_ge (md_post a) (md_post b)) es.
Proof.
  destruct (scan_posts_split posts_dir thoughts_dir) as (hs & Hs & Hsrc & _).
  assert (filter (λ p, src p = Markdown) (get_all_posts posts_dir thoughts_dir)
          ≡ₚ md_post <$> dir_files ".md" posts_dir) as Hperm.
  { unfold get_all_posts. rewrite sort_by_date_desc_perm, Hs, filter_app.
    rewrite filter_all, filter_none, app_nil_r; [done| |].
    - eapply Forall_impl; [exact Hsrc|]. by intros p ->.
    - apply Forall_fmap, Forall_forall. intros e _. apply md_post_src. }
  apply Permutation_fmap_inv in Hperm as (es & Hes & Heq).
  exists es. split; [done|]. split; [done|].
  apply StronglySorted_fmap_inv. rewrite <- Heq.
  apply StronglySorted_filter, sort_by_date_desc_sorted.
Qed.

Lemma publish_output_page (template today : string) (e : entry) :
  publish_output (Some template) today e = Some (page_of template today e).
Proof. reflexivity. Qed.

Lemma page_of_name (template today : string) (e : entry) :
  fst (page_of template today e) = get_slug_from_filename (fst e) +:+ ".html".
Proof.
  unfold page_of, publish_output, publish_post. cbn [default fst].
  by destruct (parse_frontmatter (snd e)).
Qed.

Lemma rebuild_pages_files (template today : string) (pd td : list entry) :
  NoDup (fst <$> pd) →
  ∃ es, es ≡ₚ glob ".md" pd
    ∧ StronglySorted (λ a b, date_ge (md_post a) (md_post b)) es
    ∧ rebuild_pages (Some template) today (Some pd) (Some td)
      = Some (page_of template today <$> es).
Proof.
  intros Hnd.
  destruct (markdown_posts_files (Some pd) (Some td)) as (es & Hes & Heq & Hs).
  exists es. split; [done|]. split; [done|].
  unfold rebuild_pages. cbv zeta. rewrite Heq. unfold default.
  apply mapM_Some_2. apply Forall2_fmap_l, Forall2_fmap_r.
  apply Forall_Forall2_diag, Forall_forall. intros e He.
  unfold compose, id. cbv beta.
  rewrite md_post_file, read_text_elem; [done|done|].
  rewrite Hes in He. cbn [dir_files] in He. unfold glob in He.
  by apply list_elem_of_filter in He as [_ He].
Qed.

(** Without a thoughts directory the first page cannot be written. *)
Lemma rebuild_pages_no_directory (template today : string) (pd : list entry) :
  NoDup (fst <$> pd) → glob ".md" pd ≠ [] →
  rebuild_pages (Some template) today (Some pd) None = None.
Proof.
  intros Hnd Hne.
  destruct (markdown_posts_files (Some pd) None) as (es & Hes & Heq & _).
  unfold rebuild_pages. cbv zeta. rewrite Heq. unfold default.
  destruct es as [|e es].
  { exfalso. apply Hne. cbn [dir_files] in Hes.
    by apply Permutation_nil_l in Hes. }
  apply mapM_None_2. rewrite fmap_cons. apply Exists_cons. left.
  unfold id. rewrite md_post_file, read_text_elem; [done|done|].
  assert (e ∈ glob ".md" pd) as He.
  { cbn [dir_files] in Hes. rewrite <- Hes. apply list_elem_of_here. }
  unfold glob in He. by apply list_elem_of_filter in He as [_ He].
Qed.

(** X19.  A rebuild publishes every markdown file of the posts directory
    once, the newest first, and nothing else: with the template and the
    thoughts directory in place and distinct file names, the pages written
    are the pages of the markdown files in the order of the post list (by
    date, descending); pages that have no markdown source are not written.
    Without the thoughts directory nothing is written: the first write
    fails and the program stops. *)
Theorem rebuild_publishes_each_once (template today : string)
    (pd td : list entry) :
  NoDup (fst <$> pd) →
  (∃ es, es ≡ₚ glob ".md" pd
     ∧ StronglySorted (λ a b, date_ge (md_post a) (md_post b)) es
     ∧ rebuild_pages (Some template) today (Some pd) (Some td)
       = Some (page_of template today <$> es)
     ∧ Some <$> (page_of template today <$> es)
       = publish_output (Some template) today <$> es)
  ∧ (glob ".md" pd ≠ [] →
     rebuild_pages (Some template) today (Some pd) None = None).
Proof.
  intros Hnd. split; [|by apply rebuild_pages_no_directory].
  destruct (rebuild_pages_files template today pd td Hnd)
    as (es & Hes & Hs & Heq).
  exists es. repeat split; try done.
  rewrite <- list_fmap_compose. by apply list_fmap_ext.
Qed.

Lemma rebuild_publishes_each_once_witness :
  (∃ es, es ≡ₚ glob ".md" [("2023-01-01-a.md", "old"); ("b.md", "new");
                           ("notes.txt", "x")]
     ∧ StronglySorted (λ a b, date_ge (md_post a) (md_post b)) es
     ∧ rebuild_pages (Some "{{content}}") "2024-06-01"
         (Some [("2023-01-01-a.md", "old"); ("b.md", "new"); ("notes.txt", "x")])
         (Some [("c.html", "page")])
       = Some (page_of "{{content}}" "2024-06-01" <$> es)
     ∧ Some <$> (page_of "{{content}}" "2024-06-01" <$> es)
       = publish_output (Some "{{content}}") "2024-06-01" <$> es)
  ∧ (glob ".md" [("2023-01-01-a.md", "old"); ("b.md", "new"); ("notes.txt", "x")]
     ≠ [] →
     rebuild_pages (Some "{{content}}") "2024-06-01"
       (Some [("2023-01-01-a.md", "old"); ("b.md", "new"); ("notes.txt", "x")])
       None = None).
Proof.
  apply (rebuild_publishes_each_once "{{content}}" "2024-06-01"
           [("2023-01-01-a.md", "old"); ("b.md", "new"); ("notes.txt", "x")]
           [("c.html", "page")]).
  apply (bool_decide_unpack _). vm_compute. reflexivity.
Defined.

(** ** Two markdown files with one slug *)

Lemma ltb_not_le (a b : string) : String.ltb a b = true → ¬ String.le b a.
Proof.
  unfold String.ltb, String.le, String.leb.
  rewrite (String.compare_antisym a b).
  destruct (String.compare b a); cbn; intros; congruence.
Qed.

Lemma app_inv_tail_s (a b c : string) : a +:+ c = b +:+ c → a = b.
Proof.
  revert b. induction a as [|x a IH]; intros b H.
  - destruct b as [|y b]; [done|]. exfalso.
    apply (f_equal String.length) in H.
    rewrite app_nil_l_s, app_cons_s in H. cbn [String.length] in H.
    rewrite app_length_s in H. lia.
  - destruct b as [|y b].
    + exfalso. apply (f_equal String.length) in H.
      rewrite app_nil_l_s, app_cons_s in H. cbn [String.length] in H.
      rewrite app_length_s in H. lia.
    + rewrite !app_cons_s in H. injection H as -> H. f_equal. by apply IH.
Qed.

(** X20.  Two markdown files with the same slug are both published, to the
    same file, and the older one is written last: after a rebuild (template
    and thoughts directory in place) the page of the slug is the page of the
    file with the smaller date. *)
Theorem rebuild_older_page_wins (template today : string) (pd td : list entry)
    (e1 e2 : entry) (s : string) :
  NoDup (fst <$> pd) →
  e1 ∈ glob ".md" pd → e2 ∈ glob ".md" pd →
  get_slug_from_filename (fst e1) = s →
  get_slug_from_filename (fst e2) = s →
  String.ltb (date (md_post e1)) (date (md_post e2)) = true →
  (∀ e, e ∈ glob ".md" pd → get_slug_from_filename (fst e) = s →
        e = e1 ∨ e = e2) →
  ∃ ws, rebuild_pages (Some template) today (Some pd) (Some td) = Some ws
    ∧ page_of template today e1 ∈ ws ∧ page_of template today e2 ∈ ws
    ∧ fst (page_of template today e1) = s +:+ ".html"
    ∧ fst (page_of template today e2) = s +:+ ".html"
    ∧ last (filter (λ w, fst w = s +:+ ".html") ws)
      = Some (page_of template today e1).
Proof.
  intros Hnd H1 H2 Hs1 Hs2 Hlt Honly.
  destruct (rebuild_pages_files template today pd td Hnd)
    as (es & Hes & Hsorted & Heq).
  exists (page_of template today <$> es). split; [done|].
  split; [apply list_elem_of_fmap_2; by rewrite Hes|].
  split; [apply list_elem_of_fmap_2; by rewrite Hes|].
  split; [by rewrite page_of_name, Hs1|].
  split; [by rewrite page_of_name, Hs2|].
  assert (e1 ∈ es) as Hin by (by rewrite Hes).
  apply list_elem_of_split_r in Hin as (l1 & l2 & -> & Hnot).
  rewrite fmap_app, fmap_cons, filter_app, filter_cons_True
    by (by rewrite page_of_name, Hs1).
  rewrite (filter_none _ (page_of template today <$> l2)), last_snoc; [done|].
  apply Forall_fmap, Forall_forall. intros e He. unfold compose. cbv beta.
  rewrite page_of_name. intros Hk. apply app_inv_tail_s in Hk.
  destruct (Honly e) as [->| ->]; [|done|done|].
  - rewrite <- Hes. apply elem_of_app. right. by apply elem_of_cons; right.
  - apply StronglySorted_app_1_r, StronglySorted_inv in Hsorted as [_ Hge].
    eapply Forall_forall in Hge; [|exact He].
    by apply ltb_not_le in Hlt.
Qed.

Lemma rebuild_older_page_wins_witness :
  let pd := [("2023-01-01-a.md", "old"); ("2024-01-01-a.md", "new")] in
  ∃ ws, rebuild_pages (Some "{{content}}") "2024-06-01" (Some pd)
          (Some [("a.html", "<p>stale</p>")]) = Some ws
    ∧ page_of "{{content}}" "2024-06-01" ("2023-01-01-a.md", "old") ∈ ws
    ∧ page_of "{{content}}" "2024-06-01" ("2024-01-01-a.md", "new") ∈ ws
    ∧ fst (page_of "{{content}}" "2024-06-01" ("2023-01-01-a.md", "old"))
      = "a" +:+ ".html"
    ∧ fst (page_of "{{content}}" "2024-06-01" ("2024-01-01-a.md", "new"))
      = "a" +:+ ".html"
    ∧ last (filter (λ w, fst w = "a" +:+ ".html") ws)
      = Some ("a.html", "<p>old</p>").
Proof.
  intros pd.
  apply (rebuild_older_page_wins "{{content}}" "2024-06-01" pd
           [("a.html", "<p>stale</p>")]
           ("2023-01-01-a.md", "old") ("2024-01-01-a.md", "new") "a").
  - apply (bool_decide_unpack _). vm_compute. reflexivity.
  - apply (bool_decide_unpack _). vm_compute. reflexivity.
  - apply (bool_decide_unpack _). vm_compute. reflexivity.
  - reflexivity.
  - reflexivity.
  - reflexivity.
  - intros e He Hs. apply list_elem_of_filter in He as [_ He].
    apply elem_of_cons in He as [->|He]; [by left|].
    apply list_elem_of_singleton in He as ->. by right.
Defined.

(** ** Plain text and emphasis in process_inline *)

Lemma plain_text_inv (s : string) :
  plain_text s = true →
  has_char c_tick s = false ∧ has_char c_star s = false
  ∧ has_char c_under s = false ∧ no_ddash s = true
  ∧ has_char c_lbrack s = false.
Proof.
  unfold plain_text. intros [H Hb]%andb_true_iff.
  apply no_markup_inv in H as (? & ? & ? & ?).
  apply negb_true_iff in Hb. done.
Qed.

Lemma re_sub_quiet (m : ascii) (l : string) (its : regex)
    (repl : list string → string) (x : string) :
  has_char m x = false → re_sub (Lit (String m l) :: its) repl x = x.
Proof.
  intros H. rewrite <- (app_nil_r_s x) at 1.
  rewrite re_sub_no_trigger by done. by rewrite app_nil_r_s.
Qed.

Lemma replace_ddash_none (new x : string) :
  no_ddash x = true → str_replace "--" new x = x.
Proof.
  intros H. rewrite <- (app_nil_r_s x) at 1.
  rewrite replace_ddash_prefix; [by rewrite app_nil_r_s|done|by right].
Qed.

Lemma re_sub_code_none (x : string) :
  has_char c_tick x = false → re_sub re_code (wrap_tag "code") x = x.
Proof. apply re_sub_quiet. Qed.

Lemma re_sub_bold_star_none (x : string) :
  has_char c_star x = false → re_sub re_bold_star (wrap_tag "strong") x = x.
Proof. apply re_sub_quiet. Qed.

Lemma re_sub_bold_under_none (x : string) :
  has_char c_under x = false → re_sub re_bold_under (wrap_tag "strong") x = x.
Proof. apply re_sub_quiet. Qed.

Lemma re_sub_em_star_none (x : string) :
  has_char c_star x = false → re_sub re_em_star (wrap_tag "em") x = x.
Proof. apply re_sub_quiet. Qed.

Lemma re_sub_em_under_none (x : string) :
  has_char c_under x = false → re_sub re_em_under (wrap_tag "em") x = x.
Proof. apply re_sub_quiet. Qed.

Lemma re_sub_link_none (x : string) :
  has_char c_lbrack x = false → re_sub re_link link_repl x = x.
Proof. apply re_sub_quiet. Qed.

(** X21.  Text without a marker (no backtick, asterisk, underscore, opening
    bracket, double dash) is HTML-escaped and nothing else. *)
Theorem plain_text_only_escaped (s : string) :
  plain_text s = true → process_inline s = html_escape s.
Proof.
  intros (H1 & H2 & H3 & H4 & H5)%plain_text_inv. unfold process_inline.
  rewrite re_sub_code_none by (by rewrite has_char_escape).
  rewrite re_sub_bold_star_none by (by rewrite has_char_escape).
  rewrite re_sub_bold_under_none by (by rewrite has_char_escape).
  rewrite re_sub_em_star_none by (by rewrite has_char_escape).
  rewrite re_sub_em_under_none by (by rewrite has_char_escape).
  rewrite re_sub_link_none by (by rewrite has_char_escape).
  apply replace_ddash_none. by apply no_ddash_escape.
Qed.

Lemma plain_text_only_escaped_witness :
  process_inline "a < b & c - d" = "a &lt; b &amp; c - d".
Proof. apply (plain_text_only_escaped "a < b & c - d"). reflexivity. Defined.

(** Where the literal of a pattern does not stand, the character is copied. *)
Lemma re_sub_lit_fail (l : string) (its : regex) (repl : list string → string)
    (c : ascii) (s : string) :
  strip_prefix l (String c s) = None →
  re_sub (Lit l :: its) repl (String c s)
  = String c (re_sub (Lit l :: its) repl s).
Proof.
  intros H. unfold re_sub. cbn [sub_from re_match match_items]. by rewrite H.
Qed.

Lemma re_em_under_match (b rest : string) :
  is_empty b = false → has_char c_under b = false →
  re_match re_em_under ("_" +:+ b +:+ "_" +:+ rest) = Some ([b], rest).
Proof.
  intros Hb Hu. unfold re_match, re_em_under.
  rewrite match_items_lit, match_items_open.
  apply plus_run; [done|by apply all_not_char|done|].
  rewrite match_items_close, match_items_lit. reflexivity.
Qed.

Lemma head_not_under (s : string) :
  has_char c_under s = false → head_is (ch_eqb c_under) s = false.
Proof.
  destruct s as [|x s]; [done|]. cbn [has_char head_is].
  intros [H _]%orb_false_iff. by rewrite ch_eqb_sym.
Qed.

(** The passes after the code pass, on text with one pair of underscores. *)
Lemma emphasis_passes (a b c : string) :
  has_char c_star a = false → has_char c_star b = false → has_char c_star c = false →
  has_char c_under a = false → has_char c_under b = false →
  has_char c_under c = false →
  has_char c_lbrack a = false → has_char c_lbrack b = false →
  has_char c_lbrack c = false →
  no_ddash a = true → no_ddash b = true → no_ddash c = true →
  is_empty b = false →
  str_replace "--" "&mdash;"
    (re_sub re_link link_repl
       (re_sub re_em_under (wrap_tag "em")
          (re_sub re_em_star (wrap_tag "em")
             (re_sub re_bold_under (wrap_tag "strong")
                (re_sub re_bold_star (wrap_tag "strong")
                   (a +:+ "_" +:+ b +:+ "_" +:+ c))))))
  = a +:+ "<em>" +:+ b +:+ "</em>" +:+ c.
Proof.
  intros A2 B2 C2 A3 B3 C3 A5 B5 C5 A4 B4 C4 Hb.
  assert (has_char c_star (a +:+ "_" +:+ b +:+ "_" +:+ c) = false) as Hstar.
  { by rewrite !has_char_app, A2, B2, C2. }
  rewrite re_sub_bold_star_none by done.
  (* the bold pass finds no two underscores in a row *)
  assert (re_sub re_bold_under (wrap_tag "strong") (a +:+ "_" +:+ b +:+ "_" +:+ c)
          = a +:+ "_" +:+ b +:+ "_" +:+ c) as ->.
  { rewrite re_sub_bold_under_quiet by done. unfold re_bold_under.
    rewrite app_cons_s, app_nil_l_s, re_sub_lit_fail.
    2:{ destruct b as [|x b']; [done|]. rewrite app_cons_s.
        cbn [strip_prefix has_char] in *. rewrite ch_eqb_refl.
        apply orb_false_iff in B3 as [E _]. unfold c_under in E.
        by rewrite (ch_eqb_sym "_" x), E. }
    fold re_bold_under. rewrite re_sub_bold_under_quiet by done.
    unfold re_bold_under.
    rewrite app_cons_s, app_nil_l_s, re_sub_lit_fail.
    2:{ destruct c as [|x c']; [done|].
        cbn [strip_prefix has_char] in *. rewrite ch_eqb_refl.
        apply orb_false_iff in C3 as [E _]. unfold c_under in E.
        by rewrite (ch_eqb_sym "_" x), E. }
    fold re_bold_under. by rewrite re_sub_bold_under_none. }
  rewrite re_sub_em_star_none by done.
  (* the italic pass *)
  assert (re_sub re_em_under (wrap_tag "em") (a +:+ "_" +:+ b +:+ "_" +:+ c)
          = a +:+ "<em>" +:+ b +:+ "</em>" +:+ c) as ->.
  { rewrite re_sub_em_under_quiet by done.
    assert ("_" +:+ b +:+ "_" +:+ c = ("_" +:+ b +:+ "_") +:+ c) as E
      by (by rewrite !app_assoc_s).
    pose proof (re_em_under_match b c Hb B3) as Hm. rewrite E in *.
    rewrite (re_sub_at_match re_em_under _ _ _ [b]) by done.
    rewrite re_sub_em_under_none by done.
    unfold wrap_tag. change (grp 1 [b]) with b.
    by rewrite !app_assoc_s. }
  (* links and dashes *)
  rewrite re_sub_link_none by (by rewrite !has_char_app, A5, B5, C5).
  apply replace_ddash_none.
  apply no_ddash_app; [done| |by right].
  apply (no_ddash_app "<em>"); [done| |by left].
  apply no_ddash_app; [done| |by right].
  by apply (no_ddash_app "</em>"); [done| |left].
Qed.

(** X22.  In text that is plain otherwise, a pair of underscores makes
    emphasis wherever it stands, inside a word too: [a_b_c] comes out as
    [a<em>b</em>c] (so [snake_case_name] is [snake<em>case</em>name]). *)
Theorem underscores_emphasis (a b c : string) :
  plain_text a = true → plain_text b = true → plain_text c = true →
  is_empty b = false →
  process_inline (a +:+ "_" +:+ b +:+ "_" +:+ c)
  = html_escape a +:+ "<em>" +:+ html_escape b +:+ "</em>" +:+ html_escape c.
Proof.
  intros (A1 & A2 & A3 & A4 & A5)%plain_text_inv
         (B1 & B2 & B3 & B4 & B5)%plain_text_inv
         (C1 & C2 & C3 & C4 & C5)%plain_text_inv Hb.
  unfold process_inline. rewrite !html_escape_app.
  change (html_escape "_") with "_".
  rewrite re_sub_code_none.
  2:{ by rewrite !has_char_app, !has_char_escape, A1, B1, C1. }
  apply emphasis_passes;
    first [ by rewrite has_char_escape | by apply no_ddash_escape
          | by rewrite is_empty_escape ].
Qed.

Lemma underscores_emphasis_witness :
  process_inline "snake_case_name" = "snake<em>case</em>name".
Proof.
  apply (underscores_emphasis "snake" "case" "name"); reflexivity.
Defined.

Lemma re_code_match (x rest : string) :
  is_empty x = false → has_char c_tick x = false →
  re_match re_code ("`" +:+ x +:+ "`" +:+ rest) = Some ([x], rest).
Proof.
  intros Hx Ht. unfold re_match, re_code.
  rewrite match_items_lit, match_items_open.
  apply plus_run; [done|by apply all_not_char|done|].
  rewrite match_items_close, match_items_lit. reflexivity.
Qed.

(** X23.  A code span does not protect its text from the later passes: a
    pair of underscores between backticks becomes emphasis inside the
    [<code>] element. *)
Theorem code_span_not_protected (a b c : string) :
  plain_text a = true → plain_text b = true → plain_text c = true →
  is_empty b = false →
  process_inline ("`" +:+ a +:+ "_" +:+ b +:+ "_" +:+ c +:+ "`")
  = "<code>" +:+ html_escape a +:+ "<em>" +:+ html_escape b +:+ "</em>"
    +:+ html_escape c +:+ "</code>".
Proof.
  intros (A1 & A2 & A3 & A4 & A5)%plain_text_inv
         (B1 & B2 & B3 & B4 & B5)%plain_text_inv
         (C1 & C2 & C3 & C4 & C5)%plain_text_inv Hb.
  unfold process_inline. rewrite !html_escape_app.
  change (html_escape "_") with "_". change (html_escape "`") with "`".
  set (a' := html_escape a). set (b' := html_escape b). set (c' := html_escape c).
  assert (is_empty b' = false) as Hb' by (unfold b'; by rewrite is_empty_escape).
  assert (re_sub re_code (wrap_tag "code")
            ("`" +:+ a' +:+ "_" +:+ b' +:+ "_" +:+ c' +:+ "`")
          = ("<code>" +:+ a') +:+ "_" +:+ b' +:+ "_" +:+ c' +:+ "</code>") as ->.
  { pose proof (re_code_match (a' +:+ "_" +:+ b' +:+ "_" +:+ c') EmptyString) as Hm.
    rewrite !app_assoc_s, app_nil_r_s in Hm.
    assert ("`" +:+ a' +:+ "_" +:+ b' +:+ "_" +:+ c' +:+ "`"
            = ("`" +:+ a' +:+ "_" +:+ b' +:+ "_" +:+ c' +:+ "`") +:+ EmptyString) as E
      by (by rewrite app_nil_r_s).
    rewrite E.
    rewrite (re_sub_at_match re_code _ _ _ [a' +:+ "_" +:+ b' +:+ "_" +:+ c']);
      [|done|].
    - unfold wrap_tag.
      change (grp 1 [a' +:+ "_" +:+ b' +:+ "_" +:+ c'])
        with (a' +:+ "_" +:+ b' +:+ "_" +:+ c').
      change (re_sub re_code (wrap_tag "code") EmptyString) with EmptyString.
      by rewrite !app_assoc_s, app_nil_r_s.
    - rewrite app_nil_r_s. apply Hm.
      + rewrite !is_empty_app, Hb'. cbn. by rewrite andb_false_r.
      + unfold a', b', c'. by rewrite !has_char_app, !has_char_escape, A1, B1, C1. }
  rewrite emphasis_passes; [by rewrite !app_assoc_s|..]; try done;
    unfold a', b', c';
    try (by rewrite ?has_char_app, ?has_char_escape, ?A2, ?A3, ?A5, ?C2, ?C3, ?C5).
  - apply no_ddash_app; [done|by apply no_ddash_escape|by left].
  - by apply no_ddash_escape.
  - apply no_ddash_app; [by apply no_ddash_escape|done|by right].
Qed.

Lemma code_span_not_protected_witness :
  process_inline "`my_var_name`" = "<code>my<em>var</em>name</code>".
Proof.
  apply (code_span_not_protected "my" "var" "name"); reflexivity.
Defined.

(** ** The list of posts in the index page *)

Lemma find_sub_first (c : ascii) (l a r : string) :
  has_char c l = false → contains (String c l) a = false →
  find_sub (String c l) (a +:+ String c l +:+ r) = Some (a, r).
Proof.
  intros Hl Ha. induction a as [|x a IH].
  - rewrite app_nil_l_s. apply find_sub_here.
  - apply contains_cons in Ha as [Hx Ha].
    rewrite app_cons_s, find_sub_cons.
    assert (strip_prefix (String c l) (String x (a +:+ String c l +:+ r)) = None)
      as ->.
    { apply strip_prefix_None.
      destruct (startswith (String c l) (String x (a +:+ String c l +:+ r)))
        eqn:E; [|done].
      change (String x (a +:+ String c l +:+ r))
        with (String x a +:+ String c l +:+ r) in E.
      apply startswith_no_straddle in E; [exact (eq_trans (eq_sym E) Hx)|done|done]. }
    by rewrite IH.
Qed.

Lemma index_match_no_section (x : ascii) (s : string) :
  startswith section_open (String x s) = false → index_match (String x s) = None.
Proof.
  intros H. unfold index_match.
  apply strip_prefix_None in H. by rewrite H.
Qed.

(** Text in which the section does not open is copied. *)
Lemma sub_with_no_section (repl : list string → string) (a r : string) :
  contains section_open a = false →
  sub_with index_match repl 0 (a +:+ section_open +:+ r)
  = a +:+ sub_with index_match repl 0 (section_open +:+ r).
Proof.
  intros Ha. induction a as [|x a IH]; [by rewrite !app_nil_l_s|].
  apply contains_cons in Ha as [Hx Ha].
  rewrite !app_cons_s. cbn [sub_with].
  rewrite index_match_no_section; [by rewrite IH|].
  destruct (startswith section_open (String x (a +:+ section_open +:+ r)))
    eqn:E; [|done].
  change (String x (a +:+ section_open +:+ r))
    with (String x a +:+ section_open +:+ r) in E.
  apply (startswith_no_straddle "<"%char) in E;
    [exact (eq_trans (eq_sym E) Hx)|done|done].
Qed.

Lemma sub_with_none (repl : list string → string) (a : string) :
  contains section_open a = false → sub_with index_match repl 0 a = a.
Proof.
  intros Ha. induction a as [|x a IH]; [done|].
  apply contains_cons in Ha as [Hx Ha].
  cbn [sub_with]. rewrite index_match_no_section by done. by rewrite IH.
Qed.

Lemma sub_with_skip (m : string → option (list string * string))
    (repl : list string → string) (a b : string) :
  sub_with m repl (String.length a) (a +:+ b) = sub_with m repl 0 b.
Proof.
  induction a as [|x a IH]; [by destruct b|].
  rewrite app_cons_s. exact IH.
Qed.

Lemma find_list_open (mid r : string) :
  contains list_open mid = false →
  find_sub list_open (mid +:+ list_open +:+ r) = Some (mid, r).
Proof. by apply (find_sub_first "<"%char). Qed.

Lemma find_list_close (old r : string) :
  contains list_close old = false →
  find_sub list_close (old +:+ list_close +:+ r) = Some (old, r).
Proof. by apply (find_sub_first "<"%char). Qed.

Lemma index_match_section (mid old r : string) :
  contains list_open mid = false → contains list_close old = false →
  index_match (section_open +:+ mid +:+ list_open +:+ old +:+ list_close +:+ r)
  = Some ([section_open +:+ mid +:+ list_open +:+ old +:+ list_close;
           section_open +:+ mid +:+ list_open; old; list_close], r).
Proof.
  intros Hm Ho. unfold index_match. rewrite strip_prefix_app.
  rewrite find_list_open by done. by rewrite find_list_close.
Qed.

(** The section of the index: the list is replaced and the scan goes on. *)
Lemma sub_with_section (repl : list string → string) (mid old r : string) :
  contains list_open mid = false → contains list_close old = false →
  sub_with index_match repl 0
    (section_open +:+ mid +:+ list_open +:+ old +:+ list_close +:+ r)
  = repl [section_open +:+ mid +:+ list_open +:+ old +:+ list_close;
          section_open +:+ mid +:+ list_open; old; list_close]
    +:+ sub_with index_match repl 0 r.
Proof.
  intros Hm Ho.
  pose proof (index_match_section mid old r Hm Ho) as H.
  assert (section_open +:+ mid +:+ list_open +:+ old +:+ list_close +:+ r
          = String "<" ((str_drop 1 section_open +:+ mid +:+ list_open +:+ old
                         +:+ list_close) +:+ r)) as E.
  { rewrite !app_assoc_s. reflexivity. }
  rewrite E in *. cbn [sub_with]. rewrite H. f_equal.
  rewrite app_length_s.
  replace (String.length (str_drop 1 section_open +:+ mid +:+ list_open +:+ old
                          +:+ list_close) + String.length r - String.length r)
    with (String.length (str_drop 1 section_open +:+ mid +:+ list_open +:+ old
                          +:+ list_close)) by lia.
  apply sub_with_skip.
Qed.

(** *** The template *)

Lemma parse_template_plain (groups : nat) (x y : string) :
  has_char c_bs x = false →
  parse_template groups 0 (x +:+ y)
  = match parse_template groups 0 y with
    | Some ps => Some (lit_parts x ++ ps)
    | None => None
    end.
Proof.
  intros Hx. induction x as [|c x IH].
  - rewrite app_nil_l_s. by destruct (parse_template groups 0 y).
  - cbn [has_char] in Hx. apply orb_false_iff in Hx as [Hc Hx].
    rewrite app_cons_s. cbn [parse_template]. rewrite Hc, IH by done.
    by destruct (parse_template groups 0 y).
Qed.

Lemma expand_lit_parts (x : string) (ps : list tpart) (gs : list string) :
  expand_template (lit_parts x ++ ps) gs = x +:+ expand_template ps gs.
Proof.
  induction x as [|c x IH]; [done|].
  cbn [lit_parts app expand_template]. by rewrite IH.
Qed.

Lemma parse_template_escape (groups : nat) (s : string) :
  parse_template groups 0 (String c_bs s)
  = match escape_token groups s with
    | TError => None
    | TPart p len =>
        match parse_template groups len s with
        | Some ps => Some (p :: ps)
        | None => None
        end
    end.
Proof. reflexivity. Qed.

Lemma parse_template_step (groups : nat) (c : ascii) (s : string) :
  parse_template groups 1 (String c s) = parse_template groups 0 s.
Proof. reflexivity. Qed.

Lemma escape_token_newline (groups : nat) (r : string) :
  escape_token groups (String "n" r) = TPart (PLit nl) 1.
Proof. reflexivity. Qed.

(** The template of [update_index] for a block without backslash. *)
Lemma parse_replacement (block : string) :
  has_char c_bs block = false →
  parse_template 3 0 ("\1\n" +:+ block +:+ "\n            \3")
  = Some (PGroup 1 :: PLit nl :: lit_parts block
          ++ PLit nl :: lit_parts "            " ++ [PGroup 3]).
Proof.
  intros Hb.
  change ("\1\n" +:+ block +:+ "\n            \3")
    with (String c_bs (String "1" (String c_bs (String "n"
            (block +:+ "\n            \3"))))).
  rewrite parse_template_escape.
  change (escape_token 3 (String "1" (String c_bs (String "n"
            (block +:+ "\n            \3")))))
    with (TPart (PGroup 1) 1).
  cbv iota. rewrite parse_template_step, parse_template_escape.
  rewrite escape_token_newline. cbv iota.
  rewrite parse_template_step, parse_template_plain by done.
  reflexivity.
Qed.

Lemma sub_with_ext (m : string → option (list string * string))
    (f g : list string → string) (k : nat) (s : string) :
  (∀ gs, f gs = g gs) → sub_with m f k s = sub_with m g k s.
Proof.
  intros H. revert k. induction s as [|c s IH]; intros k; [done|].
  cbn [sub_with]. destruct k; [|apply IH].
  destruct (m (String c s)) as [[gs rest]|]; [|by rewrite IH].
  by rewrite IH, H.
Qed.

Lemma update_index_new (index_content : string) (posts : list post) :
  has_char c_bs (new_posts_block posts) = false →
  update_index (Some index_content) posts
  = let new_index :=
      sub_with index_match
        (λ gs, default EmptyString (gs !! 1) +:+ nl +:+ new_posts_block posts
               +:+ nl +:+ "            " +:+ default EmptyString (gs !! 3))
        0 index_content in
    if String.eqb new_index index_content then IndexKept
    else IndexWritten new_index.
Proof.
  intros Hb. unfold update_index. rewrite parse_replacement by done.
  cbv zeta.
  rewrite (sub_with_ext _ _
             (λ gs, default EmptyString (gs !! 1) +:+ nl +:+ new_posts_block posts
                    +:+ nl +:+ "            " +:+ default EmptyString (gs !! 3)));
    [done|].
  intros gs. cbn [expand_template]. rewrite expand_lit_parts.
  cbn [expand_template]. rewrite expand_lit_parts.
  cbn [expand_template]. by rewrite app_nil_r_s.
Qed.

(** The update of an index page with one section. *)
Lemma update_index_section (pre mid old after : string)
    (posts : list post) :
  contains section_open pre = false →
  contains list_open mid = false →
  contains list_close old = false →
  contains section_open after = false →
  has_char c_bs (new_posts_block posts) = false →
  update_index
    (Some (pre +:+ section_open +:+ mid +:+ list_open +:+ old +:+ list_close
           +:+ after)) posts
  = if String.eqb
         (pre +:+ section_open +:+ mid +:+ list_open +:+ nl
          +:+ new_posts_block posts +:+ nl +:+ "            " +:+ list_close
          +:+ after)
         (pre +:+ section_open +:+ mid +:+ list_open +:+ old +:+ list_close
          +:+ after)
    then IndexKept
    else IndexWritten
           (pre +:+ section_open +:+ mid +:+ list_open +:+ nl
            +:+ new_posts_block posts +:+ nl +:+ "            " +:+ list_close
            +:+ after).
Proof.
  intros Hpre Hmid Hold Hpost Hb.
  rewrite update_index_new by done. cbv zeta.
  rewrite sub_with_no_section by done.
  rewrite sub_with_section by done.
  rewrite sub_with_none by done.
  cbn [lookup list_lookup default]. unfold id.
  by rewrite !app_assoc_s.
Qed.

(** X24.  The list of the index is rebuilt in place.  For an index page
    [pre S mid U old </ul> after], where [S] opens the thoughts section and
    [U] the list of posts, each for the first time, [old] has no [</ul>] and
    the section does not open again in [after], and for posts whose entries
    hold no backslash, [update_index] replaces [old] by the new entries, on
    lines of their own, and keeps everything else; it writes the file when
    this changes the text. *)
Theorem update_index_replaces_list (pre mid old after : string)
    (posts : list post) :
  contains section_open pre = false →
  contains list_open mid = false →
  contains list_close old = false →
  contains section_open after = false →
  has_char c_bs (new_posts_block posts) = false →
  update_index
    (Some (pre +:+ section_open +:+ mid +:+ list_open +:+ old +:+ list_close
           +:+ after)) posts
  = if String.eqb
         (pre +:+ section_open +:+ mid +:+ list_open +:+ nl
          +:+ new_posts_block posts +:+ nl +:+ "            " +:+ list_close
          +:+ after)
         (pre +:+ section_open +:+ mid +:+ list_open +:+ old +:+ list_close
          +:+ after)
    then IndexKept
    else IndexWritten
           (pre +:+ section_open +:+ mid +:+ list_open +:+ nl
            +:+ new_posts_block posts +:+ nl +:+ "            " +:+ list_close
            +:+ after).
Proof. apply update_index_section. Qed.

Lemma update_index_replaces_list_witness :
  let p := {| title := "Hello"; date := "2024-05-01"; description := EmptyString;
              slug := "hello"; file := "2024-05-01-hello.md"; body := None;
              src := Markdown |} in
  update_index
    (Some ("<body>" +:+ section_open +:+ "<h2>thoughts</h2>" +:+ list_open
           +:+ "<li>old</li>" +:+ list_close +:+ "</section></body>")) [p]
  = IndexWritten
      ("<body>" +:+ section_open +:+ "<h2>thoughts</h2>" +:+ list_open +:+ nl
       +:+ new_posts_block [p] +:+ nl +:+ "            " +:+ list_close
       +:+ "</section></body>").
Proof.
  intros p.
  apply (update_index_replaces_list "<body>" "<h2>thoughts</h2>" "<li>old</li>"
           "</section></body>" [p]); reflexivity.
Defined.

(** X25.  Updating twice changes nothing more: after an update with
    entries that hold no [</ul>], the same update finds the text as it
    wants it and does not write. *)
Theorem update_index_idempotent (pre mid after : string) (posts : list post) :
  contains section_open pre = false →
  contains list_open mid = false →
  contains section_open after = false →
  has_char c_bs (new_posts_block posts) = false →
  contains list_close (nl +:+ new_posts_block posts +:+ nl +:+ "            ")
  = false →
  update_index
    (Some (pre +:+ section_open +:+ mid +:+ list_open +:+ nl
           +:+ new_posts_block posts +:+ nl +:+ "            " +:+ list_close
           +:+ after)) posts
  = IndexKept.
Proof.
  intros Hpre Hmid Hpost Hb Hc.
  pose proof (update_index_section pre mid
                (nl +:+ new_posts_block posts +:+ nl +:+ "            ")
                after posts Hpre Hmid Hc Hpost Hb) as H.
  rewrite !app_assoc_s in H. rewrite H. by rewrite String.eqb_refl.
Qed.

Lemma update_index_idempotent_witness :
  let p := {| title := "Hello"; date := "2024-05-01"; description := EmptyString;
              slug := "hello"; file := "2024-05-01-hello.md"; body := None;
              src := Markdown |} in
  update_index
    (Some ("<body>" +:+ section_open +:+ "<h2>thoughts</h2>" +:+ list_open +:+ nl
           +:+ new_posts_block [p] +:+ nl +:+ "            " +:+ list_close
           +:+ "</section></body>")) [p]
  = IndexKept.
Proof.
  intros p.
  apply (update_index_idempotent "<body>" "<h2>thoughts</h2>"
           "</section></body>" [p]); reflexivity.
Defined.

(** X26.  An index page in which the thoughts section does not open is
    left as it is, without a word: nothing is written. *)
Theorem update_index_no_section (index_content : string) (posts : list post) :
  contains section_open index_content = false →
  has_char c_bs (new_posts_block posts) = false →
  update_index (Some index_content) posts = IndexKept.
Proof.
  intros Hc Hb. rewrite update_index_new by done. cbv zeta.
  rewrite sub_with_none by done. by rewrite String.eqb_refl.
Qed.

Lemma update_index_no_section_witness :
  update_index (Some "<html><ul class=posts></ul></html>")
    [{| title := "Hello"; date := "2024-05-01"; description := EmptyString;
        slug := "hello"; file := "2024-05-01-hello.md"; body := None;
        src := Markdown |}]
  = IndexKept.
Proof. apply update_index_no_section; reflexivity. Defined.

Lemma escape_token_bad (groups : nat) (c : ascii) (r : string) :
  bad_escape_letter c = true → escape_token groups (String c r) = TError.
Proof.
  intros H.
  assert (ch_eqb c "g" = false ∧ ch_eqb c "0" = false ∧ is_digit c = false
          ∧ ch_eqb c "a" = false ∧ ch_eqb c "b" = false ∧ ch_eqb c "f" = false
          ∧ ch_eqb c "n" = false ∧ ch_eqb c "r" = false ∧ ch_eqb c "t" = false
          ∧ ch_eqb c "v" = false ∧ ch_eqb c c_bs = false
          ∧ is_ascii_letter c = true) as (E1&E2&E3&E4&E5&E6&E7&E8&E9&E10&E11&E12).
  { destruct c as [[] [] [] [] [] [] [] []]; try discriminate H;
      repeat split; reflexivity. }
  unfold escape_token.
  by rewrite E1, E2, E3, E4, E5, E6, E7, E8, E9, E10, E11, E12.
Qed.

(** X27.  A backslash in an entry is read as an escape of the replacement
    template: when the first backslash of the new entries is followed by a
    letter that is no escape (any letter but a, b, f, n, r, t, v, g),
    [re.sub] raises an error and [update_index] stops, whatever the index
    page holds. *)
Theorem update_index_bad_escape (index_content x y : string) (c : ascii)
    (posts : list post) :
  new_posts_block posts = x +:+ String c_bs (String c y) →
  has_char c_bs x = false →
  bad_escape_letter c = true →
  update_index (Some index_content) posts = IndexError.
Proof.
  intros Hblock Hx Hc. unfold update_index. rewrite Hblock.
  change ("\1\n" +:+ (x +:+ String c_bs (String c y)) +:+ "\n            \3")
    with (String c_bs (String "1" (String c_bs (String "n"
            ((x +:+ String c_bs (String c y)) +:+ "\n            \3"))))).
  rewrite parse_template_escape.
  change (escape_token 3 (String "1" (String c_bs (String "n"
            ((x +:+ String c_bs (String c y)) +:+ "\n            \3")))))
    with (TPart (PGroup 1) 1).
  cbv iota. rewrite parse_template_step, parse_template_escape.
  rewrite escape_token_newline. cbv iota.
  rewrite parse_template_step, app_assoc_s, parse_template_plain by done.
  rewrite app_cons_s, parse_template_escape, app_cons_s.
  by rewrite escape_token_bad.
Qed.

Lemma update_index_bad_escape_witness :
  update_index (Some "<html></html>")
    [{| title := "C:\docs"; date := "2024-05-01"; description := EmptyString;
        slug := "win"; file := "win.md"; body := None; src := Markdown |}]
  = IndexError.
Proof.
  apply (update_index_bad_escape _
           ("                <li>" +:+ nl
            +:+ "                    <span class=" +:+ dq +:+ "date" +:+ dq
            +:+ ">2024.05</span>" +:+ nl
            +:+ "                    <a href=" +:+ dq +:+ "thoughts/win.html"
            +:+ dq +:+ ">C:")
           ("ocs</a>" +:+ nl +:+ "                </li>") "d");
    reflexivity.
Defined.

(** ** Paragraphs *)

Lemma split_char_plain (c : ascii) (a : string) :
  has_char c a = false → split_char c a = [a].
Proof.
  induction a as [|x a IH]; intros Ha; [done|].
  cbn [has_char] in Ha. apply orb_false_iff in Ha as [Hx Ha].
  cbn [split_char]. by rewrite Hx, IH.
Qed.

Lemma split_char_join (ls : list string) :
  ls ≠ [] → Forall (λ l, has_char c_nl l = false) ls →
  split_char c_nl (join nl ls) = ls.
Proof.
  intros Hne H. induction H as [|l ls Hl Hls IH]; [done|].
  destruct ls as [|l' ls].
  - cbn [join]. by apply split_char_plain.
  - change (join nl (l :: l' :: ls)) with (l +:+ nl +:+ join nl (l' :: ls)).
    unfold nl at 1, str1. rewrite app_cons_s, app_nil_l_s.
    rewrite split_char_line by done. by rewrite IH.
Qed.

Lemma take_run_all (p : string → bool) (l : list string) :
  Forall (λ x, p x = true) l → take_run p l = l ∧ drop_run p l = [].
Proof.
  induction 1 as [|x l Hx _ [IH1 IH2]]; [done|].
  cbn [take_run drop_run]. by rewrite Hx, IH1, IH2.
Qed.

Lemma block_step_paragraph (line : string) (rest : list string) (st : conv_state) :
  in_code st = false → in_list st = false → starts_paragraph line = true →
  block_step line rest st
  = (emit_para (line :: take_run para_continues rest) st,
     drop_run para_continues rest).
Proof.
  intros Hcode Hlist Hs. unfold block_step.
  unfold starts_paragraph in Hs.
  repeat (apply andb_true_iff in Hs as [Hs ?]).
  repeat match goal with
  | H : negb _ = true |- _ => apply negb_true_iff in H
  end.
  unfold close_list. rewrite Hcode, Hlist. cbn [andb].
  repeat match goal with
  | H : ?b = false |- context [if ?b then _ else _] => rewrite H
  end.
  reflexivity.
Qed.

(** X28.  Lines that follow one another make one paragraph.  When the
    first line of a body starts a paragraph and every later line continues
    it (not blank, and not starting with one of the nine prefixes of the
    inner loop: a hash, a dash, an asterisk, a closing angle, three
    backticks, the opening of an image, three dashes, three asterisks or
    three underscores), the output is one [<p>] element: the lines joined
    by single spaces and formatted inline.  A line that starts with three
    underscores ends the paragraph like the others. *)
Theorem paragraph_joins_lines (line : string) (more : list string) :
  starts_paragraph line = true →
  Forall (λ l, para_continues l = true) more →
  Forall (λ l, has_char c_nl l = false) (line :: more) →
  markdown_to_html (join nl (line :: more))
  = "<p>" +:+ process_inline (join " " (line :: more)) +:+ "</p>".
Proof.
  intros Hs Hmore Hnl. unfold markdown_to_html.
  rewrite split_char_join by done.
  rewrite convert_lines_step, block_step_paragraph by done.
  destruct (take_run_all para_continues more Hmore) as [-> ->].
  reflexivity.
Qed.

Lemma paragraph_joins_lines_witness :
  markdown_to_html (join nl ["one *two*"; "  - three"; "four"])
  = "<p>one <em>two</em>   - three four</p>".
Proof.
  apply (paragraph_joins_lines "one *two*" ["  - three"; "four"]);
    [reflexivity | repeat constructor | repeat constructor].
Defined.

(** X30.  A line that begins with one of the markers always starts a new
    paragraph, also when it is no heading, item, rule, quote or image: the
    test that ends a paragraph looks at the first characters only.  A line
    that begins with emphasised text or with a hashtag is cut off from the
    paragraph before it. *)
Theorem marker_line_breaks_paragraph (l1 l2 : string) :
  starts_paragraph l1 = true → starts_paragraph l2 = true →
  para_continues l2 = false →
  has_char c_nl l1 = false → has_char c_nl l2 = false →
  markdown_to_html (l1 +:+ nl +:+ l2)
  = "<p>" +:+ process_inline l1 +:+ "</p>" +:+ html_sep
    +:+ "<p>" +:+ process_inline l2 +:+ "</p>".
Proof.
  intros Hs1 Hs2 Hc N1 N2. unfold markdown_to_html.
  change (l1 +:+ nl +:+ l2) with (join nl [l1; l2]).
  rewrite split_char_join by (done || by repeat constructor).
  rewrite convert_lines_step, block_step_paragraph by done.
  cbn [take_run drop_run]. rewrite Hc. cbn [fst snd].
  rewrite convert_lines_step, block_step_paragraph by done.
  cbn [take_run drop_run fst snd convert_lines]. unfold finish.
  cbn [emit_para emit in_list html_lines conv_init app join].
  by rewrite ?app_assoc_s.
Qed.

Lemma marker_line_breaks_paragraph_witness :
  markdown_to_html ("see" +:+ nl +:+ "*this* word")
  = "<p>see</p>" +:+ html_sep +:+ "<p><em>this</em> word</p>".
Proof.
  apply (marker_line_breaks_paragraph "see" "*this* word"); reflexivity.
Defined.

(** ** Publishing a post and reading its page back *)

Lemma four_digits_all (s : string) :
  four_digits s = true → all_chars is_digit s = true.
Proof.
  do 4 (destruct s as [|? s]; [done|]). destruct s; [|done].
  cbn [four_digits all_chars].
  by destruct (is_digit a), (is_digit a0), (is_digit a1), (is_digit a2).
Qed.

Lemma two_digits_all (s : string) :
  two_digits s = true → all_chars is_digit s = true.
Proof.
  do 2 (destruct s as [|? s]; [done|]). destruct s; [|done].
  cbn [two_digits all_chars].
  by destruct (is_digit a), (is_digit a0).
Qed.

Lemma digits_no_char (c : ascii) (s : string) :
  is_digit c = false → all_chars is_digit s = true → has_char c s = false.
Proof.
  intros Hc. induction s as [|x s IH]; [done|]. cbn [all_chars has_char].
  intros [Hx Hs]%andb_true_iff. rewrite IH by done.
  destruct (ch_eqb x c) eqn:E; [|done].
  apply ch_eqb_eq in E as ->. congruence.
Qed.

Lemma text_ok_no_brace (s : string) :
  has_char "{" s = false → text_ok s = true.
Proof.
  intros H. unfold text_ok.
  assert (no_dbrace s = true) as ->.
  { induction s as [|c s IH]; [done|]. cbn [has_char] in H.
    apply orb_false_iff in H as [Hc Hs]. cbn [no_dbrace].
    by rewrite IH, (ch_eqb_sym "{" c), Hc. }
  destruct s as [|c s]; [done|]. cbn [has_char head_is] in *.
  apply orb_false_iff in H as [Hc _]. by rewrite (ch_eqb_sym "{" c), Hc.
Qed.

(** X29.  What [publish_post] writes, [extract_metadata_from_html] reads
    back.  The template is made of text pieces and placeholders of
    [publish_post]; no text piece holds two opening braces in a row or
    begins with an opening brace; it shows the title in its title element,
    the description in its meta tag and the date in its date paragraph,
    each the first of its kind in the page.  The title, the description and
    the slug of the post hold no two opening braces in a row and do not
    begin with an opening brace either, so that no later replacement
    touches them; the title is not empty and has no [<], the description
    has no double quote, the slug is not empty, and the date is a calendar
    date YYYY-MM-DD with a year from 1000 on.  Then the page is written to
    the file of the slug, and the record read from it has the title, the
    description and the slug of the post; of the date it keeps the year and
    the month. *)
Theorem publish_then_read_back (h0 h1 h2 : string) (tail : list segment)
    (today : string) (md_file : entry) (yy mm dd : string) :
  text_ok h0 = true → text_ok h1 = true → text_ok h2 = true →
  Forall seg_ok tail →
  text_ok (info_title (publish_post today md_file)) = true →
  is_empty (info_title (publish_post today md_file)) = false →
  has_char c_lt (info_title (publish_post today md_file)) = false →
  text_ok (info_description (publish_post today md_file)) = true →
  has_char c_dquote (info_description (publish_post today md_file)) = false →
  text_ok (info_slug (publish_post today md_file)) = true →
  is_empty (info_slug (publish_post today md_file)) = false →
  info_date (publish_post today md_file) = yy +:+ "-" +:+ mm +:+ "-" +:+ dd →
  four_digits yy = true → two_digits mm = true → two_digits dd = true →
  valid_ymd (py_int yy) (py_int mm) (py_int dd) = true →
  (1000 ≤ py_int yy)%Z →
  contains "<title>" h0 = false →
  contains description_open
    (h0 +:+ "<title>" +:+ info_title (publish_post today md_file)
     +:+ " / sotoalt</title>" +:+ h1) = false →
  contains meta_open
    (h0 +:+ "<title>" +:+ info_title (publish_post today md_file)
     +:+ " / sotoalt</title>" +:+ h1 +:+ description_open
     +:+ info_description (publish_post today md_file) +:+ dq +:+ h2) = false →
  ∃ page,
    publish_output (Some (template_of (page_template h0 h1 h2 tail))) today md_file
    = Some (info_slug (publish_post today md_file) +:+ ".html", page)
    ∧ extract_metadata_from_html
        (info_slug (publish_post today md_file) +:+ ".html", page)
      = {| title := info_title (publish_post today md_file);
           date := yy +:+ "-" +:+ mm +:+ "-01";
           description := info_description (publish_post today md_file);
           slug := info_slug (publish_post today md_file);
           file := info_slug (publish_post today md_file) +:+ ".html";
           body := None; src := Html |}.
Proof.
  intros H0 H1 H2 Htail Tt Te Tl Dt Dq St Se Hdate Hy Hm Hd Hv Hk C0 C1 C2.
  set (info := publish_post today md_file) in *.
  eexists. split.
  - unfold publish_output. cbv zeta. fold info.
    rewrite fill_template_segs; [reflexivity| |done|done|done| |].
    + unfold page_template. apply Forall_app. split; [|done].
      repeat (constructor; [first [done | solve_fill]|]). constructor.
    + rewrite Hdate, format_date_display_valid by done.
      apply text_ok_no_brace. rewrite !has_char_app.
      rewrite (digits_no_char "{"%char yy), (digits_no_char "{"%char mm);
        [done|done|by apply two_digits_all|done|by apply four_digits_all].
    + apply reading_time_text_ok.
  - unfold page_template. cbn [app fill_of].
    unfold page_value at 1 2 3. cbn [String.eqb Ascii.eqb Bool.eqb].
    rewrite Hdate, format_date_display_valid by done.
    set (a3 := fill_of _ tail).
    rewrite (html_reads_page _ _ h0 (info_title info)
               (h1 +:+ description_open +:+ info_description info +:+ dq +:+ h2
                +:+ meta_open +:+ (yy +:+ "." +:+ mm) +:+ a3)
               (h0 +:+ "<title>" +:+ info_title info +:+ " / sotoalt</title>" +:+ h1)
               (info_description info)
               (h2 +:+ meta_open +:+ (yy +:+ "." +:+ mm) +:+ a3)
               (h0 +:+ "<title>" +:+ info_title info +:+ " / sotoalt</title>"
                +:+ h1 +:+ description_open +:+ info_description info +:+ dq
                +:+ h2)
               yy mm a3); try done.
    + f_equal.
      change (info_slug info +:+ ".html") with (info_slug info +:+ "." +:+ "html").
      by apply path_stem_suffix.
    + by rewrite !app_assoc_s.
    + by rewrite !app_assoc_s.
Qed.

Lemma publish_then_read_back_witness :
  ∃ page,
    publish_output
      (Some (template_of
               (page_template "<head>"
                  "<style>p{margin:0}</style>" "></head><body>"
                  [Text " / "; Hole "reading_time"; Text " min</p>";
                   Hole "content"; Text "</body>"])))
      "2024-06-01"
      ("2024-05-17-hello.md",
       "---" +:+ nl +:+ "title: Hello & welcome" +:+ nl +:+ "date: 2024-05-17"
       +:+ nl +:+ "description: first post" +:+ nl +:+ "---" +:+ nl +:+ "text")
    = Some ("hello" +:+ ".html", page)
    ∧ extract_metadata_from_html ("hello" +:+ ".html", page)
      = {| title := "Hello & welcome"; date := "2024" +:+ "-" +:+ "05" +:+ "-01";
           description := "first post"; slug := "hello";
           file := "hello" +:+ ".html"; body := None; src := Html |}.
Proof.
  apply (publish_then_read_back "<head>" "<style>p{margin:0}</style>"
           "></head><body>"
           [Text " / "; Hole "reading_time"; Text " min</p>";
            Hole "content"; Text "</body>"]
           "2024-06-01"
           ("2024-05-17-hello.md",
            "---" +:+ nl +:+ "title: Hello & welcome" +:+ nl
            +:+ "date: 2024-05-17" +:+ nl +:+ "description: first post" +:+ nl
            +:+ "---" +:+ nl +:+ "text")
           "2024" "05" "17");
    try reflexivity.
  - repeat (constructor; [first [reflexivity | solve_fill]|]). constructor.
  - vm_compute. congruence.
Defined.

(** ** C4: the address of a link *)



Lemma marked_copy_app (c : ascii) (X s s' : string) :
  marked c s s' → marked c (X +:+ s) (X +:+ s').
Proof.
  intros H. induction X as [|x X IH]; [by rewrite !app_nil_l_s|].
  rewrite !app_cons_s. by constructor.
Qed.

Lemma marked_refl (c : ascii) (s : string) : marked c s s.
Proof.
  rewrite <- (app_nil_r_s s). apply marked_copy_app. constructor.
Qed.

















(** The link has to be the first thing in brackets: an opening bracket
    before it can take the address into another hyperlink. *)
Example link_not_first_bracket :
  process_inline "[a](b[t](u)" = anchor "b[t](u" "a".
Proof. vm_compute. reflexivity. Qed.

(** One underscore in an address is not a pair: it stays. *)
Example link_single_underscore :
  process_inline "[a](x_y)" = anchor "x_y" "a".
Proof. vm_compute. reflexivity. Qed.
